(** * Order lifecycle and inventory consistency

    A shallow embedding of the order-management core:
    - [OrderService]    (services/order_service.py),
    - [OrderRepository] (repositories/order_repository.py),
    - [ProductRepository] (repositories/product_repository.py),
    - the asynchronous command handlers (messaging/order.py).

    The database is an explicit state.  Every repository and service method
    is a function from the state to an outcome and the state it leaves
    behind; a raised exception is an outcome, and the state that comes with
    it is what had been committed when the exception was raised.  A session
    lives for one request or one message ([provide_db_session],
    [subscribe_order]), so what a method had changed in its session without
    committing is gone when it raises.

    Monetary amounts (Python floats in the source) are exact numbers here:
    rounding is outside this model, which is about which terms are added.
    Since the sum of floats depends on the order in which they are added,
    a total is compared with the terms taken in the order in which the
    source adds them ([accumulate]).  Integer columns (32 bits in the
    engine) are unbounded here; the model speaks of quantities and stocks
    within the range of the column.  A query without ORDER BY returns its
    rows in an order the engine is free to choose: the order of the lists
    [orders] and [items] after an update is that of the model only, and
    what is said of the rows after an update is said up to their order. *)

From Stdlib Require Import ZArith String Ascii List Lia.
From stdpp Require Import gmap strings list pretty.

Local Open Scope Z_scope.

(** ** Data model (models/product.py, models/order.py) *)

(** A row of [products]; the primary key is the key of the table. *)
Record Product := mkProduct {
  price : Z;
  stock_quantity : Z
}.

(** A row of [order_items]. *)
Record OrderItem := mkOrderItem {
  oi_id : Z;
  oi_order_id : Z;
  oi_product_id : Z;
  oi_quantity : Z;
  oi_unit_price : Z
}.

(** A row of [orders] together with its [items] relationship, as the ORM
    hands it out ([selectinload(Order.items)], cascade "all, delete-orphan"). *)
Record Order := mkOrder {
  o_id : Z;
  user_id : Z;
  total_amount : Z;
  status : string;
  items : list OrderItem
}.

(** The committed database.  [orders] is the table as the model enumerates
    it, in insertion order; the two counters are the next primary keys of
    [orders] and [order_items]. *)
Record DB := mkDB {
  users : gset Z;
  products : gmap Z Product;
  orders : list Order;
  next_order_id : Z;
  next_item_id : Z
}.

(** An entry of the [items] list of a request: [{"product_id", "quantity"}]. *)
Record ItemIn := mkItemIn {
  product_id : Z;
  quantity : Z
}.

(** The body of a create request ([OrderCreate.model_dump()]). *)
Record OrderCreate := mkOrderCreate {
  oc_user_id : Z;
  oc_items : list ItemIn
}.

(** The [update_data] dictionary of [OrderService.update].  A key that is
    missing and a key bound to [None] are treated alike by the source, so
    both are [None] here.  [p_status] is the [status_str] the source
    derives ([status.value] of the enum, or [str(status)]). *)
Record Patch := mkPatch {
  p_status : option string;
  p_items : option (list ItemIn)
}.

(** [**patch] of [ProductRepository.update]: the attributes to set. *)
Record ProductPatch := mkProductPatch {
  pp_price : option Z;
  pp_stock_quantity : option Z
}.

(** Every failure of the core is a Python [ValueError]; the constructors
    keep the message apart.  In the taxonomy of the specification,
    [UserNotFound], [ProductNotFound] and [OrderNotFound] are NotFound,
    [InsufficientStock] is itself, and the others are InvalidArgument.
    [DataError] is the error the engine raises for a negative LIMIT or
    OFFSET, and [IntegrityViolation] the [IntegrityError] it raises when a
    row that must name a product would be left without one. *)
Inductive error :=
| UserNotFound (uid : Z)
| EmptyOrder
| BadQuantity
| ProductNotFound (pid : Z)
| InsufficientStock
| OrderNotFound (oid : Z)
| InvalidStatus
| OrderIdRequired
| StatusRequired
| ValidationError
| DataError
| IntegrityViolation.

Inductive result (A : Type) :=
| Ok (a : A)
| Raise (e : error).
Arguments Ok {A} a.
Arguments Raise {A} e.

(** ** Operations on the database: state passing with exceptions *)

Definition M (A : Type) : Type := DB -> result A * DB.

Definition ret {A} (a : A) : M A := fun db => (Ok a, db).

Definition raise {A} (e : error) : M A := fun db => (Raise e, db).

Definition bind {A B} (m : M A) (k : A -> M B) : M B :=
  fun db =>
    match m db with
    | (Ok a, db') => k a db'
    | (Raise e, db') => (Raise e, db')
    end.

Notation "'do' x <- m ; k" := (bind m (fun x => k))
  (at level 10, x pattern, m at level 100, k at level 200).

(** [for x in l: body(x)] *)
Fixpoint for_each {A} (body : A -> M unit) (l : list A) : M unit :=
  match l with
  | [] => ret tt
  | x :: l' => do _ <- body x; for_each body l'
  end.

(** [for x in l: acc = body(acc, x)] *)
Fixpoint fold_loop {A S} (body : S -> A -> M S) (acc : S) (l : list A) : M S :=
  match l with
  | [] => ret acc
  | x :: l' => do acc' <- body acc x; fold_loop body acc' l'
  end.

(** ** Repositories *)

(** [UserRepository.get_by_id]; of a user only the id is used. *)
Definition UserRepository_get_by_id (uid : Z) : M (option Z) :=
  fun db => (Ok (if bool_decide (uid ∈ users db) then Some uid else None), db).

(** [ProductRepository.get_by_id]: [session.get(Product, product_id)]. *)
Definition ProductRepository_get_by_id (pid : Z) : M (option Product) :=
  fun db => (Ok (products db !! pid), db).

Definition set_products (ps : gmap Z Product) (db : DB) : DB :=
  mkDB (users db) ps (orders db) (next_order_id db) (next_item_id db).

Definition apply_product_patch (patch : ProductPatch) (p : Product) : Product :=
  mkProduct (default (price p) (pp_price patch))
            (default (stock_quantity p) (pp_stock_quantity patch)).

(** [ProductRepository.update]: sets the given attributes and commits;
    [None] when the product does not exist. *)
Definition ProductRepository_update (pid : Z) (patch : ProductPatch)
  : M (option Product) :=
  fun db =>
    match products db !! pid with
    | None => (Ok None, db)
    | Some p =>
        let p' := apply_product_patch patch p in
        (Ok (Some p'), set_products (<[pid := p']> (products db)) db)
    end.

Definition stock_patch (n : Z) : ProductPatch := mkProductPatch None (Some n).

(** The item rows that name product [pid]: [Product.order_items]. *)
Definition rows_of_product (pid : Z) (db : DB) : list OrderItem :=
  List.filter (fun r => oi_product_id r =? pid) (concat (map items (orders db))).

(** [ProductRepository.delete].  [Product.order_items] has no cascade, so
    [session.delete(product)] sets [product_id] of the rows that name the
    product to NULL; the column is NOT NULL, the commit raises
    [IntegrityError] and nothing is deleted. *)
Definition ProductRepository_delete (pid : Z) : M unit :=
  do product <- ProductRepository_get_by_id pid;
  match product with
  | Some _ =>
      fun db =>
        match rows_of_product pid db with
        | [] => (Ok tt, set_products (delete pid (products db)) db)
        | _ :: _ => (Raise IntegrityViolation, db)
        end
  | None => ret tt
  end.

(** [OrderRepository.get_by_id]: the order with its items, or [None]. *)
Definition find_order (oid : Z) (os : list Order) : option Order :=
  List.find (fun o => o_id o =? oid) os.

Definition OrderRepository_get_by_id (oid : Z) : M (option Order) :=
  fun db => (Ok (find_order oid (orders db)), db).

(** The body of the loop of [OrderRepository.create]: the accumulator is
    the item rows added to the session so far and the running [total]. *)
Definition create_item (oid : Z) (acc : list OrderItem * Z) (it : ItemIn)
  : M (list OrderItem * Z) :=
  let '(rows, total) := acc in
  do product <- ProductRepository_get_by_id (product_id it);
  match product with
  | None => raise (ProductNotFound (product_id it))
  | Some p =>
      let unit_price := price p in
      fun db =>
        let oi := mkOrderItem (next_item_id db + Z.of_nat (length rows)) oid
                    (product_id it) (quantity it) unit_price in
        (Ok (rows ++ [oi], total + quantity it * unit_price), db)
  end.

(** [session.commit()] of a new order and its item rows. *)
Definition commit_new_order (o : Order) : M Order :=
  fun db =>
    (Ok o, mkDB (users db) (products db) (orders db ++ [o])
             (next_order_id db + 1)
             (next_item_id db + Z.of_nat (length (items o)))).

(** [session.flush()] of the order header has drawn its primary key from
    the sequence of [orders], and a sequence is not rolled back: when the
    rest of the method raises, the header is gone with the session but its
    key is not given out again.  (The session is made with
    [autoflush=False]: the item rows are not flushed before the commit.) *)
Definition take_order_id (db : DB) : DB :=
  mkDB (users db) (products db) (orders db) (next_order_id db + 1)
       (next_item_id db).

Definition after_flush {A} (m : M A) : M A :=
  fun db =>
    match m db with
    | (Ok a, db') => (Ok a, db')
    | (Raise e, db') => (Raise e, take_order_id db')
    end.

(** [OrderRepository.create].  Nothing is committed before the last line:
    when the user or a product is missing the exception leaves the session
    uncommitted, and the request-scoped session is discarded. *)
Definition OrderRepository_create (uid : Z) (its : list ItemIn) : M Order :=
  do user <- UserRepository_get_by_id uid;
  match user with
  | None => raise (UserNotFound uid)
  | Some _ =>
      fun db =>
        let oid := next_order_id db in
        after_flush
          (do (rows, total) <- fold_loop (create_item oid) ([], 0) its;
           commit_new_order (mkOrder oid uid total "pending" rows)) db
  end.

(** ** OrderService.create_order *)

(** First loop: [if it["quantity"] <= 0: raise]. *)
Definition check_quantity (it : ItemIn) : M unit :=
  if quantity it <=? 0 then raise BadQuantity else ret tt.

(** Second loop: resolve the product and compare the stock.  The
    accumulator is [total] and [updated_products]; a product object is
    held by reference (the session's identity map), so it is recorded by
    its primary key. *)
Definition check_stock (acc : Z * list (Z * Z)) (it : ItemIn)
  : M (Z * list (Z * Z)) :=
  let '(total, updated_products) := acc in
  do product <- ProductRepository_get_by_id (product_id it);
  match product with
  | None => raise (ProductNotFound (product_id it))
  | Some p =>
      if stock_quantity p <? quantity it then raise InsufficientStock
      else ret (total + price p * quantity it,
                updated_products ++ [(product_id it, quantity it)])
  end.

(** Third loop: [product.stock_quantity -= quantity] on the shared product
    object, then [product_repository.update(product.id, stock_quantity=...)]. *)
Definition decrement_stock (pq : Z * Z) : M unit :=
  let '(pid, qty) := pq in
  do product <- ProductRepository_get_by_id pid;
  match product with
  | None => ret tt
  | Some p =>
      do _ <- ProductRepository_update pid (stock_patch (stock_quantity p - qty));
      ret tt
  end.

Definition create_order (order_data : OrderCreate) : M Order :=
  let uid := oc_user_id order_data in
  do user <- UserRepository_get_by_id uid;
  match user with
  | None => raise (UserNotFound uid)
  | Some u =>
      let its := oc_items order_data in
      match its with
      | [] => raise EmptyOrder
      | _ =>
          do _ <- for_each check_quantity its;
          do (total, updated_products) <- fold_loop check_stock (0, []) its;
          do _ <- for_each decrement_stock updated_products;
          OrderRepository_create u its
      end
  end.

(** ** OrderRepository.update: item reconciliation *)

(** [existing_by_product = {int(i.product_id): i for i in order.items}].
    The dictionary holds the item objects by reference; here it holds the
    position of the item in [order.items].  A later item with the same
    product replaces an earlier one, as in a dictionary comprehension. *)
Fixpoint index_by_product (i : nat) (rows : list OrderItem) (m : gmap Z nat)
  : gmap Z nat :=
  match rows with
  | [] => m
  | r :: rows' => index_by_product (S i) rows' (<[oi_product_id r := i]> m)
  end.

Definition existing_by_product (rows : list OrderItem) : gmap Z nat :=
  index_by_product 0 rows ∅.

(** What the loop over [new_items] has done to the session so far. *)
Record Diff := mkDiff {
  d_rows : list OrderItem;      (* [order.items], updated in place *)
  d_added : list OrderItem;     (* rows added with [session.add(new_oi)] *)
  d_seen : gset Z;              (* [seen_product_ids] *)
  d_total : Z                   (* [total] *)
}.

Definition set_quantity_price (qty unit_price : Z) (r : OrderItem) : OrderItem :=
  mkOrderItem (oi_id r) (oi_order_id r) (oi_product_id r) qty unit_price.

(** The body of [for ni in new_items].  [total += qty * unit_price] adds
    the terms in the order of the request. *)
Definition diff_item (oid : Z) (ebp : gmap Z nat) (d : Diff) (ni : ItemIn)
  : M Diff :=
  let pid := product_id ni in
  let qty := quantity ni in
  let seen := {[pid]} ∪ d_seen d in
  do product <- ProductRepository_get_by_id pid;
  match product with
  | None => raise (ProductNotFound pid)
  | Some p =>
      let unit_price := price p in
      match ebp !! pid with
      | Some i =>
          ret (mkDiff (alter (set_quantity_price qty unit_price) i (d_rows d))
                      (d_added d) seen (d_total d + qty * unit_price))
      | None =>
          fun db =>
            let new_oi :=
              mkOrderItem (next_item_id db + Z.of_nat (length (d_added d)))
                          oid pid qty unit_price in
            (Ok (mkDiff (d_rows d) (d_added d ++ [new_oi]) seen
                        (d_total d + qty * unit_price)), db)
      end
  end.

(** [for pid, existing in existing_by_product.items():
       if pid not in seen_product_ids: session.delete(existing)] *)
Definition rows_to_delete (ebp : gmap Z nat) (seen : gset Z) : list nat :=
  (map_to_list ebp) ≫= (fun '(pid, i) => if bool_decide (pid ∈ seen) then [] else [i]).

Definition remove_rows (del : list nat) (rows : list OrderItem) : list OrderItem :=
  concat (imap (fun i r => if bool_decide (i ∈ del) then [] else [r]) rows).

(** The item rows of the order once the session is committed and
    [order.items] is refreshed: the surviving rows, then the new rows.
    The relationship has no [order_by]: the refresh may hand out these
    rows in another order. *)
Definition items_after (ebp : gmap Z nat) (d : Diff) : list OrderItem :=
  remove_rows (rows_to_delete ebp (d_seen d)) (d_rows d) ++ d_added d.

Definition set_status (s : string) (o : Order) : Order :=
  mkOrder (o_id o) (user_id o) (total_amount o) s (items o).

(** The table [orders] once order [o'] is written back.  The stored orders
    are the same but for [o']; where the engine enumerates [o'] among them
    afterwards is not fixed by the source, which lists without ORDER BY. *)
Definition replace_order (o' : Order) (os : list Order) : list Order :=
  map (fun o => if o_id o =? o_id o' then o' else o) os.

(** [session.commit()] of an updated order; [added] new item rows have
    taken primary keys. *)
Definition commit_order (o' : Order) (added : nat) : M (option Order) :=
  fun db =>
    (Ok (Some o'),
     mkDB (users db) (products db) (replace_order o' (orders db))
          (next_order_id db) (next_item_id db + Z.of_nat added)).

(** [OrderRepository.update].  As in [create], an exception in the loop
    leaves the session uncommitted. *)
Definition OrderRepository_update (oid : Z) (patch : Patch) : M (option Order) :=
  do order <- OrderRepository_get_by_id oid;
  match order with
  | None => ret None
  | Some order =>
      let order :=
        match p_status patch with
        | Some s => set_status s order
        | None => order
        end in
      match p_items patch with
      | Some new_items =>
          let ebp := existing_by_product (items order) in
          do d <- fold_loop (diff_item (o_id order) ebp)
                    (mkDiff (items order) [] ∅ 0) new_items;
          commit_order
            (mkOrder (o_id order) (user_id order) (d_total d) (status order)
                     (items_after ebp d))
            (length (d_added d))
      | None => commit_order order 0
      end
  end.

(** [OrderRepository.delete] *)
Definition OrderRepository_delete (oid : Z) : M unit :=
  do order <- OrderRepository_get_by_id oid;
  match order with
  | None => ret tt
  | Some o =>
      fun db =>
        (Ok tt, mkDB (users db) (products db)
                  (List.filter (fun o' => negb (o_id o' =? o_id o)) (orders db))
                  (next_order_id db) (next_item_id db))
  end.

(** [OrderRepository.list].  The engine the application is configured for
    rejects a negative LIMIT or OFFSET. *)
Definition where_user (uid : option Z) (os : list Order) : list Order :=
  match uid with
  | Some u => List.filter (fun o => user_id o =? u) os
  | None => os
  end.

Definition where_status (st : option string) (os : list Order) : list Order :=
  match st with
  | Some s => List.filter (fun o => String.eqb (status o) s) os
  | None => os
  end.

Definition OrderRepository_list (limit offset : Z)
    (uid : option Z) (st : option string) : M (Z * list Order) :=
  fun db =>
    let all_rows := where_status st (where_user uid (orders db)) in
    let total := Z.of_nat (length all_rows) in
    if (limit <? 0) || (offset <? 0) then (Raise DataError, db)
    else (Ok (total, take (Z.to_nat limit) (drop (Z.to_nat offset) all_rows)), db).

(** ** OrderService: get_by_id, delete, update, get_by_filter *)

Definition OrderService_get_by_id (oid : Z) : M Order :=
  do order <- OrderRepository_get_by_id oid;
  match order with
  | None => raise (OrderNotFound oid)
  | Some o => ret o
  end.

Definition OrderService_delete (oid : Z) : M unit :=
  do order <- OrderRepository_get_by_id oid;
  match order with
  | None => raise (OrderNotFound oid)
  | Some _ => OrderRepository_delete oid
  end.

Definition valid_statuses : list string :=
  ["pending"; "processing"; "shipped"; "delivered"; "cancelled"]%string.

(** The body of [for item in order.items] on cancellation. *)
Definition restore_stock (item : OrderItem) : M unit :=
  do product <- ProductRepository_get_by_id (oi_product_id item);
  match product with
  | Some p =>
      let new_stock := stock_quantity p + oi_quantity item in
      do _ <- ProductRepository_update (oi_product_id item) (stock_patch new_stock);
      ret tt
  | None => ret tt
  end.

(** The [status] branch of [OrderService.update]: the value it leaves in
    [order_fields], if any. *)
Definition update_status_field (order : Order) (st : option string)
  : M (option string) :=
  match st with
  | Some status_str =>
      if negb (bool_decide (status_str ∈ valid_statuses)) then raise InvalidStatus
      else
        do _ <- (if String.eqb status_str "cancelled"
                    && negb (String.eqb (status order) "cancelled")
                 then for_each restore_stock (items order)
                 else ret tt);
        ret (Some status_str)
  | None => ret None
  end.

Definition OrderService_update (oid : Z) (update_data : Patch) : M (option Order) :=
  do order <- OrderRepository_get_by_id oid;
  match order with
  | None => raise (OrderNotFound oid)
  | Some order =>
      do status_field <- update_status_field order (p_status update_data);
      let items_field :=
        option_map (map (fun item => mkItemIn (product_id item) (quantity item)))
                   (p_items update_data) in
      match status_field, items_field with
      | None, None => ret (Some order)
      | _, _ => OrderRepository_update oid (mkPatch status_field items_field)
      end
  end.

(** Python's [l[start:stop]]. *)
Definition py_slice {A} (l : list A) (start stop : Z) : list A :=
  let n := Z.of_nat (length l) in
  let clamp i := if i <? 0 then Z.max 0 (i + n) else Z.min i n in
  let a := clamp start in
  let b := clamp stop in
  take (Z.to_nat (b - a)) (drop (Z.to_nat a) l).

(** [OrderService.get_by_filter].  [accepts_filters] says whether the
    [list] of the injected repository takes the [user_id] and [status]
    keywords; when it does not, the call raises [TypeError] and the
    [except] branch runs. *)
Definition get_by_filter (accepts_filters : bool) (count page : Z)
    (uid : option Z) (st : option string) : M (Z * list Order) :=
  let offset := (page - 1) * count in
  if accepts_filters then OrderRepository_list count offset uid st
  else
    do (total, all_orders) <- OrderRepository_list 1000 0 None None;
    let filtered_orders := all_orders in
    let filtered_orders :=
      match uid with
      | Some u => List.filter (fun o => user_id o =? u) filtered_orders
      | None => filtered_orders
      end in
    let filtered_orders :=
      match st with
      | Some s => List.filter (fun o => String.eqb (status o) s) filtered_orders
      | None => filtered_orders
      end in
    let total := Z.of_nat (length filtered_orders) in
    ret (total, py_slice filtered_orders offset (offset + count)).

(** ** Asynchronous command handlers (messaging/order.py) *)

(** A decoded JSON value of a message. *)
#[local] Unset Elimination Schemes.
Inductive JValue :=
| JNull
| JBool (b : bool)
| JInt (n : Z)
| JStr (s : string)
| JList (l : list JValue)
| JObj (kvs : list (string * JValue)).
#[local] Set Elimination Schemes.

(** Python truthiness, as used by [if not order_id]. *)
Definition truthy (v : JValue) : bool :=
  match v with
  | JNull => false
  | JBool b => b
  | JInt n => negb (n =? 0)
  | JStr s => negb (String.eqb s "")
  | JList l => match l with [] => false | _ => true end
  | JObj kvs => match kvs with [] => false | _ => true end
  end.

(** [data.get(key)] *)
Definition dict_get (key : string) (data : gmap string JValue) : JValue :=
  default JNull (data !! key).

Section Handlers.
Context {A : Type}.

(** The [update] method of the [service] argument, called with the order
    id and the [update_data] dictionary exactly as the handler built
    them. *)
Variable service_update : JValue -> gmap string JValue -> M A.

(** [OrderUpdate] built from [data], then [model_dump(exclude_unset=True)]:
    the validation of the schema library, which raises on a malformed
    body. *)
Variable OrderUpdate_dump : gmap string JValue -> result (gmap string JValue).

(** The [try]/[except] of the handlers logs and re-raises, and the value
    returned by the service is only logged. *)
Definition handle_order_update_status (data : gmap string JValue) : M unit :=
  let order_id := dict_get "order_id" data in
  let new_status := dict_get "status" data in
  if negb (truthy order_id) then raise OrderIdRequired
  else if negb (truthy new_status) then raise StatusRequired
  else
    let update_data : gmap string JValue := {[ "status"%string := new_status ]} in
    do _ <- service_update order_id update_data;
    ret tt.

Definition handle_order_update (data : gmap string JValue) : M unit :=
  let order_id := dict_get "order_id" data in
  let data := delete "order_id"%string data in
  if negb (truthy order_id) then raise OrderIdRequired
  else
    match OrderUpdate_dump data with
    | Raise e => raise e
    | Ok update_data =>
        do _ <- service_update order_id update_data;
        ret tt
    end.
End Handlers.

(** ** The subscriber of the order queue (messaging/order.py) *)

(** A message of the queue: [message.get("action")] and
    [message.get("data", {})], the latter an object. *)
Record Envelope := mkEnvelope {
  action : JValue;
  data : gmap string JValue
}.

(** [action == "..."] *)
Definition is_str (s : string) (v : JValue) : bool :=
  match v with
  | JStr t => String.eqb t s
  | _ => false
  end.

Section Subscriber.
Context {A B : Type}.

(** The two methods of the [OrderService] that the subscriber builds, seen
    through the dictionaries they are called with, and the two schema
    validations ([OrderCreate] and [OrderUpdate], then [model_dump]). *)
Variable service_create_order : gmap string JValue -> M A.
Variable service_update : JValue -> gmap string JValue -> M B.
Variable OrderCreate_dump : gmap string JValue -> result (gmap string JValue).
Variable OrderUpdate_dump : gmap string JValue -> result (gmap string JValue).

Definition handle_order_create (data : gmap string JValue) : M unit :=
  match OrderCreate_dump data with
  | Raise e => raise e
  | Ok order_create =>
      do _ <- service_create_order order_create;
      ret tt
  end.

(** [subscribe_order]: an unknown action is logged, nothing is raised. *)
Definition subscribe_order (message : Envelope) : M unit :=
  if is_str "create" (action message) then
    handle_order_create (data message)
  else if is_str "update_status" (action message) then
    handle_order_update_status service_update (data message)
  else if is_str "update" (action message) then
    handle_order_update service_update OrderUpdate_dump (data message)
  else ret tt.
End Subscriber.

(** ** ProductRepository: list and get_by_filter *)

(** [ProductRepository.list]: the rows with their primary keys.  The query
    has no ORDER BY; the rows come by primary key here, and in an order of
    the engine's choosing in the source. *)
Definition ProductRepository_list : M (list (Z * Product)) :=
  fun db => (Ok (map_to_list (products db)), db).

(** [ProductRepository.get_by_filter]: [page] and [count] below 1 are
    replaced by 1 and 10 before the query is built. *)
Definition ProductRepository_get_by_filter (count page : Z)
  : M (Z * list (Z * Product)) :=
  fun db =>
    let page := if page <? 1 then 1 else page in
    let count := if count <? 1 then 10 else count in
    let total := Z.of_nat (size (products db)) in
    let offset := (page - 1) * count in
    if (count <? 0) || (offset <? 0) then (Raise DataError, db)
    else (Ok (total, take (Z.to_nat count)
                       (drop (Z.to_nat offset) (map_to_list (products db)))), db).

(** ** The error decorator (utils/db_error_handler.py) *)

(** [str.lower] on ASCII text. *)
Definition ascii_lower (c : ascii) : ascii :=
  let n := nat_of_ascii c in
  if (65 <=? n)%nat && (n <=? 90)%nat then ascii_of_nat (n + 32) else c.

Fixpoint lower (s : string) : string :=
  match s with
  | EmptyString => EmptyString
  | String c s' => String (ascii_lower c) (lower s')
  end.

(** [needle in hay] *)
Fixpoint contains (needle hay : string) : bool :=
  String.prefix needle hay ||
  match hay with
  | EmptyString => false
  | String _ hay' => contains needle hay'
  end.

(** [sep.join(l)] *)
Fixpoint join (sep : string) (l : list string) : string :=
  match l with
  | [] => EmptyString
  | [x] => x
  | x :: l' => x +:+ sep +:+ join sep l'
  end.

(** The exceptions that [handle_db_errors] tells apart, in the order of
    its [except] clauses.  [IntegrityError] carries [str(exc.orig)], if it
    can be had. *)
Inductive exception :=
| NotFoundException (detail : string)
| IntegrityError (orig : option string)
| OperationalError
| ValueError (msg : string)
| OtherException.

(** What the decorated handler answers: its value, or an HTTP error. *)
Inductive response (A : Type) :=
| Returned (a : A)
| HTTPException (status_code : Z) (detail : string).
Arguments Returned {A} a.
Arguments HTTPException {A} status_code detail.

Definition _extract_integrity_detail (orig : option string) : string :=
  let orig_msg := match orig with Some m => lower m | None => EmptyString end in
  if contains "email" orig_msg then "Email already exists"%string
  else if contains "username" orig_msg then "Username already exists"%string
  else "Database integrity error (duplicate or constraint violation)"%string.

Definition handle_db_errors {A} (outcome : A + exception) : response A :=
  match outcome with
  | inl a => Returned a
  | inr (NotFoundException detail) => HTTPException 404 detail
  | inr (IntegrityError orig) => HTTPException 409 (_extract_integrity_detail orig)
  | inr OperationalError =>
      HTTPException 503 "Database unavailable, try again later"
  | inr (ValueError e) =>
      let msg := if String.eqb e "" then "Invalid value"%string else e in
      if contains "not found" (lower msg) then HTTPException 404 msg
      else HTTPException 400 msg
  | inr OtherException => HTTPException 500 "Internal server error"
  end.

(** The messages of the [ValueError]s that the order service, the order
    repository and the handlers raise, by kind. *)
Definition error_messages (e : error) : list string :=
  match e with
  | UserNotFound uid =>
      ["User not found " +:+ pretty uid; "User " +:+ pretty uid +:+ " not found"]
  | EmptyOrder => ["Order must have at least one item"]
  | BadQuantity => ["Quantity must be greater than 0"]
  | ProductNotFound pid => ["Product " +:+ pretty pid +:+ " not found"]
  | InsufficientStock => ["Insufficient stock"]
  | OrderNotFound oid => ["Order " +:+ pretty oid +:+ " not found"]
  | InvalidStatus =>
      ["Invalid status. Must be one of: " +:+ join ", " valid_statuses]
  | OrderIdRequired => ["order_id is required"; "order_id is required for update"]
  | StatusRequired => ["status is required"]
  | ValidationError => []
  | DataError => []
  | IntegrityViolation => []
  end%string.

(** * Vocabulary of the properties *)

(** An operation that only reads. *)
Definition read_only {A} (m : M A) : Prop := forall db, snd (m db) = db.

Definition is_ok {A} (r : result A) : Prop :=
  match r with
  | Ok _ => True
  | Raise _ => False
  end.

(** An item that does not pass the second loop of [create_order]: its
    product is absent, or its quantity exceeds the stock. *)
Definition fails_validation (db : DB) (it : ItemIn) : Prop :=
  match products db !! product_id it with
  | None => True
  | Some p => stock_quantity p < quantity it
  end.

(** The sum of [unit_price * quantity] over item rows. *)
Definition items_total (rows : list OrderItem) : Z :=
  foldr (fun r acc => oi_unit_price r * oi_quantity r + acc) 0 rows.

(** The quantity that the item rows hold of product [pid]. *)
Definition held_quantity (pid : Z) (rows : list OrderItem) : Z :=
  foldr (fun r acc => if oi_product_id r =? pid then oi_quantity r + acc else acc)
        0 rows.

(** The quantity that the items of a request ask of product [pid]. *)
Definition requested_quantity (pid : Z) (its : list ItemIn) : Z :=
  foldr (fun it acc => if product_id it =? pid then quantity it + acc else acc)
        0 its.

Definition add_stock (n : Z) (p : Product) : Product :=
  mkProduct (price p) (stock_quantity p + n).

(** An update that moves an order into [cancelled]: the only update that
    runs the restitution loop. *)
Definition cancels (db : DB) (oid : Z) (patch : Patch) : Prop :=
  p_status patch = Some "cancelled"%string /\
  exists order,
    find_order oid (orders db) = Some order /\ status order <> "cancelled"%string.

(** The request item that repeats an item row. *)
Definition item_of_row (r : OrderItem) : ItemIn :=
  mkItemIn (oi_product_id r) (oi_quantity r).

(** The current price of a product (0 when it does not exist). *)
Definition price_of (db : DB) (pid : Z) : Z :=
  default 0 (price <$> products db !! pid).

(** The sum of [quantity * current price] over the items of a request. *)
Definition request_total (db : DB) (its : list ItemIn) : Z :=
  foldr (fun it acc => quantity it * price_of db (product_id it) + acc) 0 its.

(** [total = 0; for t in terms: total += t]: the terms are added one after
    the other, the first one first, as the source accumulates a total. *)
Definition accumulate (terms : list Z) : Z := fold_left Z.add terms 0.

(** The terms [qty * unit_price] that [OrderRepository.update] adds up for
    a request, in the order of the request, at the current prices. *)
Definition request_terms (db : DB) (its : list ItemIn) : list Z :=
  map (fun ni => quantity ni * price_of db (product_id ni)) its.

(** The terms [quantity * unit_price] of item rows, in the order of the
    rows. *)
Definition row_terms (rows : list OrderItem) : list Z :=
  map (fun r => oi_quantity r * oi_unit_price r) rows.

(** The position of the last row of product [pid], if there is one. *)
Fixpoint last_index (pid : Z) (rows : list OrderItem) : option nat :=
  match rows with
  | [] => None
  | r :: rows' =>
      match last_index pid rows' with
      | Some k => Some (S k)
      | None => if oi_product_id r =? pid then Some 0%nat else None
      end
  end.

(** The last item of a request that names product [pid], if there is one. *)
Fixpoint last_request (pid : Z) (its : list ItemIn) : option ItemIn :=
  match its with
  | [] => None
  | x :: its' =>
      match last_request pid its' with
      | Some y => Some y
      | None => if product_id x =? pid then Some x else None
      end
  end.

(** A row after the request [its] has been applied to it: the quantity of
    the last item that names its product, at the current price. *)
Definition reconciled_row (db : DB) (its : list ItemIn) (r : OrderItem)
  : OrderItem :=
  match last_request (oi_product_id r) its with
  | Some ni =>
      set_quantity_price (quantity ni) (price_of db (oi_product_id r)) r
  | None => r
  end.

(** The rows inserted for the items of [its] whose product is not among
    [known]; [n] rows have been inserted before. *)
Fixpoint inserted_rows (oid : Z) (db : DB) (known : list Z) (n : nat)
    (its : list ItemIn) : list OrderItem :=
  match its with
  | [] => []
  | ni :: its' =>
      if bool_decide (product_id ni ∈ known)
      then inserted_rows oid db known n its'
      else mkOrderItem (next_item_id db + Z.of_nat n) oid (product_id ni)
             (quantity ni) (price_of db (product_id ni))
           :: inserted_rows oid db known (S n) its'
  end.

(** ** Sample databases *)

(** One user; product 1 at price 50 with 100 in stock, product 2 at price
    20 with 3 in stock; no orders. *)
Definition shop : DB :=
  mkDB {[ 1 ]} (<[1 := mkProduct 50 100]> (<[2 := mkProduct 20 3]> ∅)) [] 1 1.

(** [shop] after user 1 has ordered two units of product 1. *)
Definition shop_with_order : DB :=
  snd (create_order (mkOrderCreate 1 [mkItemIn 1 2]) shop).

(** [shop_with_order] after the order has been delivered. *)
Definition shop_delivered : DB :=
  snd (OrderService_update 1 (mkPatch (Some "delivered"%string) None)
         shop_with_order).


(** [shop] after user 1 has ordered product 1 in two separate lines. *)
Definition shop_two_lines : DB :=
  snd (create_order (mkOrderCreate 1 [mkItemIn 1 1; mkItemIn 1 2]) shop).


(** A store in which the order of user 1 holds two units of product 1 and
    one of product 2, and product 2 is not in the catalogue. *)
Definition shop_product_gone : DB :=
  mkDB {[ 1 ]} (<[1 := mkProduct 50 98]> ∅)
       [mkOrder 1 1 120 "pending"
          [mkOrderItem 1 1 1 2 50; mkOrderItem 2 1 2 1 20]]
       2 3.

(** A service whose [update] cancels order 1 whatever it is given, and a
    schema validation that accepts every body. *)
Definition cancelling_service (_ : JValue) (_ : gmap string JValue)
  : M (option Order) :=
  OrderService_update 1 (mkPatch (Some "cancelled"%string) None).

Definition accept_all (data : gmap string JValue) : result (gmap string JValue) :=
  Ok data.

(** A database with 1001 orders of user 1, one unit of product 1 each. *)
Definition crowded : DB :=
  mkDB {[ 1 ]} (<[1 := mkProduct 50 0]> ∅)
       (map (fun i : nat =>
               let n := Z.of_nat i in
               mkOrder n 1 50 "pending" [mkOrderItem n n 1 1 50])
            (seq 1 1001))
       1002 1002.

(** The [total] of a listing, when it returns. *)
Definition total_of (r : result (Z * list Order) * DB) : option Z :=
  match fst r with
  | Ok (total, _) => Some total
  | Raise _ => None
  end.

(** ** Vocabulary of the further properties *)

(** The values of a 32-bit INTEGER column. *)
Definition int32 (n : Z) : Prop := - 2 ^ 31 <= n < 2 ^ 31.

(** The arguments of [OrderRepository.create] are values the engine takes
    for the integer columns they are compared with or stored in. *)
Definition fits_columns (uid : Z) (its : list ItemIn) : Prop :=
  int32 uid /\
  forall it, it ∈ its -> int32 (product_id it) /\ int32 (quantity it).

(** An item that passes the second loop of [create_order]. *)
Definition passes_validation (db : DB) (it : ItemIn) : Prop :=
  exists p, products db !! product_id it = Some p /\ quantity it <= stock_quantity p.

(** A create request that passes every check of [create_order]. *)
Definition valid_request (db : DB) (order_data : OrderCreate) : Prop :=
  oc_user_id order_data ∈ users db /\
  oc_items order_data <> [] /\
  forall it, it ∈ oc_items order_data -> 0 < quantity it /\ passes_validation db it.

(** The error of the second loop of [create_order] at an item that does
    not pass. *)
Definition validation_error (db : DB) (it : ItemIn) : error :=
  match products db !! product_id it with
  | None => ProductNotFound (product_id it)
  | Some _ => InsufficientStock
  end.

(** The primary keys of the orders are distinct and below the counter, and
    every status is one of the five. *)
Definition orders_ok (db : DB) : Prop :=
  NoDup (map o_id (orders db)) /\
  forall o, o ∈ orders db ->
    o_id o < next_order_id db /\ status o ∈ valid_statuses.

(** The filters of a listing, as a test on orders. *)
Definition matches (uid : option Z) (st : option string) (o : Order) : bool :=
  match uid with Some u => user_id o =? u | None => true end &&
  match st with Some s => String.eqb (status o) s | None => true end.

(** The items of page [p] of a listing, when it returns. *)
Definition page_of (f : bool) (count : Z) (uid : option Z) (st : option string)
    (db : DB) (p : Z) : list Order :=
  match fst (get_by_filter f count p uid st db) with
  | Ok (_, page) => page
  | Raise _ => []
  end.

(** The kinds of error that mean "not found". *)
Definition not_found_kind (e : error) : bool :=
  match e with
  | UserNotFound _ | ProductNotFound _ | OrderNotFound _ => true
  | _ => false
  end.

Definition set_orders (os : list Order) (db : DB) : DB :=
  mkDB (users db) (products db) os (next_order_id db) (next_item_id db).

(** ** Further sample data *)

(** [shop_with_order] after two more orders of user 1, one unit of
    product 1 and one of product 2. *)
Definition shop_three_orders : DB :=
  snd (create_order (mkOrderCreate 1 [mkItemIn 2 1])
         (snd (create_order (mkOrderCreate 1 [mkItemIn 1 1]) shop_with_order))).

(** A service whose [create_order] orders one unit of product 1 for user
    1 whatever it is given. *)
Definition creating_service (_ : gmap string JValue) : M Order :=
  create_order (mkOrderCreate 1 [mkItemIn 1 1]).

(** * Properties *)

(** ** The state-passing operations *)

Lemma read_only_ret {A} (a : A) : read_only (ret a).
Proof. intros db. reflexivity. Qed.

Lemma read_only_raise {A} (e : error) : read_only (@raise A e).
Proof. intros db. reflexivity. Qed.

Lemma read_only_bind {A B} (m : M A) (k : A -> M B) :
  read_only m -> (forall a, read_only (k a)) -> read_only (bind m k).
Proof.
  intros Hm Hk db. unfold bind. specialize (Hm db).
  destruct (m db) as [[a|e] db']; simpl in *; subst; [apply Hk | reflexivity].
Qed.

Lemma read_only_for_each {A} (body : A -> M unit) (l : list A) :
  (forall x, read_only (body x)) -> read_only (for_each body l).
Proof.
  intros Hb. induction l as [|x l IH]; simpl.
  - apply read_only_ret.
  - apply read_only_bind; auto.
Qed.

Lemma read_only_fold_loop {A S} (body : S -> A -> M S) (l : list A) :
  (forall s x, read_only (body s x)) -> forall s, read_only (fold_loop body s l).
Proof.
  intros Hb. induction l as [|x l IH]; intros s; simpl.
  - apply read_only_ret.
  - apply read_only_bind; auto.
Qed.

Lemma read_only_get_product pid : read_only (ProductRepository_get_by_id pid).
Proof. intros db. reflexivity. Qed.

Lemma read_only_get_user uid : read_only (UserRepository_get_by_id uid).
Proof. intros db. reflexivity. Qed.

Lemma read_only_get_order oid : read_only (OrderRepository_get_by_id oid).
Proof. intros db. reflexivity. Qed.

Create HintDb read_only.
#[local] Hint Resolve read_only_ret read_only_raise read_only_bind
  read_only_for_each read_only_fold_loop read_only_get_product
  read_only_get_user read_only_get_order : read_only.

Lemma read_only_check_quantity it : read_only (check_quantity it).
Proof.
  unfold check_quantity. destruct (quantity it <=? 0); auto with read_only.
Qed.

Lemma read_only_check_stock acc it : read_only (check_stock acc it).
Proof.
  destruct acc as [total ups]. unfold check_stock.
  apply read_only_bind; [auto with read_only|].
  intros [p|]; [|auto with read_only].
  destruct (stock_quantity p <? quantity it); auto with read_only.
Qed.

(** Enters [OrderService.update] for an order that is there. *)
Ltac enter_update Hfind :=
  unfold OrderService_update, bind at 1, OrderRepository_get_by_id;
  rewrite Hfind; unfold update_status_field.

(** ** create_order: validation comes before every write *)

Lemma check_stock_fails db (its : list ItemIn) :
  forall acc k it,
    its !! k = Some it -> fails_validation db it ->
    exists e, fold_loop check_stock acc its db = (Raise e, db).
Proof.
  induction its as [|x its IH]; intros acc k it Hk Hf; [destruct k; discriminate|].
  pose proof (read_only_check_stock acc x db) as Hro.
  simpl. unfold bind at 1.
  destruct (check_stock acc x db) as [[acc'|e] db'] eqn:Hx; simpl in Hro; subst db'.
  - destruct k as [|k]; simpl in Hk.
    + injection Hk as ->. exfalso.
      destruct acc as [total ups]. unfold check_stock, bind, fails_validation in *.
      unfold ProductRepository_get_by_id in Hx.
      destruct (products db !! product_id it) as [p|]; [|discriminate].
      destruct (stock_quantity p <? quantity it) eqn:Hlt; [discriminate|].
      apply Z.ltb_ge in Hlt. lia.
    + eapply IH; eauto.
  - eauto.
Qed.

(** C1.  When some item [k] of a create request names a product that does
    not exist or asks for more than its [stock_quantity], [create_order]
    raises and leaves the whole database as it was: no stock is changed,
    also not for the items before [k], and no order or item row is added. *)
Theorem create_order_atomic_validation (db : DB) (order_data : OrderCreate)
    (k : nat) (it : ItemIn) :
  oc_items order_data !! k = Some it ->
  fails_validation db it ->
  exists e, create_order order_data db = (Raise e, db).
Proof.
  intros Hk Hf. unfold create_order.
  unfold bind at 1. unfold UserRepository_get_by_id at 1.
  destruct (bool_decide (oc_user_id order_data ∈ users db)); [|eexists; reflexivity].
  destruct (oc_items order_data) as [|x its] eqn:Hits; [destruct k; discriminate|].
  rewrite <- Hits in *. clear Hits x its.
  unfold bind at 1.
  pose proof (read_only_for_each check_quantity (oc_items order_data)
                read_only_check_quantity db) as Hq.
  destruct (for_each check_quantity (oc_items order_data) db) as [[[]|e] db'];
    simpl in Hq; subst db'; [|eexists; reflexivity].
  destruct (check_stock_fails db _ (0, []) k it Hk Hf) as [e He].
  unfold bind at 1. rewrite He. eexists; reflexivity.
Qed.

(** ** Cancellation: stock restitution *)

Lemma set_products_same db : set_products (products db) db = db.
Proof. destruct db; reflexivity. Qed.

Lemma restore_stock_spec item db :
  restore_stock item db =
  (Ok tt, set_products (alter (add_stock (oi_quantity item)) (oi_product_id item)
                              (products db)) db).
Proof.
  unfold restore_stock, bind, ProductRepository_get_by_id, ProductRepository_update.
  destruct (products db !! oi_product_id item) as [p|] eqn:Hp; simpl.
  - rewrite Hp. simpl. f_equal. f_equal.
    apply map_eq. intros j. rewrite lookup_alter, lookup_insert.
    destruct (decide (oi_product_id item = j)) as [<-|]; [|reflexivity].
    rewrite Hp. reflexivity.
  - f_equal. rewrite <- (set_products_same db) at 1. f_equal.
    apply map_eq. intros j. rewrite lookup_alter.
    destruct (decide (oi_product_id item = j)) as [<-|]; [|reflexivity].
    rewrite Hp. reflexivity.
Qed.

(** The product table after the restitution loop over [rows]. *)
Lemma for_each_restore_stock rows : forall db,
  exists ps,
    for_each restore_stock rows db = (Ok tt, set_products ps db) /\
    forall pid, ps !! pid = add_stock (held_quantity pid rows) <$> products db !! pid.
Proof.
  induction rows as [|r rows IH]; intros db; simpl.
  - exists (products db). rewrite set_products_same. split; [reflexivity|].
    intros pid. destruct (products db !! pid) as [[pr st]|]; simpl; [|reflexivity].
    unfold add_stock; simpl. do 2 f_equal. lia.
  - unfold bind. rewrite restore_stock_spec.
    destruct (IH (set_products (alter (add_stock (oi_quantity r)) (oi_product_id r)
                                      (products db)) db)) as (ps & Hrun & Hps).
    exists ps. split; [rewrite Hrun; reflexivity|].
    intros pid. rewrite Hps. simpl. rewrite lookup_alter.
    destruct (decide (oi_product_id r = pid)) as [->|Hne].
    + rewrite Z.eqb_refl.
      destruct (products db !! pid) as [[pr st]|]; simpl; [|reflexivity].
      unfold add_stock; simpl. do 2 f_equal. lia.
    + apply Z.eqb_neq in Hne. rewrite Hne. reflexivity.
Qed.

(** ** What [OrderRepository.update] does to the database *)

Lemma read_only_diff_item oid ebp d ni : read_only (diff_item oid ebp d ni).
Proof.
  unfold diff_item. apply read_only_bind; [auto with read_only|].
  intros [p|]; [|auto with read_only].
  destruct (ebp !! product_id ni); [auto with read_only|].
  intros db. reflexivity.
Qed.

Lemma find_order_id oid os o : find_order oid os = Some o -> o_id o = oid.
Proof.
  unfold find_order. intros H. apply find_some in H as [_ H].
  apply Z.eqb_eq in H. exact H.
Qed.

Lemma find_order_replace oid os o o' :
  find_order oid os = Some o -> o_id o' = oid ->
  find_order oid (replace_order o' os) = Some o'.
Proof.
  unfold find_order, replace_order. intros H Hid. subst oid.
  induction os as [|x os IH]; simpl in *; [discriminate|].
  destruct (o_id x =? o_id o') eqn:Hx.
  - rewrite Z.eqb_refl. reflexivity.
  - rewrite Hx. auto.
Qed.

(** With the order present, [OrderRepository.update] either raises and
    commits nothing, or commits one order in place of the old one. *)
Lemma OrderRepository_update_cases oid patch db order :
  find_order oid (orders db) = Some order ->
  (exists e, OrderRepository_update oid patch db = (Raise e, db)) \/
  (exists o' n,
      OrderRepository_update oid patch db =
      (Ok (Some o'),
       mkDB (users db) (products db) (replace_order o' (orders db))
            (next_order_id db) n) /\
      o_id o' = oid /\ user_id o' = user_id order /\
      status o' = default (status order) (p_status patch) /\
      (p_items patch = None ->
       items o' = items order /\ total_amount o' = total_amount order)).
Proof.
  intros Hfind. pose proof (find_order_id _ _ _ Hfind) as Hid.
  unfold OrderRepository_update, bind, OrderRepository_get_by_id.
  rewrite Hfind.
  set (order1 := match p_status patch with
                 | Some s => set_status s order
                 | None => order
                 end).
  assert (Hs : status order1 = default (status order) (p_status patch))
    by (subst order1; destruct (p_status patch); reflexivity).
  assert (Ho : o_id order1 = oid /\ user_id order1 = user_id order /\
               items order1 = items order /\
               total_amount order1 = total_amount order)
    by (subst order1; destruct (p_status patch); simpl; auto).
  destruct Ho as (Ho1 & Ho2 & Ho3 & Ho4).
  destruct (p_items patch) as [new_items|].
  - pose proof (read_only_fold_loop (diff_item (o_id order1)
                  (existing_by_product (items order1))) new_items
                  (read_only_diff_item _ _)
                  (mkDiff (items order1) [] ∅ 0) db) as Hro.
    destruct (fold_loop _ _ new_items db) as [[d|e] db'];
      simpl in Hro; subst db'.
    + right. eexists _, _. split; [reflexivity|]. simpl. repeat split; auto.
      all: discriminate.
    + left. eauto.
  - right. eexists _, _. split; [reflexivity|]. repeat split; auto.
Qed.

Lemma OrderRepository_update_products oid patch db :
  products (snd (OrderRepository_update oid patch db)) = products db.
Proof.
  destruct (find_order oid (orders db)) as [order|] eqn:Hfind.
  - destruct (OrderRepository_update_cases oid patch db order Hfind)
      as [[e ->]|(o' & n & -> & _)]; reflexivity.
  - unfold OrderRepository_update, bind, OrderRepository_get_by_id.
    rewrite Hfind. reflexivity.
Qed.

Lemma copy_items (l : list ItemIn) :
  map (fun item => mkItemIn (product_id item) (quantity item)) l = l.
Proof. induction l as [|[p q] l IH]; simpl; [|rewrite IH]; reflexivity. Qed.

Lemma cancelled_is_valid : bool_decide ("cancelled"%string ∈ valid_statuses) = true.
Proof. reflexivity. Qed.

(** An update that asks for [cancelled]: the restitution, keyed off the
    status the order had, and then the repository update. *)
Lemma OrderService_update_cancel oid patch db order :
  find_order oid (orders db) = Some order ->
  p_status patch = Some "cancelled"%string ->
  exists ps,
    OrderService_update oid patch db =
    OrderRepository_update oid patch (set_products ps db) /\
    forall pid,
      ps !! pid =
      (if String.eqb (status order) "cancelled" then products db !! pid
       else add_stock (held_quantity pid (items order)) <$> products db !! pid).
Proof.
  intros Hfind Hst.
  enter_update Hfind. rewrite Hst.
  rewrite cancelled_is_valid. simpl negb. cbv iota.
  replace (String.eqb "cancelled" "cancelled") with true by reflexivity.
  simpl andb.
  assert (Hp : mkPatch (Some "cancelled"%string)
                 (option_map (map (fun item =>
                    mkItemIn (product_id item) (quantity item))) (p_items patch))
               = patch).
  { destruct patch as [s its]; simpl in *. subst s. f_equal.
    destruct its; simpl; [rewrite copy_items|]; reflexivity. }
  destruct (String.eqb (status order) "cancelled") eqn:Hc; simpl negb; cbv iota.
  - exists (products db). rewrite set_products_same. split; [|reflexivity].
    unfold bind, ret. simpl. rewrite Hp. reflexivity.
  - destruct (for_each_restore_stock (items order) db) as (ps & Hrun & Hps).
    exists ps. split; [|exact Hps].
    unfold bind. rewrite Hrun. simpl. rewrite Hp. reflexivity.
Qed.

Lemma eqb_cancelled_false (s : string) :
  s <> "cancelled"%string -> String.eqb s "cancelled" = false.
Proof. intros H. apply String.eqb_neq. exact H. Qed.

Lemma eqb_cancelled_true (s : string) :
  s = "cancelled"%string -> String.eqb s "cancelled" = true.
Proof. intros ->. reflexivity. Qed.

(** C3.  An update that asks for [cancelled] on an order that is not
    cancelled adds, for every product, the quantity the order's items hold
    of it to the product's stock, once; on an order that is already
    cancelled it changes no stock.  So when the update has succeeded,
    repeating it changes no stock again: restitution depends on the status
    the order had before the update. *)
Theorem cancellation_restitution_once (db : DB) (oid : Z) (order : Order)
    (patch : Patch) :
  find_order oid (orders db) = Some order ->
  p_status patch = Some "cancelled"%string ->
  let run1 := OrderService_update oid patch db in
  let run2 := OrderService_update oid patch (snd run1) in
  (status order <> "cancelled"%string ->
   forall pid,
     products (snd run1) !! pid =
     add_stock (held_quantity pid (items order)) <$> products db !! pid) /\
  (status order = "cancelled"%string -> products (snd run1) = products db) /\
  (is_ok (fst run1) -> products (snd run2) = products (snd run1)).
Proof.
  intros Hfind Hst run1 run2.
  destruct (OrderService_update_cancel oid patch db order Hfind Hst)
    as (ps & Hrun & Hps).
  assert (Hp1 : products (snd run1) = ps).
  { subst run1. rewrite Hrun, OrderRepository_update_products. reflexivity. }
  split; [|split].
  - intros Hnc pid. rewrite Hp1, Hps, (eqb_cancelled_false _ Hnc). reflexivity.
  - intros Hc. rewrite Hp1. apply map_eq. intros pid.
    rewrite Hps, (eqb_cancelled_true _ Hc). reflexivity.
  - intros Hok.
    assert (Hfind' : find_order oid (orders (set_products ps db)) = Some order)
      by exact Hfind.
    destruct (OrderRepository_update_cases oid patch _ order Hfind')
      as [[e He]|(o' & n & Ho' & Hid & _ & Hs & _)].
    + subst run1. rewrite Hrun, He in Hok. contradiction.
    + assert (Hdb1 : find_order oid (orders (snd run1)) = Some o').
      { subst run1. rewrite Hrun, Ho'. simpl.
        eapply find_order_replace; eauto. }
      rewrite Hst in Hs. simpl in Hs.
      destruct (OrderService_update_cancel oid patch (snd run1) o' Hdb1 Hst)
        as (ps2 & Hrun2 & Hps2).
      subst run2. rewrite Hrun2, OrderRepository_update_products. simpl.
      apply map_eq. intros pid.
      rewrite Hps2, (eqb_cancelled_true _ Hs). reflexivity.
Qed.

(** C10.  When an order that is not cancelled is cancelled and one of its
    items names a product that no longer exists, no error is raised: the
    update succeeds with status [cancelled], the missing product stays
    missing, and every product that exists gets back the quantity the
    order's items hold of it. *)
Theorem cancellation_skips_missing_product (db : DB) (oid : Z) (order : Order)
    (item : OrderItem) :
  find_order oid (orders db) = Some order ->
  status order <> "cancelled"%string ->
  item ∈ items order ->
  products db !! oi_product_id item = None ->
  exists o' db',
    OrderService_update oid (mkPatch (Some "cancelled"%string) None) db
      = (Ok (Some o'), db') /\
    status o' = "cancelled"%string /\
    items o' = items order /\
    find_order oid (orders db') = Some o' /\
    products db' !! oi_product_id item = None /\
    forall pid,
      products db' !! pid =
      add_stock (held_quantity pid (items order)) <$> products db !! pid.
Proof.
  intros Hfind Hnc _ Hmissing.
  set (patch := mkPatch (Some "cancelled"%string) None).
  destruct (OrderService_update_cancel oid patch db order Hfind eq_refl)
    as (ps & Hrun & Hps).
  assert (Hfind' : find_order oid (orders (set_products ps db)) = Some order)
    by exact Hfind.
  destruct (OrderRepository_update_cases oid patch _ order Hfind')
    as [[e He]|(o' & n & Ho' & Hid & _ & Hs & Hit)].
  - exfalso. revert He.
    unfold OrderRepository_update, bind, OrderRepository_get_by_id.
    rewrite Hfind'. simpl. discriminate.
  - destruct (Hit eq_refl) as [Hitems _].
    exists o', (mkDB (users db) ps (replace_order o' (orders db))
                     (next_order_id db) n).
    rewrite Hrun, Ho'. simpl. repeat split; auto.
    + eapply find_order_replace; eauto.
    + rewrite Hps, (eqb_cancelled_false _ Hnc), Hmissing. reflexivity.
    + intros pid. rewrite Hps, (eqb_cancelled_false _ Hnc). reflexivity.
Qed.

(** ** Which operations change product stock *)


(** ** The status check of [OrderService.update] *)

(** C5, counterexample.  The delivered order of [shop_delivered] is moved
    back to [pending] by an ordinary update: [delivered] is not terminal. *)
Lemma delivered_is_not_terminal :
  status <$> find_order 1 (orders shop_delivered) = Some "delivered"%string /\
  exists o' db',
    OrderService_update 1 (mkPatch (Some "pending"%string) None) shop_delivered
      = (Ok (Some o'), db') /\
    status o' = "pending"%string /\
    status <$> find_order 1 (orders db') = Some "pending"%string.
Proof.
  split; [vm_compute; reflexivity|].
  eexists _, _. split; [vm_compute; reflexivity|].
  split; vm_compute; reflexivity.
Qed.

(** C5, as the code has it.  For an order that exists, in whatever status,
    an update to any of the five statuses succeeds and stores the status
    asked for; a status outside the five is refused and nothing is
    changed. *)
Theorem any_valid_status_is_accepted (db : DB) (oid : Z) (order : Order)
    (s : string) :
  find_order oid (orders db) = Some order ->
  (s ∈ valid_statuses ->
   exists o' db',
     OrderService_update oid (mkPatch (Some s) None) db = (Ok (Some o'), db') /\
     status o' = s /\
     find_order oid (orders db') = Some o') /\
  (s ∉ valid_statuses ->
   forall its,
     OrderService_update oid (mkPatch (Some s) its) db = (Raise InvalidStatus, db)).
Proof.
  intros Hfind. split.
  - intros Hs.
    assert (Hrun : exists ps,
               OrderService_update oid (mkPatch (Some s) None) db =
               OrderRepository_update oid (mkPatch (Some s) None)
                 (set_products ps db)).
    { enter_update Hfind. simpl p_status. cbv beta iota.
      rewrite (bool_decide_eq_true_2 _ Hs). simpl negb. cbv iota.
      destruct (String.eqb s "cancelled" && negb (String.eqb (status order) "cancelled")).
      - destruct (for_each_restore_stock (items order) db) as (ps & Hr & _).
        exists ps. unfold bind. rewrite Hr. reflexivity.
      - exists (products db). rewrite set_products_same. reflexivity. }
    destruct Hrun as (ps & Hrun).
    assert (Hfind' : find_order oid (orders (set_products ps db)) = Some order)
      by exact Hfind.
    destruct (OrderRepository_update_cases oid (mkPatch (Some s) None) _ order Hfind')
      as [[e He]|(o' & n & Ho' & Hid & _ & Hst & _)].
    + exfalso. revert He.
      unfold OrderRepository_update, bind, OrderRepository_get_by_id.
      rewrite Hfind'. simpl. discriminate.
    + eexists _, _. rewrite Hrun, Ho'. split; [reflexivity|].
      split; [exact Hst|]. simpl. eapply find_order_replace; eauto.
  - intros Hs its.
    enter_update Hfind. simpl p_status. cbv beta iota.
    rewrite (bool_decide_eq_false_2 _ Hs). reflexivity.
Qed.

(** ** Asynchronous commands without an order id *)

(** C9.  When the payload of an [update_status] or [update] command has
    no ["order_id"], the handler raises "order_id is required" whatever
    the service would do: the service is not called and the database is
    as it was. *)
Theorem missing_order_id_is_rejected {A : Type}
    (service_update : JValue -> gmap string JValue -> M A)
    (OrderUpdate_dump : gmap string JValue -> result (gmap string JValue))
    (data : gmap string JValue) (db : DB) :
  data !! "order_id"%string = None ->
  handle_order_update_status service_update data db = (Raise OrderIdRequired, db) /\
  handle_order_update service_update OrderUpdate_dump data db
    = (Raise OrderIdRequired, db).
Proof.
  intros Hmissing.
  unfold handle_order_update_status, handle_order_update, dict_get.
  rewrite Hmissing. simpl. split; reflexivity.
Qed.

(** ** Listing: the fallback path against the filtered query *)

Lemma py_slice_window {A} (l : list A) (a c : Z) :
  0 <= a -> 0 <= c ->
  py_slice l a (a + c) = take (Z.to_nat c) (drop (Z.to_nat a) l).
Proof.
  intros Ha Hc. unfold py_slice.
  destruct (a <? 0) eqn:Ea; [apply Z.ltb_lt in Ea; lia|].
  destruct (a + c <? 0) eqn:Eac; [apply Z.ltb_lt in Eac; lia|].
  set (n := Z.of_nat (length l)).
  destruct (Z.le_gt_cases n a) as [Hge|Hlt].
  - rewrite (Z.min_r a n) by lia.
    rewrite !drop_ge by lia. rewrite !take_nil. reflexivity.
  - rewrite (Z.min_l a n) by lia.
    destruct (Z.le_gt_cases (a + c) n) as [Hin|Hout].
    + rewrite (Z.min_l (a + c) n) by lia. do 2 f_equal. lia.
    + rewrite (Z.min_r (a + c) n) by lia.
      rewrite !take_ge; [reflexivity| |]; rewrite length_drop; lia.
Qed.

(** C8, counterexample.  With 1001 orders and no filter the filtered query
    counts 1001 and the fallback path, which fetches 1000 rows, counts
    1000.  And for page 0 the offset is negative: the filtered query is
    refused by the engine, while the slice of the fallback path is an
    empty page. *)
Lemma fallback_differs_from_native :
  (total_of (get_by_filter true 10 1 None None crowded) = Some 1001 /\
   total_of (get_by_filter false 10 1 None None crowded) = Some 1000) /\
  (fst (get_by_filter true 10 0 None None shop_with_order) = Raise DataError /\
   fst (get_by_filter false 10 0 None None shop_with_order) = Ok (1, [])).
Proof. repeat split; vm_compute; reflexivity. Qed.

(** C8, as the code has it.  When the store holds at most 1000 orders, for
    every filter, every [count >= 0] and every [page >= 1], the fallback
    path returns the [(total, items)] of the filtered query. *)
Theorem fallback_listing_matches_native (db : DB) (count page : Z)
    (uid : option Z) (st : option string) :
  (length (orders db) <= 1000)%nat ->
  0 <= count -> 1 <= page ->
  get_by_filter false count page uid st db
  = get_by_filter true count page uid st db.
Proof.
  intros Hlen Hcount Hpage.
  assert (Hoff : 0 <= (page - 1) * count) by nia.
  unfold get_by_filter, OrderRepository_list, bind, ret.
  simpl where_user. simpl where_status.
  replace (1000 <? 0) with false by reflexivity.
  replace (0 <? 0) with false by reflexivity.
  destruct (count <? 0) eqn:Ec; [apply Z.ltb_lt in Ec; lia|].
  destruct ((page - 1) * count <? 0) eqn:Eo; [apply Z.ltb_lt in Eo; lia|].
  simpl orb. cbv iota beta.
  replace (Z.to_nat 0) with 0%nat by reflexivity. rewrite drop_0.
  rewrite take_ge by (replace (Z.to_nat 1000) with 1000%nat by reflexivity; lia).
  change (match uid with
          | Some u => List.filter (fun o => user_id o =? u) (orders db)
          | None => orders db
          end) with (where_user uid (orders db)).
  change (match st with
          | Some s => List.filter (fun o => String.eqb (status o) s)
                        (where_user uid (orders db))
          | None => where_user uid (orders db)
          end) with (where_status st (where_user uid (orders db))).
  rewrite py_slice_window by assumption. reflexivity.
Qed.

(** ** The item reconciliation of [OrderRepository.update] *)

Lemma index_by_product_lookup rows : forall i m pid,
  index_by_product i rows m !! pid =
  match last_index pid rows with
  | Some k => Some (i + k)%nat
  | None => m !! pid
  end.
Proof.
  induction rows as [|r rows IH]; intros i m pid; simpl; [reflexivity|].
  rewrite IH. destruct (last_index pid rows) as [k|].
  - f_equal. lia.
  - rewrite lookup_insert.
    destruct (decide (oi_product_id r = pid)) as [->|Hne].
    + rewrite Z.eqb_refl. f_equal. lia.
    + apply Z.eqb_neq in Hne. rewrite Hne. reflexivity.
Qed.

(** The dictionary of the diff maps a product to its last row. *)
Lemma existing_by_product_lookup rows pid :
  existing_by_product rows !! pid = last_index pid rows.
Proof.
  unfold existing_by_product. rewrite index_by_product_lookup.
  destruct (last_index pid rows); [reflexivity|apply lookup_empty].
Qed.

Lemma last_index_Some pid rows k :
  last_index pid rows = Some k ->
  exists r, rows !! k = Some r /\ oi_product_id r = pid.
Proof.
  revert k. induction rows as [|x rows IH]; intros k; simpl; [discriminate|].
  destruct (last_index pid rows) as [j|].
  - intros [= <-]. destruct (IH j eq_refl) as (r & Hr & Hp). eauto.
  - destruct (oi_product_id x =? pid) eqn:Hx; [|discriminate].
    intros [= <-]. apply Z.eqb_eq in Hx. eauto.
Qed.

Lemma last_index_is_Some pid rows :
  pid ∈ map oi_product_id rows -> is_Some (last_index pid rows).
Proof.
  induction rows as [|x rows IH]; simpl; intros H.
  - apply elem_of_nil in H. contradiction.
  - apply elem_of_cons in H as [->|H].
    + destruct (last_index (oi_product_id x) rows); [eauto|].
      rewrite Z.eqb_refl. eauto.
    + destruct (IH H) as [k ->]. eauto.
Qed.




(** The loop succeeds when every product of the request exists, and its
    [total] is the sum of [quantity * current price] over the request. *)
Lemma diff_loop_total oid ebp db (new_items : list ItemIn) :
  (forall ni, ni ∈ new_items -> is_Some (products db !! product_id ni)) ->
  forall d,
  exists d',
    fold_loop (diff_item oid ebp) d new_items db = (Ok d', db) /\
    d_total d' = d_total d + request_total db new_items.
Proof.
  induction new_items as [|ni its IH]; intros Hex d; simpl.
  - exists d. split; [reflexivity|]. lia.
  - assert (Hni : is_Some (products db !! product_id ni)) by (apply Hex; left).
    destruct Hni as [p Hp].
    assert (Hprice : price_of db (product_id ni) = price p)
      by (unfold price_of; rewrite Hp; reflexivity).
    assert (Hits : forall x, x ∈ its -> is_Some (products db !! product_id x))
      by (intros x Hx; apply Hex; right; exact Hx).
    unfold bind at 1. unfold diff_item at 1.
    unfold bind, ProductRepository_get_by_id. rewrite Hp.
    destruct (ebp !! product_id ni) as [i|].
    + unfold ret.
      destruct (IH Hits (mkDiff (alter (set_quantity_price (quantity ni) (price p)) i
                                  (d_rows d)) (d_added d)
                           ({[product_id ni]} ∪ d_seen d)
                           (d_total d + quantity ni * price p)))
        as (d' & Hrun & Ht).
      exists d'. split; [exact Hrun|]. rewrite Ht. simpl. rewrite Hprice. lia.
    + match goal with
      | |- context [fold_loop _ ?d0 its db] =>
          destruct (IH Hits d0) as (d' & Hrun & Ht)
      end.
      exists d'. split; [exact Hrun|]. rewrite Ht. simpl. rewrite Hprice. lia.
Qed.

Lemma request_total_perm db (l1 l2 : list ItemIn) :
  l1 ≡ₚ l2 -> request_total db l1 = request_total db l2.
Proof.
  induction 1 as [|x l1 l2 _ IH|x y l|l1 l2 l3 _ IH1 _ IH2]; simpl; lia.
Qed.

Lemma request_total_of_rows db (rows : list OrderItem) :
  (forall r, r ∈ rows ->
     price <$> products db !! oi_product_id r = Some (oi_unit_price r)) ->
  request_total db (map item_of_row rows) = items_total rows.
Proof.
  induction rows as [|r rows IH]; intros Hp; simpl; [reflexivity|].
  rewrite IH by (intros x Hx; apply Hp; right; exact Hx).
  unfold price_of. rewrite (Hp r) by left. simpl. lia.
Qed.

Lemma NoDup_map_inj {A B} (f : A -> B) (l : list A) (x y : A) :
  NoDup (map f l) -> x ∈ l -> y ∈ l -> f x = f y -> x = y.
Proof.
  induction l as [|a l IH]; simpl; intros Hnd Hx Hy Hf.
  - apply elem_of_nil in Hx. contradiction.
  - apply NoDup_cons in Hnd as [Hna Hnd].
    apply elem_of_cons in Hx as [->|Hx]; apply elem_of_cons in Hy as [->|Hy].
    + reflexivity.
    + exfalso. apply Hna. rewrite Hf. apply (list_elem_of_fmap_2 f). exact Hy.
    + exfalso. apply Hna. rewrite <- Hf. apply (list_elem_of_fmap_2 f). exact Hx.
    + auto.
Qed.



(** An update that carries only items goes straight to the repository. *)
Lemma OrderService_update_items oid db order (new_items : list ItemIn) :
  find_order oid (orders db) = Some order ->
  OrderService_update oid (mkPatch None (Some new_items)) db
  = OrderRepository_update oid (mkPatch None (Some new_items)) db.
Proof.
  intros Hfind.
  enter_update Hfind. simpl p_status. simpl p_items.
  unfold bind, ret. simpl. rewrite copy_items. reflexivity.
Qed.

(** The repository update with items, when every product of the request
    exists. *)
Lemma OrderRepository_update_items oid db order (new_items : list ItemIn) :
  find_order oid (orders db) = Some order ->
  (forall ni, ni ∈ new_items -> is_Some (products db !! product_id ni)) ->
  exists d,
    fold_loop (diff_item oid (existing_by_product (items order)))
              (mkDiff (items order) [] ∅ 0) new_items db = (Ok d, db) /\
    d_total d = request_total db new_items /\
    OrderRepository_update oid (mkPatch None (Some new_items)) db
    = (Ok (Some (mkOrder oid (user_id order) (d_total d) (status order)
                   (items_after (existing_by_product (items order)) d))),
       mkDB (users db) (products db)
            (replace_order
               (mkOrder oid (user_id order) (d_total d) (status order)
                  (items_after (existing_by_product (items order)) d))
               (orders db))
            (next_order_id db)
            (next_item_id db + Z.of_nat (length (d_added d)))).
Proof.
  intros Hfind Hex. pose proof (find_order_id _ _ _ Hfind) as Hid.
  destruct (diff_loop_total oid (existing_by_product (items order)) db
              new_items Hex (mkDiff (items order) [] ∅ 0)) as (d & Hrun & Ht).
  exists d. split; [exact Hrun|]. split; [rewrite Ht; simpl; lia|].
  unfold OrderRepository_update, bind, OrderRepository_get_by_id.
  rewrite Hfind. cbn [p_status p_items]. cbv beta iota zeta.
  rewrite Hid, Hrun. reflexivity.
Qed.


Lemma fold_left_request_terms db (its : list ItemIn) (a : Z) :
  fold_left Z.add (request_terms db its) a = a + request_total db its.
Proof.
  revert a. induction its as [|ni its IH]; intros a; simpl; [lia|].
  rewrite IH. lia.
Qed.

Lemma accumulate_request_terms db (its : list ItemIn) :
  accumulate (request_terms db its) = request_total db its.
Proof. unfold accumulate. rewrite fold_left_request_terms. lia. Qed.

(** The terms of a request that repeats the rows, in their order, at
    prices that have not changed, are the terms of the rows, one by one. *)
Lemma request_terms_of_rows db (rows : list OrderItem) :
  (forall r, r ∈ rows ->
     price <$> products db !! oi_product_id r = Some (oi_unit_price r)) ->
  request_terms db (map item_of_row rows) = row_terms rows.
Proof.
  induction rows as [|r rows IH]; intros Hp; simpl; [reflexivity|].
  rewrite IH by (intros x Hx; apply Hp; right; exact Hx).
  unfold price_of. rewrite (Hp r) by left. reflexivity.
Qed.


(** ** create_order: what a successful creation writes *)

Lemma check_stock_loop (its : list ItemIn) db : forall total ups r db',
  fold_loop check_stock (total, ups) its db = (r, db') ->
  db' = db /\
  forall acc, r = Ok acc ->
    acc.2 = ups ++ map (fun it => (product_id it, quantity it)) its /\
    forall it, it ∈ its -> is_Some (products db !! product_id it).
Proof.
  induction its as [|x its IH]; intros total ups r db' Hrun; simpl in Hrun.
  - injection Hrun as <- <-. split; [reflexivity|].
    intros acc [= <-]. simpl. rewrite app_nil_r. split; [reflexivity|].
    intros it Hit. apply elem_of_nil in Hit. contradiction.
  - unfold bind at 1 in Hrun. unfold check_stock at 1 in Hrun.
    unfold bind, ProductRepository_get_by_id in Hrun.
    destruct (products db !! product_id x) as [p|] eqn:Hp.
    2:{ injection Hrun as <- <-. split; [reflexivity|]. discriminate. }
    destruct (stock_quantity p <? quantity x).
    { injection Hrun as <- <-. split; [reflexivity|]. discriminate. }
    unfold ret in Hrun. apply IH in Hrun as [-> Hacc].
    split; [reflexivity|]. intros acc Hr.
    destruct (Hacc acc Hr) as [Hups Hex]. split.
    + rewrite Hups, <- app_assoc. reflexivity.
    + intros it Hit. apply elem_of_cons in Hit as [->|Hit]; [eauto|auto].
Qed.

Lemma decrement_stock_spec pid qty db :
  decrement_stock (pid, qty) db =
  (Ok tt, set_products (alter (add_stock (- qty)) pid (products db)) db).
Proof.
  unfold decrement_stock, bind, ProductRepository_get_by_id,
    ProductRepository_update.
  destruct (products db !! pid) as [p|] eqn:Hp; simpl.
  - rewrite Hp. simpl. f_equal. f_equal.
    apply map_eq. intros j. rewrite lookup_alter, lookup_insert.
    destruct (decide (pid = j)) as [<-|]; [|reflexivity].
    rewrite Hp. reflexivity.
  - f_equal. rewrite <- (set_products_same db) at 1. f_equal.
    apply map_eq. intros j. rewrite lookup_alter.
    destruct (decide (pid = j)) as [<-|]; [|reflexivity].
    rewrite Hp. reflexivity.
Qed.

(** The product table after the decrement loop. *)
Lemma for_each_decrement_stock (its : list ItemIn) : forall db,
  exists ps,
    for_each decrement_stock (map (fun it => (product_id it, quantity it)) its) db
    = (Ok tt, set_products ps db) /\
    forall pid,
      ps !! pid = add_stock (- requested_quantity pid its) <$> products db !! pid.
Proof.
  induction its as [|x its IH]; intros db; cbn [map for_each].
  - exists (products db). rewrite set_products_same. split; [reflexivity|].
    intros pid. destruct (products db !! pid) as [[pr st]|]; simpl; [|reflexivity].
    unfold add_stock; simpl. do 2 f_equal. lia.
  - unfold bind. rewrite decrement_stock_spec.
    destruct (IH (set_products (alter (add_stock (- quantity x)) (product_id x)
                                      (products db)) db)) as (ps & Hrun & Hps).
    exists ps. split; [rewrite Hrun; reflexivity|].
    intros pid. rewrite Hps. simpl. rewrite lookup_alter.
    destruct (decide (product_id x = pid)) as [->|Hne].
    + rewrite Z.eqb_refl.
      destruct (products db !! pid) as [[pr st]|]; simpl; [|reflexivity].
      unfold add_stock; simpl. do 2 f_equal. lia.
    + apply Z.eqb_neq in Hne. rewrite Hne. reflexivity.
Qed.

Lemma fold_loop_cons {A S} (body : S -> A -> M S) acc x l db :
  fold_loop body acc (x :: l) db =
  match body acc x db with
  | (Ok acc', db') => fold_loop body acc' l db'
  | (Raise e, db') => (Raise e, db')
  end.
Proof. reflexivity. Qed.

Lemma create_item_spec oid rows total (it : ItemIn) db p :
  products db !! product_id it = Some p ->
  create_item oid (rows, total) it db =
  (Ok (rows ++ [mkOrderItem (next_item_id db + Z.of_nat (length rows)) oid
                  (product_id it) (quantity it) (price p)],
       total + quantity it * price p), db).
Proof.
  intros Hp. unfold create_item, bind, ProductRepository_get_by_id.
  rewrite Hp. reflexivity.
Qed.

(** The loop of [OrderRepository.create], when every product exists: one
    row per item of the request, at the current price, and their total. *)
Lemma create_item_loop oid db (its : list ItemIn) :
  (forall it, it ∈ its -> is_Some (products db !! product_id it)) ->
  forall rows total,
  exists new_rows,
    fold_loop (create_item oid) (rows, total) its db
    = (Ok (rows ++ new_rows, total + items_total new_rows), db) /\
    map item_of_row new_rows = its /\
    forall r, r ∈ new_rows ->
      oi_order_id r = oid /\
      price <$> products db !! oi_product_id r = Some (oi_unit_price r).
Proof.
  induction its as [|x its IH]; intros Hex rows total.
  - exists []. rewrite app_nil_r. simpl. rewrite Z.add_0_r.
    split; [reflexivity|]. split; [reflexivity|].
    intros r Hr. apply elem_of_nil in Hr. contradiction.
  - destruct (Hex x) as [p Hp]; [left|].
    set (oi := mkOrderItem (next_item_id db + Z.of_nat (length rows)) oid
                 (product_id x) (quantity x) (price p)).
    rewrite fold_loop_cons, (create_item_spec oid rows total x db p Hp).
    fold oi.
    destruct (IH (fun it Hit => Hex it (list_elem_of_further _ _ _ Hit))
                (rows ++ [oi]) (total + quantity x * price p))
      as (new_rows & Hrun & Hmap & Hrows).
    exists (oi :: new_rows). rewrite Hrun. split; [|split].
    + rewrite <- app_assoc. simpl. do 3 f_equal. lia.
    + simpl. rewrite Hmap. destruct x; reflexivity.
    + intros r Hr. apply elem_of_cons in Hr as [->|Hr]; [|auto].
      simpl. rewrite Hp. split; reflexivity.
Qed.

Lemma OrderRepository_create_ok uid (its : list ItemIn) db :
  uid ∈ users db ->
  (forall it, it ∈ its -> is_Some (products db !! product_id it)) ->
  exists o db',
    OrderRepository_create uid its db = (Ok o, db') /\
    products db' = products db /\
    orders db' = orders db ++ [o] /\
    user_id o = uid /\ status o = "pending"%string /\
    total_amount o = items_total (items o) /\
    map item_of_row (items o) = its.
Proof.
  intros Hu Hex.
  destruct (create_item_loop (next_order_id db) db its Hex [] 0)
    as (new_rows & Hrun & Hmap & _).
  unfold OrderRepository_create, bind at 1, UserRepository_get_by_id.
  rewrite (bool_decide_eq_true_2 _ Hu). cbv beta iota zeta.
  unfold after_flush, bind. rewrite Hrun. simpl.
  eexists _, _. split; [reflexivity|]. simpl. repeat split; auto.
Qed.

(** [create_order] either raises and leaves the database as it was, or
    adds one order, whose total is the sum over its rows, and takes from
    every product the quantity the request asks of it. *)
Lemma create_order_outcome (order_data : OrderCreate) (db : DB) :
  match create_order order_data db with
  | (Raise _, db') => db' = db
  | (Ok o, db') =>
      orders db' = orders db ++ [o] /\
      total_amount o = items_total (items o) /\
      map item_of_row (items o) = oc_items order_data /\
      forall pid,
        products db' !! pid =
        add_stock (- requested_quantity pid (oc_items order_data))
          <$> products db !! pid
  end.
Proof.
  unfold create_order, bind at 1, UserRepository_get_by_id.
  destruct (bool_decide (oc_user_id order_data ∈ users db)) eqn:Hu;
    [|reflexivity].
  apply bool_decide_eq_true_1 in Hu.
  destruct (oc_items order_data) as [|x its'] eqn:Hits; [reflexivity|].
  rewrite <- Hits. clear Hits x its'. set (its := oc_items order_data).
  unfold bind at 1.
  pose proof (read_only_for_each check_quantity its read_only_check_quantity db)
    as Hq.
  destruct (for_each check_quantity its db) as [[[]|e] db1];
    simpl in Hq; subst db1; [|reflexivity].
  unfold bind at 1.
  destruct (fold_loop check_stock (0, []) its db) as [r db1] eqn:Hscan.
  apply check_stock_loop in Hscan as [-> Hacc].
  destruct r as [[total ups]|e]; [|reflexivity].
  destruct (Hacc _ eq_refl) as [Hups Hex]. simpl in Hups. subst ups.
  destruct (for_each_decrement_stock its db) as (ps & Hdec & Hps).
  unfold bind at 1. rewrite Hdec.
  assert (Hex' : forall it, it ∈ its ->
                   is_Some (products (set_products ps db) !! product_id it)).
  { intros it Hit. simpl. rewrite Hps.
    destruct (Hex it Hit) as [p ->]. simpl. eauto. }
  destruct (OrderRepository_create_ok (oc_user_id order_data) its
              (set_products ps db) Hu Hex')
    as (o & db' & Hcreate & Hprod & Hord & _ & _ & Htot & Hmap).
  rewrite Hcreate. split; [exact Hord|]. split; [exact Htot|].
  split; [exact Hmap|]. intros pid. rewrite Hprod. simpl. apply Hps.
Qed.


Lemma read_only_OrderRepository_list limit offset uid st :
  read_only (OrderRepository_list limit offset uid st).
Proof.
  intros db. unfold OrderRepository_list.
  destruct ((limit <? 0) || (offset <? 0)); reflexivity.
Qed.

Lemma read_only_get_by_filter f count page uid st :
  read_only (get_by_filter f count page uid st).
Proof.
  unfold get_by_filter. destruct f.
  - apply read_only_OrderRepository_list.
  - apply read_only_bind; [apply read_only_OrderRepository_list|].
    intros [total all_orders]. apply read_only_ret.
Qed.




(** ** Orders with two lines for one product *)

(** C2, failing input.  The order of [shop_with_order] holds product 1; an
    update whose items name product 1 twice (2 units, then 3) leaves one
    row of 3 units at price 50, and stores the total 250 where the row
    amounts to 150. *)
Theorem repeated_product_in_patch_breaks_total :
  exists o' db',
    OrderService_update 1 (mkPatch None (Some [mkItemIn 1 2; mkItemIn 1 3]))
      shop_with_order = (Ok (Some o'), db') /\
    find_order 1 (orders db') = Some o' /\
    items o' = [mkOrderItem 1 1 1 3 50] /\
    total_amount o' = 250 /\
    items_total (items o') = 150.
Proof.
  eexists _, _. split; [vm_compute; reflexivity|].
  split; [vm_compute; reflexivity|].
  split; [reflexivity|]. split; reflexivity.
Qed.

(** C6, failing input.  The order of [shop_two_lines] was created with two
    lines for product 1.  An update whose items name product 2 only
    deletes the second row of product 1 and keeps the first: the items of
    the order are then keyed by products 1 and 2, not by product 2 alone
    (and the stored total, 20, is that of the new row only). *)
Theorem repeated_product_row_survives_replacement :
  exists o o' db',
    find_order 1 (orders shop_two_lines) = Some o /\
    map item_of_row (items o) = [mkItemIn 1 1; mkItemIn 1 2] /\
    OrderService_update 1 (mkPatch None (Some [mkItemIn 2 1])) shop_two_lines
      = (Ok (Some o'), db') /\
    items o' = [mkOrderItem 1 1 1 1 50; mkOrderItem 3 1 2 1 20] /\
    total_amount o' = 20.
Proof.
  eexists _, _, _. split; [vm_compute; reflexivity|].
  split; [reflexivity|]. split; [vm_compute; reflexivity|].
  split; reflexivity.
Qed.

(** ** Replace-by-key when the rows name distinct products *)

Lemma last_index_unique pid (rows : list OrderItem) i r :
  NoDup (map oi_product_id rows) ->
  rows !! i = Some r -> oi_product_id r = pid ->
  last_index pid rows = Some i.
Proof.
  intros Hnd Hi Hp.
  destruct (last_index_is_Some pid rows) as [k Hk].
  { rewrite <- Hp. apply (list_elem_of_fmap_2 oi_product_id).
    apply list_elem_of_lookup. eauto. }
  rewrite Hk. f_equal.
  destruct (last_index_Some _ _ _ Hk) as (r' & Hr' & Hp').
  apply (NoDup_lookup (map oi_product_id rows) k i pid); auto.
  - rewrite list_lookup_fmap, Hr'. simpl. congruence.
  - rewrite list_lookup_fmap, Hi. simpl. congruence.
Qed.

Lemma last_index_None pid (rows : list OrderItem) :
  last_index pid rows = None -> pid ∉ map oi_product_id rows.
Proof.
  intros Hn Hin. apply last_index_is_Some in Hin as [k Hk]. congruence.
Qed.

Lemma reconciled_row_cons_other db x its r :
  product_id x <> oi_product_id r ->
  reconciled_row db (x :: its) r = reconciled_row db its r.
Proof.
  intros Hne. unfold reconciled_row. simpl.
  destruct (last_request (oi_product_id r) its); [reflexivity|].
  apply Z.eqb_neq in Hne. rewrite Hne. reflexivity.
Qed.

Lemma reconciled_row_cons_same db x its r :
  product_id x = oi_product_id r ->
  reconciled_row db (x :: its) r =
  reconciled_row db its
    (set_quantity_price (quantity x) (price_of db (product_id x)) r).
Proof.
  intros He. unfold reconciled_row. simpl.
  destruct (last_request (oi_product_id r) its); [reflexivity|].
  rewrite He, Z.eqb_refl. reflexivity.
Qed.

Lemma diff_loop_distinct_rows oid db (rows : list OrderItem) :
  NoDup (map oi_product_id rows) ->
  forall (its : list ItemIn) d0,
    (forall ni, ni ∈ its -> is_Some (products db !! product_id ni)) ->
    map oi_product_id (d_rows d0) = map oi_product_id rows ->
    exists d',
      fold_loop (diff_item oid (existing_by_product rows)) d0 its db = (Ok d', db) /\
      d_rows d' = map (reconciled_row db its) (d_rows d0) /\
      d_added d' =
        d_added d0 ++
        inserted_rows oid db (map oi_product_id rows) (length (d_added d0)) its /\
      (forall x, x ∈ d_seen d' <-> x ∈ map product_id its \/ x ∈ d_seen d0) /\
      d_total d' = d_total d0 + request_total db its.
Proof.
  intros Hnd. induction its as [|x its IH]; intros d0 Hex Hpids.
  - exists d0. split; [reflexivity|]. split.
    { unfold reconciled_row. simpl. rewrite map_id. reflexivity. }
    split; [simpl; rewrite app_nil_r; reflexivity|]. split.
    { intros y. split; [auto|]. intros [H|H]; [apply elem_of_nil in H; contradiction|exact H]. }
    simpl. lia.
  - destruct (Hex x) as [p Hp]; [left|].
    assert (Hprice : price_of db (product_id x) = price p)
      by (unfold price_of; rewrite Hp; reflexivity).
    assert (Hits : forall ni, ni ∈ its -> is_Some (products db !! product_id ni))
      by (intros ni Hni; apply Hex; right; exact Hni).
    rewrite fold_loop_cons. unfold diff_item at 1.
    unfold bind, ProductRepository_get_by_id. cbv zeta. rewrite Hp.
    rewrite existing_by_product_lookup.
    destruct (last_index (product_id x) rows) as [i|] eqn:Hi.
    + unfold ret.
      destruct (last_index_Some _ _ _ Hi) as (r0 & Hr0 & Hp0).
      assert (Hri : exists r, d_rows d0 !! i = Some r /\ oi_product_id r = product_id x).
      { assert (H : map oi_product_id (d_rows d0) !! i = Some (product_id x)).
        { rewrite Hpids, list_lookup_fmap, Hr0. simpl. congruence. }
        rewrite list_lookup_fmap in H.
        destruct (d_rows d0 !! i) as [r|]; [|discriminate].
        simpl in H. exists r. split; [reflexivity|congruence]. }
      destruct Hri as (r & Hr & Hpr).
      match goal with
      | |- context [fold_loop _ ?d1 its db] =>
          destruct (IH d1 Hits) as (d' & Hrun & Hrows & Hadd & Hseen & Htot)
      end.
      { simpl. rewrite <- Hpids. apply list_eq. intros j.
        rewrite !list_lookup_fmap.
        destruct (decide (i = j)) as [<-|Hne].
        - rewrite list_lookup_alter_eq, Hr. reflexivity.
        - rewrite list_lookup_alter_ne by exact Hne. reflexivity. }
      exists d'. split; [exact Hrun|]. split; [|split; [|split]].
      * rewrite Hrows. simpl. apply list_eq. intros j.
        rewrite !list_lookup_fmap.
        destruct (decide (i = j)) as [<-|Hne].
        -- rewrite list_lookup_alter_eq, Hr. simpl. f_equal.
           rewrite reconciled_row_cons_same by congruence.
           rewrite Hprice. reflexivity.
        -- rewrite list_lookup_alter_ne by exact Hne.
           destruct (d_rows d0 !! j) as [rj|] eqn:Hrj; [|reflexivity].
           simpl. f_equal. symmetry. apply reconciled_row_cons_other.
           intros Heq. apply Hne.
           apply (NoDup_lookup (map oi_product_id rows) i j (product_id x)); auto.
           ++ rewrite list_lookup_fmap, Hr0. simpl. congruence.
           ++ rewrite <- Hpids, list_lookup_fmap, Hrj. simpl. congruence.
      * rewrite Hadd. simpl.
        rewrite bool_decide_eq_true_2; [reflexivity|].
        rewrite <- Hp0. apply (list_elem_of_fmap_2 oi_product_id).
        apply list_elem_of_lookup. eauto.
      * intros y. rewrite Hseen. simpl.
        rewrite elem_of_cons, elem_of_union, elem_of_singleton. tauto.
      * rewrite Htot. simpl. rewrite Hprice. lia.
    + match goal with
      | |- context [fold_loop _ ?d1 its db] =>
          destruct (IH d1 Hits) as (d' & Hrun & Hrows & Hadd & Hseen & Htot)
      end.
      { exact Hpids. }
      exists d'. split; [exact Hrun|]. split; [|split; [|split]].
      * rewrite Hrows. simpl. apply map_ext_in. intros r Hr.
        symmetry. apply reconciled_row_cons_other. intros Heq.
        apply (last_index_None _ _ Hi). rewrite Heq, <- Hpids.
        apply (list_elem_of_fmap_2 oi_product_id). apply list_elem_of_In. exact Hr.
      * rewrite Hadd. simpl.
        rewrite bool_decide_eq_false_2 by (apply last_index_None; exact Hi).
        rewrite length_app. simpl. rewrite <- app_assoc. simpl.
        rewrite Hprice. do 3 f_equal. lia.
      * intros y. rewrite Hseen. simpl.
        rewrite elem_of_cons, elem_of_union, elem_of_singleton. tauto.
      * rewrite Htot. simpl. rewrite Hprice. lia.
Qed.

Lemma concat_imap_filter {A} (P : A -> Prop) `{!forall x, Decision (P x)}
    (l : list A) : forall (g : nat -> A -> list A),
  (forall i x, l !! i = Some x -> g i x = if decide (P x) then [x] else []) ->
  concat (imap g l) = filter P l.
Proof.
  induction l as [|x l IH]; intros g Hg; simpl; [reflexivity|].
  rewrite (Hg 0%nat x eq_refl), filter_cons.
  rewrite (IH (g ∘ S)) by (intros i y Hy; apply (Hg (S i)); exact Hy).
  destruct (decide (P x)); reflexivity.
Qed.

Lemma elem_of_rows_to_delete (ebp : gmap Z nat) (seen : gset Z) (i : nat) :
  i ∈ rows_to_delete ebp seen <-> exists pid, ebp !! pid = Some i /\ pid ∉ seen.
Proof.
  unfold rows_to_delete. rewrite list_elem_of_bind. split.
  - intros ([pid j] & Hi & Hin). apply elem_of_map_to_list in Hin.
    destruct (bool_decide (pid ∈ seen)) eqn:Hs.
    + apply elem_of_nil in Hi. contradiction.
    + apply list_elem_of_singleton in Hi. subst j.
      exists pid. split; [exact Hin|]. apply bool_decide_eq_false in Hs. exact Hs.
  - intros (pid & Hl & Hs). exists (pid, i). split.
    + rewrite bool_decide_eq_false_2 by exact Hs. left.
    + apply elem_of_map_to_list. exact Hl.
Qed.

Lemma remove_rows_distinct (rows rows' : list OrderItem) (seen : gset Z) :
  NoDup (map oi_product_id rows) ->
  map oi_product_id rows' = map oi_product_id rows ->
  remove_rows (rows_to_delete (existing_by_product rows) seen) rows'
  = filter (fun r => oi_product_id r ∈ seen) rows'.
Proof.
  intros Hnd Hpids. unfold remove_rows. apply concat_imap_filter.
  intros i r Hr.
  assert (Hi : map oi_product_id rows !! i = Some (oi_product_id r))
    by (rewrite <- Hpids, list_lookup_fmap, Hr; reflexivity).
  rewrite list_lookup_fmap in Hi.
  destruct (rows !! i) as [r0|] eqn:Hr0; [|discriminate].
  simpl in Hi. injection Hi as Hi.
  destruct (decide (oi_product_id r ∈ seen)) as [Hs|Hs].
  - rewrite bool_decide_eq_false_2; [reflexivity|].
    rewrite elem_of_rows_to_delete. intros (pid & Hl & Hns).
    rewrite existing_by_product_lookup in Hl.
    apply last_index_Some in Hl as (r1 & Hr1 & <-).
    rewrite Hr0 in Hr1. injection Hr1 as <-. apply Hns. rewrite Hi. exact Hs.
  - rewrite bool_decide_eq_true_2; [reflexivity|].
    rewrite elem_of_rows_to_delete. exists (oi_product_id r).
    split; [|exact Hs]. rewrite existing_by_product_lookup.
    apply last_index_unique with r0; auto.
Qed.

(** Replace-by-key.  For an order whose rows name distinct products, an
    update with items [its], all of existing products, keeps the rows
    whose product is named by [its] (with the quantity of the last item
    naming it, at the current price), deletes the others, and inserts a
    row for every item whose product the order did not hold. *)
Lemma update_items_distinct_rows (db : DB) (oid : Z) (order : Order)
    (its : list ItemIn) :
  find_order oid (orders db) = Some order ->
  NoDup (map oi_product_id (items order)) ->
  (forall ni, ni ∈ its -> is_Some (products db !! product_id ni)) ->
  exists o' db',
    OrderService_update oid (mkPatch None (Some its)) db = (Ok (Some o'), db') /\
    find_order oid (orders db') = Some o' /\
    products db' = products db /\
    status o' = status order /\
    total_amount o' = request_total db its /\
    items o' =
      filter (fun r => oi_product_id r ∈ map product_id its)
             (map (reconciled_row db its) (items order))
      ++ inserted_rows oid db (map oi_product_id (items order)) 0 its.
Proof.
  intros Hfind Hnd Hex.
  destruct (OrderRepository_update_items oid db order its Hfind Hex)
    as (d & Hrun & Ht & Hupd).
  destruct (diff_loop_distinct_rows oid db (items order) Hnd its
              (mkDiff (items order) [] ∅ 0) Hex eq_refl)
    as (d' & Hrun' & Hrows & Hadd & Hseen & _).
  rewrite Hrun in Hrun'. injection Hrun' as <-.
  eexists _, _. split.
  { rewrite (OrderService_update_items oid db order its Hfind). exact Hupd. }
  simpl. split; [eapply find_order_replace; eauto|].
  split; [reflexivity|]. split; [reflexivity|]. split; [exact Ht|].
  unfold items_after. rewrite Hadd. simpl. f_equal.
  rewrite remove_rows_distinct; auto.
  - rewrite Hrows. simpl. apply list_filter_iff. intros r.
    split.
    + intros H. apply Hseen in H as [H|H]; [exact H|].
      simpl in H. apply not_elem_of_empty in H. contradiction.
    + intros H. apply Hseen. left. exact H.
  - rewrite Hrows. simpl. rewrite <- list_fmap_compose.
    apply map_ext. intros r. unfold reconciled_row. simpl.
    destruct (last_request (oi_product_id r) its); reflexivity.
Qed.

Lemma last_request_Some pid (its : list ItemIn) ni :
  last_request pid its = Some ni -> ni ∈ its /\ product_id ni = pid.
Proof.
  induction its as [|x its IH]; simpl; [discriminate|].
  destruct (last_request pid its) as [y|].
  - intros [= <-]. destruct (IH eq_refl) as [Hin Hp]. split; [right; exact Hin|exact Hp].
  - destruct (product_id x =? pid) eqn:Hx; [|discriminate].
    intros [= <-]. apply Z.eqb_eq in Hx. split; [left|exact Hx].
Qed.

Lemma last_request_is_Some pid (its : list ItemIn) :
  pid ∈ map product_id its -> is_Some (last_request pid its).
Proof.
  induction its as [|x its IH]; simpl; intros H.
  - apply elem_of_nil in H. contradiction.
  - apply elem_of_cons in H as [->|H].
    + destruct (last_request (product_id x) its); [eauto|].
      rewrite Z.eqb_refl. eauto.
    + destruct (IH H) as [y ->]. eauto.
Qed.

(** With distinct products in the request, the item that names a product
    is the one the row of that product takes its quantity from. *)
Lemma last_request_unique (its : list ItemIn) ni :
  NoDup (map product_id its) -> ni ∈ its ->
  last_request (product_id ni) its = Some ni.
Proof.
  intros Hnd Hin.
  destruct (last_request_is_Some (product_id ni) its) as [y Hy].
  { apply (list_elem_of_fmap_2 product_id). exact Hin. }
  rewrite Hy. f_equal.
  destruct (last_request_Some _ _ _ Hy) as [Hyin Hyp].
  apply (NoDup_map_inj product_id its); auto.
Qed.

Lemma inserted_rows_items oid db (known : list Z) (its : list ItemIn) :
  forall n,
    map item_of_row (inserted_rows oid db known n its)
    = filter (fun ni => product_id ni ∉ known) its.
Proof.
  induction its as [|[pid q] its IH]; intros n; simpl; [reflexivity|].
  rewrite filter_cons. simpl.
  destruct (decide (pid ∈ known)) as [Hin|Hout].
  - rewrite bool_decide_eq_true_2 by exact Hin.
    rewrite decide_False by tauto. apply IH.
  - rewrite bool_decide_eq_false_2 by exact Hout.
    rewrite decide_True by exact Hout. simpl. rewrite IH. reflexivity.
Qed.

Lemma inserted_rows_price oid db (known : list Z) (its : list ItemIn) :
  (forall ni, ni ∈ its -> is_Some (products db !! product_id ni)) ->
  forall n r, r ∈ inserted_rows oid db known n its ->
    price <$> products db !! oi_product_id r = Some (oi_unit_price r).
Proof.
  induction its as [|x its IH]; intros Hex n r; simpl.
  - intros H. apply elem_of_nil in H. contradiction.
  - assert (Hits : forall ni, ni ∈ its -> is_Some (products db !! product_id ni))
      by (intros ni Hni; apply Hex; right; exact Hni).
    destruct (bool_decide (product_id x ∈ known)); [apply IH; exact Hits|].
    intros H. apply elem_of_cons in H as [->|H]; [|eapply IH; eauto].
    simpl. unfold price_of. destruct (Hex x) as [p ->]; [left|]. reflexivity.
Qed.

Lemma reconciled_row_product db its r :
  oi_product_id (reconciled_row db its r) = oi_product_id r.
Proof.
  unfold reconciled_row. destruct (last_request (oi_product_id r) its); reflexivity.
Qed.

(** The rows that are kept, read as request items, are the items of the
    request whose product the order held. *)
Lemma kept_rows_items db (rows : list OrderItem) (its : list ItemIn) :
  NoDup (map oi_product_id rows) ->
  NoDup (map product_id its) ->
  map item_of_row
      (filter (fun r => oi_product_id r ∈ map product_id its)
              (map (reconciled_row db its) rows))
  ≡ₚ filter (fun ni => product_id ni ∈ map oi_product_id rows) its.
Proof.
  intros Hk Hj.
  assert (Hkept : forall x,
    x ∈ filter (fun r => oi_product_id r ∈ map product_id its)
               (map (reconciled_row db its) rows) <->
    exists r, r ∈ rows /\ oi_product_id r ∈ map product_id its /\
              x = reconciled_row db its r).
  { intros x. rewrite list_elem_of_filter. split.
    - intros [Hx Hin]. apply list_elem_of_fmap in Hin as (r & -> & Hr).
      rewrite reconciled_row_product in Hx. eauto.
    - intros (r & Hr & Hx & ->). rewrite reconciled_row_product.
      split; [exact Hx|]. apply (list_elem_of_fmap_2 (reconciled_row db its)).
      exact Hr. }
  apply NoDup_Permutation.
  - apply (NoDup_fmap_1 product_id). rewrite <- list_fmap_compose.
    assert (Hsub : (product_id ∘ item_of_row) <$>
                     filter (fun r => oi_product_id r ∈ map product_id its)
                            (map (reconciled_row db its) rows)
                   = filter (fun pid => pid ∈ map product_id its)
                            (map oi_product_id rows)).
    { clear Hk Hkept. induction rows as [|r rows IH]; [reflexivity|].
      simpl. rewrite !filter_cons, reconciled_row_product.
      destruct (decide (oi_product_id r ∈ map product_id its)).
      - simpl. rewrite reconciled_row_product. f_equal. exact IH.
      - exact IH. }
    rewrite Hsub. apply NoDup_filter. exact Hk.
  - apply NoDup_filter. apply (NoDup_fmap_1 product_id). exact Hj.
  - intros x. rewrite list_elem_of_filter. split.
    + intros Hy. apply list_elem_of_fmap in Hy as (y & -> & Hy).
      apply Hkept in Hy as (r & Hr & Hin & ->).
      destruct (last_request_is_Some _ _ Hin) as [ni Hni].
      destruct (last_request_Some _ _ _ Hni) as [Hniin Hnip].
      assert (Hx : item_of_row (reconciled_row db its r) = ni).
      { unfold reconciled_row. rewrite Hni. unfold item_of_row. simpl.
        rewrite <- Hnip. destruct ni; reflexivity. }
      rewrite Hx. split; [|exact Hniin].
      rewrite Hnip. apply (list_elem_of_fmap_2 oi_product_id). exact Hr.
    + intros [Hin Hx]. apply list_elem_of_fmap in Hin as (r & Hp & Hr).
      apply list_elem_of_fmap.
      exists (reconciled_row db its r). split.
      * unfold reconciled_row. rewrite <- Hp.
        rewrite (last_request_unique its x Hj Hx).
        unfold item_of_row. simpl. rewrite <- Hp. destruct x; reflexivity.
      * apply Hkept. exists r. split; [exact Hr|]. split; [|reflexivity].
        rewrite <- Hp. apply (list_elem_of_fmap_2 product_id). exact Hx.
Qed.

Lemma kept_rows_price db (rows : list OrderItem) (its : list ItemIn) :
  (forall ni, ni ∈ its -> is_Some (products db !! product_id ni)) ->
  forall r,
    r ∈ filter (fun r => oi_product_id r ∈ map product_id its)
               (map (reconciled_row db its) rows) ->
    price <$> products db !! oi_product_id r = Some (oi_unit_price r).
Proof.
  intros Hex x Hx. apply list_elem_of_filter in Hx as [Hin Hx].
  apply list_elem_of_fmap in Hx as (r & -> & _).
  rewrite reconciled_row_product in *.
  destruct (last_request_is_Some _ _ Hin) as [ni Hni].
  destruct (last_request_Some _ _ _ Hni) as [Hniin Hnip].
  unfold reconciled_row. rewrite Hni. simpl. unfold price_of.
  destruct (Hex ni Hniin) as [p Hp]. rewrite Hnip in Hp. rewrite Hp. reflexivity.
Qed.

(** For an order whose rows name distinct products and a request that
    names distinct, existing products, the update leaves exactly the items
    of the request, each at the current price of its product, and stores
    their total. *)
Lemma update_items_distinct (db : DB) (oid : Z) (order : Order)
    (its : list ItemIn) :
  find_order oid (orders db) = Some order ->
  NoDup (map oi_product_id (items order)) ->
  NoDup (map product_id its) ->
  (forall ni, ni ∈ its -> is_Some (products db !! product_id ni)) ->
  exists o' db',
    OrderService_update oid (mkPatch None (Some its)) db = (Ok (Some o'), db') /\
    find_order oid (orders db') = Some o' /\
    map item_of_row (items o') ≡ₚ its /\
    (forall r, r ∈ items o' ->
       price <$> products db !! oi_product_id r = Some (oi_unit_price r)) /\
    total_amount o' = items_total (items o').
Proof.
  intros Hfind Hk Hj Hex.
  destruct (update_items_distinct_rows db oid order its Hfind Hk Hex)
    as (o' & db' & Hrun & Hfind' & _ & _ & Htot & Hitems).
  assert (Hperm : map item_of_row (items o') ≡ₚ its).
  { rewrite Hitems, map_app, inserted_rows_items.
    rewrite (kept_rows_items db (items order) its Hk Hj).
    apply filter_app_complement. }
  assert (Hprice : forall r, r ∈ items o' ->
            price <$> products db !! oi_product_id r = Some (oi_unit_price r)).
  { intros r Hr. rewrite Hitems in Hr. apply elem_of_app in Hr as [Hr|Hr].
    - eapply kept_rows_price; eauto.
    - eapply inserted_rows_price; eauto. }
  exists o', db'. split; [exact Hrun|]. split; [exact Hfind'|].
  split; [exact Hperm|]. split; [exact Hprice|].
  rewrite Htot, <- (request_total_perm db _ _ Hperm).
  apply request_total_of_rows. exact Hprice.
Qed.

(** * The theorems at the sample databases *)

Lemma create_order_atomic_validation_witness :
  oc_items (mkOrderCreate 1 [mkItemIn 1 5; mkItemIn 2 10]) !! 1%nat
    = Some (mkItemIn 2 10) /\
  fails_validation shop (mkItemIn 2 10) /\
  exists e,
    create_order (mkOrderCreate 1 [mkItemIn 1 5; mkItemIn 2 10]) shop
    = (Raise e, shop).
Proof.
  assert (H1 : oc_items (mkOrderCreate 1 [mkItemIn 1 5; mkItemIn 2 10]) !! 1%nat
               = Some (mkItemIn 2 10)) by reflexivity.
  assert (H2 : fails_validation shop (mkItemIn 2 10)) by (vm_compute; reflexivity).
  split; [exact H1|]. split; [exact H2|].
  exact (create_order_atomic_validation shop _ 1%nat _ H1 H2).
Defined.

Lemma cancellation_restitution_once_witness :
  let order := mkOrder 1 1 100 "pending" [mkOrderItem 1 1 1 2 50] in
  let patch := mkPatch (Some "cancelled"%string) None in
  let run1 := OrderService_update 1 patch shop_with_order in
  let run2 := OrderService_update 1 patch (snd run1) in
  find_order 1 (orders shop_with_order) = Some order /\
  (status order <> "cancelled"%string ->
   forall pid,
     products (snd run1) !! pid =
     add_stock (held_quantity pid (items order))
       <$> products shop_with_order !! pid) /\
  (status order = "cancelled"%string ->
   products (snd run1) = products shop_with_order) /\
  (is_ok (fst run1) -> products (snd run2) = products (snd run1)).
Proof.
  intros order patch run1 run2.
  assert (H1 : find_order 1 (orders shop_with_order) = Some order)
    by (vm_compute; reflexivity).
  split; [exact H1|].
  exact (cancellation_restitution_once shop_with_order 1 order patch H1 eq_refl).
Defined.

Lemma cancellation_skips_missing_product_witness :
  let order :=
    mkOrder 1 1 120 "pending" [mkOrderItem 1 1 1 2 50; mkOrderItem 2 1 2 1 20] in
  let item := mkOrderItem 2 1 2 1 20 in
  find_order 1 (orders shop_product_gone) = Some order /\
  products shop_product_gone !! oi_product_id item = None /\
  exists o' db',
    OrderService_update 1 (mkPatch (Some "cancelled"%string) None)
      shop_product_gone = (Ok (Some o'), db') /\
    status o' = "cancelled"%string /\
    items o' = items order /\
    find_order 1 (orders db') = Some o' /\
    products db' !! oi_product_id item = None /\
    forall pid,
      products db' !! pid =
      add_stock (held_quantity pid (items order))
        <$> products shop_product_gone !! pid.
Proof.
  intros order item.
  assert (H1 : find_order 1 (orders shop_product_gone) = Some order)
    by (vm_compute; reflexivity).
  assert (H2 : status order <> "cancelled"%string) by discriminate.
  assert (H3 : item ∈ items order) by (right; left).
  assert (H4 : products shop_product_gone !! oi_product_id item = None)
    by (vm_compute; reflexivity).
  split; [exact H1|]. split; [exact H4|].
  exact (cancellation_skips_missing_product shop_product_gone 1 order item
           H1 H2 H3 H4).
Defined.


Lemma any_valid_status_is_accepted_witness :
  let order := mkOrder 1 1 100 "delivered" [mkOrderItem 1 1 1 2 50] in
  find_order 1 (orders shop_delivered) = Some order /\
  "pending"%string ∈ valid_statuses /\
  exists o' db',
    OrderService_update 1 (mkPatch (Some "pending"%string) None) shop_delivered
      = (Ok (Some o'), db') /\
    status o' = "pending"%string /\
    find_order 1 (orders db') = Some o'.
Proof.
  intros order.
  assert (H1 : find_order 1 (orders shop_delivered) = Some order)
    by (vm_compute; reflexivity).
  assert (H2 : "pending"%string ∈ valid_statuses) by left.
  split; [exact H1|]. split; [exact H2|].
  exact (proj1 (any_valid_status_is_accepted shop_delivered 1 order "pending" H1) H2).
Defined.


Lemma fallback_listing_matches_native_witness :
  (length (orders shop_with_order) <= 1000)%nat /\
  get_by_filter false 10 1 (Some 1) (Some "pending"%string) shop_with_order
  = get_by_filter true 10 1 (Some 1) (Some "pending"%string) shop_with_order.
Proof.
  assert (H1 : (length (orders shop_with_order) <= 1000)%nat)
    by (vm_compute; lia).
  split; [exact H1|].
  apply (fallback_listing_matches_native shop_with_order 10 1 (Some 1)
           (Some "pending"%string) H1); lia.
Defined.

Lemma missing_order_id_is_rejected_witness :
  let data : gmap string JValue := {[ "status"%string := JStr "cancelled" ]} in
  data !! "order_id"%string = None /\
  handle_order_update_status cancelling_service data shop_with_order
    = (Raise OrderIdRequired, shop_with_order) /\
  handle_order_update cancelling_service accept_all data shop_with_order
    = (Raise OrderIdRequired, shop_with_order).
Proof.
  intros data.
  assert (H1 : data !! "order_id"%string = None) by (vm_compute; reflexivity).
  split; [exact H1|].
  exact (missing_order_id_is_rejected cancelling_service accept_all data
           shop_with_order H1).
Defined.

(** The scenarios of the test suite, at [shop]. *)

Example create_order_scenario :
  exists o db',
    create_order (mkOrderCreate 1 [mkItemIn 1 2]) shop = (Ok o, db') /\
    total_amount o = 100 /\ status o = "pending"%string /\
    stock_quantity <$> products db' !! 1 = Some 98.
Proof.
  eexists _, _. split; [vm_compute; reflexivity|].
  split; [reflexivity|]. split; [reflexivity|]. vm_compute. reflexivity.
Qed.

Example insufficient_stock_scenario :
  create_order (mkOrderCreate 1 [mkItemIn 1 5; mkItemIn 2 10]) shop
  = (Raise InsufficientStock, shop).
Proof. vm_compute. reflexivity. Qed.

Example update_items_scenario :
  exists o' db',
    OrderService_update 1 (mkPatch None (Some [mkItemIn 1 3; mkItemIn 2 1]))
      shop_with_order = (Ok (Some o'), db') /\
    items o' = [mkOrderItem 1 1 1 3 50; mkOrderItem 2 1 2 1 20] /\
    total_amount o' = 170.
Proof.
  eexists _, _. split; [vm_compute; reflexivity|]. split; reflexivity.
Qed.

(** * Further properties *)

(** ** create_order: which requests are accepted, and the error of the others *)

Lemma for_each_cons {A} (body : A -> M unit) x l db :
  for_each body (x :: l) db =
  match body x db with
  | (Ok _, db') => for_each body l db'
  | (Raise e, db') => (Raise e, db')
  end.
Proof. reflexivity. Qed.

Lemma check_quantity_spec (it : ItemIn) db :
  check_quantity it db =
  if quantity it <=? 0 then (Raise BadQuantity, db) else (Ok tt, db).
Proof. unfold check_quantity. destruct (quantity it <=? 0); reflexivity. Qed.

Lemma check_quantity_loop (its : list ItemIn) db :
  ((forall it, it ∈ its -> 0 < quantity it) /\
   for_each check_quantity its db = (Ok tt, db)) \/
  ((exists it, it ∈ its /\ quantity it <= 0) /\
   for_each check_quantity its db = (Raise BadQuantity, db)).
Proof.
  induction its as [|x its IH].
  - left. split; [|reflexivity]. intros it H. apply elem_of_nil in H. contradiction.
  - rewrite for_each_cons, check_quantity_spec.
    destruct (quantity x <=? 0) eqn:Hx.
    + right. apply Z.leb_le in Hx. split; [|reflexivity].
      exists x. split; [left|exact Hx].
    + apply Z.leb_gt in Hx.
      destruct IH as [[Hall Hrun]|[(it & Hit & Hq) Hrun]]; rewrite Hrun.
      * left. split; [|reflexivity]. intros it Hit.
        apply elem_of_cons in Hit as [->|Hit]; auto.
      * right. split; [|reflexivity]. exists it. split; [right; exact Hit|exact Hq].
Qed.

Lemma check_stock_step_pass db acc (it : ItemIn) :
  passes_validation db it ->
  exists acc', check_stock acc it db = (Ok acc', db).
Proof.
  intros (p & Hp & Hq). destruct acc as [total ups].
  unfold check_stock, bind, ProductRepository_get_by_id. rewrite Hp.
  destruct (stock_quantity p <? quantity it) eqn:Hlt.
  - apply Z.ltb_lt in Hlt. lia.
  - eauto.
Qed.

Lemma check_stock_step_fail db acc (it : ItemIn) :
  fails_validation db it ->
  check_stock acc it db = (Raise (validation_error db it), db).
Proof.
  intros Hf. destruct acc as [total ups].
  unfold check_stock, bind, ProductRepository_get_by_id, fails_validation,
    validation_error in *.
  destruct (products db !! product_id it) as [p|]; [|reflexivity].
  destruct (stock_quantity p <? quantity it) eqn:Hlt; [reflexivity|].
  apply Z.ltb_ge in Hlt. lia.
Qed.

Lemma passes_or_fails db (it : ItemIn) :
  passes_validation db it \/ fails_validation db it.
Proof.
  unfold passes_validation, fails_validation.
  destruct (products db !! product_id it) as [p|]; [|right; exact I].
  destruct (Z.le_gt_cases (quantity it) (stock_quantity p)).
  - left. eauto.
  - right. lia.
Qed.

Lemma passes_not_fails db (it : ItemIn) :
  passes_validation db it -> fails_validation db it -> False.
Proof.
  unfold passes_validation, fails_validation. intros (p & -> & Hq). lia.
Qed.

(** The second loop stops at the first item that does not pass. *)
Lemma check_stock_first_failure db (pre post : list ItemIn) (it : ItemIn) :
  (forall x, x ∈ pre -> passes_validation db x) ->
  fails_validation db it ->
  forall acc,
    fold_loop check_stock acc (pre ++ it :: post) db
    = (Raise (validation_error db it), db).
Proof.
  intros Hpre Hf. induction pre as [|x pre IH]; intros acc; simpl app.
  - rewrite fold_loop_cons, check_stock_step_fail by exact Hf. reflexivity.
  - rewrite fold_loop_cons.
    destruct (check_stock_step_pass db acc x) as [acc' ->]; [apply Hpre; left|].
    apply IH. intros y Hy. apply Hpre. right. exact Hy.
Qed.

Lemma check_stock_all_pass db (its : list ItemIn) :
  (forall x, x ∈ its -> passes_validation db x) ->
  forall acc, exists acc', fold_loop check_stock acc its db = (Ok acc', db).
Proof.
  induction its as [|x its IH]; intros Hall acc.
  - exists acc. reflexivity.
  - rewrite fold_loop_cons.
    destruct (check_stock_step_pass db acc x) as [acc' ->]; [apply Hall; left|].
    apply IH. intros y Hy. apply Hall. right. exact Hy.
Qed.

(** Either every item passes, or the list splits at the first that does
    not. *)
Lemma first_failure_split db (its : list ItemIn) :
  (forall x, x ∈ its -> passes_validation db x) \/
  exists pre it post,
    its = pre ++ it :: post /\
    (forall x, x ∈ pre -> passes_validation db x) /\
    fails_validation db it.
Proof.
  induction its as [|x its IH].
  - left. intros y Hy. apply elem_of_nil in Hy. contradiction.
  - destruct (passes_or_fails db x) as [Hp|Hf].
    + destruct IH as [Hall|(pre & it & post & -> & Hpre & Hf)].
      * left. intros y Hy. apply elem_of_cons in Hy as [->|Hy]; auto.
      * right. exists (x :: pre), it, post. split; [reflexivity|].
        split; [|exact Hf]. intros y Hy.
        apply elem_of_cons in Hy as [->|Hy]; auto.
    + right. exists [], x, its. split; [reflexivity|]. split; [|exact Hf].
      intros y Hy. apply elem_of_nil in Hy. contradiction.
Qed.

Lemma valid_request_runs db (order_data : OrderCreate) :
  valid_request db order_data ->
  exists o db', create_order order_data db = (Ok o, db').
Proof.
  intros (Hu & Hne & Hall).
  unfold create_order, bind at 1, UserRepository_get_by_id.
  rewrite (bool_decide_eq_true_2 _ Hu).
  destruct (oc_items order_data) as [|x its'] eqn:Hits; [contradiction|].
  rewrite <- Hits in *. clear Hits x its' Hne.
  unfold bind at 1.
  destruct (check_quantity_loop (oc_items order_data) db)
    as [[_ Hq]|[(it & Hit & Hbad) _]].
  2:{ destruct (Hall it Hit). lia. }
  rewrite Hq.
  destruct (check_stock_all_pass db (oc_items order_data)
              (fun x Hx => proj2 (Hall x Hx)) (0, [])) as [[total ups] Hscan].
  unfold bind at 1. rewrite Hscan.
  destruct (check_stock_loop _ _ _ _ _ _ Hscan) as [_ Hacc].
  destruct (Hacc _ eq_refl) as [Hups Hex]. simpl in Hups. subst ups.
  destruct (for_each_decrement_stock (oc_items order_data) db) as (ps & Hdec & Hps).
  unfold bind at 1. rewrite Hdec.
  assert (Hex' : forall it, it ∈ oc_items order_data ->
                   is_Some (products (set_products ps db) !! product_id it)).
  { intros it Hit. simpl. rewrite Hps.
    destruct (Hex it Hit) as [p ->]. simpl. eauto. }
  destruct (OrderRepository_create_ok (oc_user_id order_data)
              (oc_items order_data) (set_products ps db) Hu Hex')
    as (o & db' & Hcreate & _).
  rewrite Hcreate. eauto.
Qed.

Lemma create_order_ok_valid db (order_data : OrderCreate) :
  is_ok (fst (create_order order_data db)) -> valid_request db order_data.
Proof.
  intros Hok. unfold valid_request.
  unfold create_order, bind at 1, UserRepository_get_by_id in Hok.
  destruct (bool_decide (oc_user_id order_data ∈ users db)) eqn:Hu;
    [|contradiction Hok].
  apply bool_decide_eq_true_1 in Hu. split; [exact Hu|].
  destruct (oc_items order_data) as [|x its'] eqn:Hits; [contradiction Hok|].
  split; [discriminate|]. rewrite <- Hits in *. clear Hits x its'.
  unfold bind at 1 in Hok.
  destruct (check_quantity_loop (oc_items order_data) db)
    as [[Hq Hrun]|[_ Hrun]]; rewrite Hrun in Hok; [|contradiction Hok].
  unfold bind at 1 in Hok.
  destruct (first_failure_split db (oc_items order_data))
    as [Hall|(pre & it & post & Heq & Hpre & Hf)].
  + intros it Hit. split; [apply Hq; exact Hit|apply Hall; exact Hit].
  + rewrite Heq in Hok at 1.
    rewrite (check_stock_first_failure db pre post it Hpre Hf) in Hok.
    contradiction Hok.
Qed.

(** X1.  [create_order] succeeds exactly when the user exists, the request
    has at least one item, every quantity is positive and every item
    names an existing product with at least that quantity in stock. *)
Theorem create_order_succeeds_iff (db : DB) (order_data : OrderCreate) :
  is_ok (fst (create_order order_data db)) <-> valid_request db order_data.
Proof.
  split; [apply create_order_ok_valid|].
  intros Hv. destruct (valid_request_runs db order_data Hv) as (o & db' & ->).
  exact I.
Qed.

(** X2.  The quantities of all items are checked before any product is
    looked up: when the user exists and some item has a quantity of zero
    or less, the error is "Quantity must be greater than 0", whatever the
    products and stocks of the items, and nothing is changed. *)
Theorem create_order_checks_quantities_first (db : DB) (order_data : OrderCreate)
    (it : ItemIn) :
  oc_user_id order_data ∈ users db ->
  it ∈ oc_items order_data ->
  quantity it <= 0 ->
  create_order order_data db = (Raise BadQuantity, db).
Proof.
  intros Hu Hit Hq.
  unfold create_order, bind at 1, UserRepository_get_by_id.
  rewrite (bool_decide_eq_true_2 _ Hu).
  destruct (oc_items order_data) as [|x its'] eqn:Hits.
  { apply elem_of_nil in Hit. contradiction. }
  rewrite <- Hits in *. clear Hits x its'.
  unfold bind at 1.
  destruct (check_quantity_loop (oc_items order_data) db)
    as [[Hall _]|[_ Hrun]].
  - specialize (Hall it Hit). lia.
  - rewrite Hrun. reflexivity.
Qed.

(** X3.  When the user exists and all quantities are positive, the error
    is that of the first item, in the order of the request, that does not
    pass: "Product N not found" if its product is missing, "Insufficient
    stock" otherwise; nothing is changed. *)
Theorem create_order_reports_first_failure (db : DB) (order_data : OrderCreate)
    (pre post : list ItemIn) (it : ItemIn) :
  oc_user_id order_data ∈ users db ->
  (forall x, x ∈ oc_items order_data -> 0 < quantity x) ->
  oc_items order_data = pre ++ it :: post ->
  (forall x, x ∈ pre -> passes_validation db x) ->
  fails_validation db it ->
  create_order order_data db = (Raise (validation_error db it), db).
Proof.
  intros Hu Hq Heq Hpre Hf.
  unfold create_order, bind at 1, UserRepository_get_by_id.
  rewrite (bool_decide_eq_true_2 _ Hu).
  destruct (oc_items order_data) as [|x its'] eqn:Hits.
  { destruct pre; discriminate. }
  rewrite <- Hits in *. clear Hits x its'.
  unfold bind at 1.
  destruct (check_quantity_loop (oc_items order_data) db)
    as [[_ Hrun]|[(y & Hy & Hbad) _]].
  2:{ specialize (Hq y Hy). lia. }
  rewrite Hrun. unfold bind at 1. rewrite Heq at 1.
  rewrite (check_stock_first_failure db pre post it Hpre Hf). reflexivity.
Qed.

(** ** create_order: the order it stores *)

Lemma find_order_None oid (os : list Order) :
  (forall o, o ∈ os -> o_id o <> oid) -> find_order oid os = None.
Proof.
  unfold find_order. induction os as [|x os IH]; intros H; simpl; [reflexivity|].
  destruct (o_id x =? oid) eqn:Hx.
  - apply Z.eqb_eq in Hx. exfalso. apply (H x); [left|exact Hx].
  - apply IH. intros o Ho. apply H. right. exact Ho.
Qed.

Lemma find_order_app oid (os : list Order) o :
  find_order oid (os ++ [o]) =
  match find_order oid os with
  | Some x => Some x
  | None => if o_id o =? oid then Some o else None
  end.
Proof.
  unfold find_order. induction os as [|x os IH]; simpl; [reflexivity|].
  destruct (o_id x =? oid); [reflexivity|exact IH].
Qed.

Lemma OrderRepository_create_full uid (its : list ItemIn) db :
  uid ∈ users db ->
  (forall it, it ∈ its -> is_Some (products db !! product_id it)) ->
  exists o,
    OrderRepository_create uid its db =
    (Ok o, mkDB (users db) (products db) (orders db ++ [o])
             (next_order_id db + 1)
             (next_item_id db + Z.of_nat (length its))) /\
    o_id o = next_order_id db /\ user_id o = uid /\
    status o = "pending"%string /\
    total_amount o = items_total (items o) /\
    map item_of_row (items o) = its /\
    forall r, r ∈ items o ->
      oi_order_id r = next_order_id db /\
      price <$> products db !! oi_product_id r = Some (oi_unit_price r).
Proof.
  intros Hu Hex.
  destruct (create_item_loop (next_order_id db) db its Hex [] 0)
    as (new_rows & Hrun & Hmap & Hrows).
  unfold OrderRepository_create, bind at 1, UserRepository_get_by_id.
  rewrite (bool_decide_eq_true_2 _ Hu). cbv beta iota zeta.
  unfold after_flush, bind. rewrite Hrun. simpl.
  eexists. split.
  { unfold commit_new_order. simpl. do 3 f_equal.
    rewrite <- Hmap, length_map. reflexivity. }
  simpl. repeat split; auto; apply Hrows; assumption.
Qed.

Lemma create_order_full db (order_data : OrderCreate) :
  valid_request db order_data ->
  exists o ps,
    create_order order_data db =
    (Ok o, mkDB (users db) ps (orders db ++ [o]) (next_order_id db + 1)
             (next_item_id db + Z.of_nat (length (oc_items order_data)))) /\
    (forall pid,
       ps !! pid =
       add_stock (- requested_quantity pid (oc_items order_data))
         <$> products db !! pid) /\
    o_id o = next_order_id db /\ user_id o = oc_user_id order_data /\
    status o = "pending"%string /\
    total_amount o = items_total (items o) /\
    map item_of_row (items o) = oc_items order_data /\
    forall r, r ∈ items o ->
      oi_order_id r = next_order_id db /\
      price <$> products db !! oi_product_id r = Some (oi_unit_price r).
Proof.
  intros (Hu & Hne & Hall).
  unfold create_order, bind at 1, UserRepository_get_by_id.
  rewrite (bool_decide_eq_true_2 _ Hu).
  destruct (oc_items order_data) as [|x its'] eqn:Hits; [contradiction|].
  rewrite <- Hits in *. clear Hits x its' Hne.
  unfold bind at 1.
  destruct (check_quantity_loop (oc_items order_data) db)
    as [[_ Hq]|[(it & Hit & Hbad) _]].
  2:{ destruct (Hall it Hit). lia. }
  rewrite Hq.
  destruct (check_stock_all_pass db (oc_items order_data)
              (fun x Hx => proj2 (Hall x Hx)) (0, [])) as [[total ups] Hscan].
  unfold bind at 1. rewrite Hscan.
  destruct (check_stock_loop _ _ _ _ _ _ Hscan) as [_ Hacc].
  destruct (Hacc _ eq_refl) as [Hups Hex]. simpl in Hups. subst ups.
  destruct (for_each_decrement_stock (oc_items order_data) db) as (ps & Hdec & Hps).
  unfold bind at 1. rewrite Hdec.
  assert (Hex' : forall it, it ∈ oc_items order_data ->
                   is_Some (products (set_products ps db) !! product_id it)).
  { intros it Hit. simpl. rewrite Hps.
    destruct (Hex it Hit) as [p ->]. simpl. eauto. }
  destruct (OrderRepository_create_full (oc_user_id order_data)
              (oc_items order_data) (set_products ps db) Hu Hex')
    as (o & Hcreate & Hid & Huid & Hst & Htot & Hmap & Hrows).
  exists o, ps. rewrite Hcreate. simpl. split; [reflexivity|].
  split; [exact Hps|]. split; [exact Hid|]. split; [exact Huid|].
  split; [exact Hst|]. split; [exact Htot|]. split; [exact Hmap|].
  intros r Hr. destruct (Hrows r Hr) as [Ho Hpr]. split; [exact Ho|].
  simpl in Hpr. rewrite Hps in Hpr.
  destruct (products db !! oi_product_id r) as [p|]; [|discriminate].
  exact Hpr.
Qed.


Lemma requested_quantity_absent pid (its : list ItemIn) :
  pid ∉ map product_id its -> requested_quantity pid its = 0.
Proof.
  induction its as [|x its IH]; simpl; intros H; [reflexivity|].
  apply not_elem_of_cons in H as [Hne Hout].
  destruct (product_id x =? pid) eqn:Hx.
  - apply Z.eqb_eq in Hx. congruence.
  - apply IH. exact Hout.
Qed.

Lemma requested_quantity_unique (its : list ItemIn) it :
  NoDup (map product_id its) -> it ∈ its ->
  requested_quantity (product_id it) its = quantity it.
Proof.
  induction its as [|x its IH]; simpl; intros Hnd Hin.
  - apply elem_of_nil in Hin. contradiction.
  - apply NoDup_cons in Hnd as [Hout Hnd].
    apply elem_of_cons in Hin as [->|Hin].
    + rewrite Z.eqb_refl, requested_quantity_absent by exact Hout. lia.
    + destruct (product_id x =? product_id it) eqn:Hx.
      * apply Z.eqb_eq in Hx. exfalso. apply Hout. rewrite Hx.
        apply (list_elem_of_fmap_2 product_id). exact Hin.
      * apply IH; assumption.
Qed.

(** X5.  When the items of an accepted request name distinct products,
    each of these products loses exactly the quantity of its item, every
    other product is as before, and no stock that was non-negative
    becomes negative. *)
Theorem create_order_distinct_products_stock (db : DB) (order_data : OrderCreate) :
  valid_request db order_data ->
  NoDup (map product_id (oc_items order_data)) ->
  exists o db',
    create_order order_data db = (Ok o, db') /\
    (forall it, it ∈ oc_items order_data ->
       products db' !! product_id it =
       add_stock (- quantity it) <$> products db !! product_id it) /\
    (forall pid, pid ∉ map product_id (oc_items order_data) ->
       products db' !! pid = products db !! pid) /\
    ((forall pid p, products db !! pid = Some p -> 0 <= stock_quantity p) ->
     forall pid p', products db' !! pid = Some p' -> 0 <= stock_quantity p').
Proof.
  intros Hv Hnd.
  destruct (create_order_full db order_data Hv) as (o & ps & Hrun & Hps & _).
  eexists o, _. split; [exact Hrun|]. simpl.
  assert (Hin : forall it, it ∈ oc_items order_data ->
            ps !! product_id it =
            add_stock (- quantity it) <$> products db !! product_id it).
  { intros it Hit. rewrite Hps, requested_quantity_unique by assumption.
    reflexivity. }
  assert (Hout : forall pid, pid ∉ map product_id (oc_items order_data) ->
            ps !! pid = products db !! pid).
  { intros pid Hpid. rewrite Hps, requested_quantity_absent by exact Hpid.
    destruct (products db !! pid) as [[pr st]|]; [|reflexivity].
    simpl. unfold add_stock. simpl. do 2 f_equal. lia. }
  split; [exact Hin|]. split; [exact Hout|].
  intros Hpos pid p' Hp'.
  destruct (decide (pid ∈ map product_id (oc_items order_data))) as [Hi|Ho].
  - apply list_elem_of_fmap in Hi as (it & -> & Hit).
    rewrite (Hin it Hit) in Hp'.
    destruct Hv as (_ & _ & Hall). destruct (Hall it Hit) as [_ (p & Hp & Hq)].
    rewrite Hp in Hp'. simpl in Hp'. injection Hp' as <-. simpl. lia.
  - rewrite (Hout pid Ho) in Hp'. eauto.
Qed.

(** X6.  Each item is compared with the stock as it was before the
    request, not with what the earlier items of the request leave: a
    request whose items for one product fit the stock one by one but
    exceed it together is accepted and leaves that stock negative. *)
Theorem create_order_oversells_repeated_product (db : DB)
    (order_data : OrderCreate) (pid : Z) (p : Product) :
  valid_request db order_data ->
  products db !! pid = Some p ->
  stock_quantity p < requested_quantity pid (oc_items order_data) ->
  exists o db' p',
    create_order order_data db = (Ok o, db') /\
    products db' !! pid = Some p' /\
    stock_quantity p' =
      stock_quantity p - requested_quantity pid (oc_items order_data) /\
    stock_quantity p' < 0.
Proof.
  intros Hv Hp Hlt.
  destruct (create_order_full db order_data Hv) as (o & ps & Hrun & Hps & _).
  eexists o, _, _. split; [exact Hrun|]. simpl.
  rewrite Hps, Hp. simpl. split; [reflexivity|]. simpl. lia.
Qed.

(** ** OrderRepository.create on its own *)

Lemma create_item_missing oid acc (it : ItemIn) db :
  products db !! product_id it = None ->
  create_item oid acc it db = (Raise (ProductNotFound (product_id it)), db).
Proof.
  intros Hp. destruct acc as [rows total].
  unfold create_item, bind, ProductRepository_get_by_id. rewrite Hp. reflexivity.
Qed.

Lemma create_item_first_missing oid db (pre post : list ItemIn) (it : ItemIn) :
  (forall x, x ∈ pre -> is_Some (products db !! product_id x)) ->
  products db !! product_id it = None ->
  forall acc,
    fold_loop (create_item oid) acc (pre ++ it :: post) db
    = (Raise (ProductNotFound (product_id it)), db).
Proof.
  intros Hpre Hp. induction pre as [|x pre IH]; intros [rows total]; simpl app.
  - rewrite fold_loop_cons, create_item_missing by exact Hp. reflexivity.
  - destruct (Hpre x) as [p Hx]; [left|].
    rewrite fold_loop_cons, (create_item_spec oid rows total x db p Hx).
    apply IH. intros y Hy. apply Hpre. right. exact Hy.
Qed.

(** Either every item names a product, or the list splits at the first
    that does not. *)
Lemma first_missing_split db (its : list ItemIn) :
  (forall x, x ∈ its -> is_Some (products db !! product_id x)) \/
  exists pre it post,
    its = pre ++ it :: post /\
    (forall x, x ∈ pre -> is_Some (products db !! product_id x)) /\
    products db !! product_id it = None.
Proof.
  induction its as [|x its IH].
  - left. intros y Hy. apply elem_of_nil in Hy. contradiction.
  - destruct (products db !! product_id x) as [p|] eqn:Hx.
    + destruct IH as [Hall|(pre & it & post & -> & Hpre & Hf)].
      * left. intros y Hy. apply elem_of_cons in Hy as [->|Hy]; [eauto|auto].
      * right. exists (x :: pre), it, post. split; [reflexivity|].
        split; [|exact Hf]. intros y Hy.
        apply elem_of_cons in Hy as [->|Hy]; [eauto|auto].
    + right. exists [], x, its. split; [reflexivity|]. split; [|exact Hx].
      intros y Hy. apply elem_of_nil in Hy. contradiction.
Qed.

(** X7.  For arguments within the range of the integer columns,
    [OrderRepository.create] succeeds exactly when the user and every
    product of the items exist; it checks neither that there are items
    nor that their quantities are positive.  When the user is missing it
    raises and the database is as before.  When a product is missing it
    raises for the first such item; no user, product or order is changed
    and no order is added, but the primary key that the flushed header
    had drawn is used up: the next order gets the key after it. *)
Theorem OrderRepository_create_outcome (uid : Z) (its : list ItemIn) (db : DB) :
  fits_columns uid its ->
  (is_ok (fst (OrderRepository_create uid its db)) <->
   uid ∈ users db /\ forall it, it ∈ its -> is_Some (products db !! product_id it)) /\
  (uid ∉ users db ->
   OrderRepository_create uid its db = (Raise (UserNotFound uid), db)) /\
  (forall pre it post,
     uid ∈ users db -> its = pre ++ it :: post ->
     (forall x, x ∈ pre -> is_Some (products db !! product_id x)) ->
     products db !! product_id it = None ->
     OrderRepository_create uid its db
     = (Raise (ProductNotFound (product_id it)),
        mkDB (users db) (products db) (orders db) (next_order_id db + 1)
             (next_item_id db))).
Proof.
  intros _.
  assert (Hno : uid ∉ users db ->
            OrderRepository_create uid its db = (Raise (UserNotFound uid), db)).
  { intros Hu. unfold OrderRepository_create, bind, UserRepository_get_by_id.
    rewrite (bool_decide_eq_false_2 _ Hu). reflexivity. }
  assert (Hmiss : forall pre it post,
     uid ∈ users db -> its = pre ++ it :: post ->
     (forall x, x ∈ pre -> is_Some (products db !! product_id x)) ->
     products db !! product_id it = None ->
     OrderRepository_create uid its db
     = (Raise (ProductNotFound (product_id it)), take_order_id db)).
  { intros pre it post Hu -> Hpre Hp.
    unfold OrderRepository_create, bind at 1, UserRepository_get_by_id.
    rewrite (bool_decide_eq_true_2 _ Hu). cbv beta iota zeta.
    unfold after_flush, bind.
    rewrite (create_item_first_missing (next_order_id db) db pre post it Hpre Hp).
    reflexivity. }
  split; [|split; [exact Hno|exact Hmiss]]. split.
  - intros Hok. destruct (decide (uid ∈ users db)) as [Hu|Hu].
    + split; [exact Hu|].
      destruct (first_missing_split db its)
        as [Hall|(pre & it & post & Heq & Hpre & Hp)]; [exact Hall|].
      rewrite (Hmiss pre it post Hu Heq Hpre Hp) in Hok. contradiction Hok.
    + rewrite (Hno Hu) in Hok. contradiction Hok.
  - intros [Hu Hall].
    destruct (OrderRepository_create_full uid its db Hu Hall) as (o & -> & _).
    exact I.
Qed.

(** ** Orders that are not there *)

(** X8.  For a key that no order has, the repository answers [None] to
    [get_by_id] and [update] and does nothing on [delete]; the service
    raises "Order N not found" from [get_by_id], [delete] and [update],
    whatever the patch.  Nothing is changed by any of them. *)
Theorem absent_order_operations (db : DB) (oid : Z) (patch : Patch) :
  find_order oid (orders db) = None ->
  OrderRepository_get_by_id oid db = (Ok None, db) /\
  OrderRepository_update oid patch db = (Ok None, db) /\
  OrderRepository_delete oid db = (Ok tt, db) /\
  OrderService_get_by_id oid db = (Raise (OrderNotFound oid), db) /\
  OrderService_delete oid db = (Raise (OrderNotFound oid), db) /\
  OrderService_update oid patch db = (Raise (OrderNotFound oid), db).
Proof.
  intros Hnone.
  unfold OrderRepository_update, OrderRepository_delete, OrderService_get_by_id,
    OrderService_delete, OrderService_update, bind, OrderRepository_get_by_id.
  rewrite Hnone. repeat split; reflexivity.
Qed.

(** ** Deleting an order *)

Lemma find_order_filter_other oid oid' (os : list Order) :
  oid' <> oid ->
  find_order oid' (List.filter (fun o' => negb (o_id o' =? oid)) os)
  = find_order oid' os.
Proof.
  intros Hne. unfold find_order.
  induction os as [|x os IH]; simpl; [reflexivity|].
  destruct (o_id x =? oid) eqn:Hx; simpl.
  - apply Z.eqb_eq in Hx.
    destruct (o_id x =? oid') eqn:Hx'; [apply Z.eqb_eq in Hx'; congruence|].
    exact IH.
  - destruct (o_id x =? oid'); [reflexivity|exact IH].
Qed.

Lemma find_order_filter_same oid (os : list Order) :
  find_order oid (List.filter (fun o' => negb (o_id o' =? oid)) os) = None.
Proof.
  apply find_order_None. intros o Ho.
  apply list_elem_of_In, filter_In in Ho as [_ Ho].
  apply negb_true_iff, Z.eqb_neq in Ho. exact Ho.
Qed.

(** X9.  Deleting an order that exists removes it with its rows: it is
    not found afterwards, every other order is found as before, and no
    product is changed, so the stock the order had taken is not given
    back. *)
Theorem delete_removes_order_keeps_stock (db : DB) (oid : Z) (order : Order) :
  find_order oid (orders db) = Some order ->
  exists db',
    OrderService_delete oid db = (Ok tt, db') /\
    OrderService_get_by_id oid db' = (Raise (OrderNotFound oid), db') /\
    (forall oid', oid' <> oid ->
       find_order oid' (orders db') = find_order oid' (orders db)) /\
    products db' = products db /\
    users db' = users db.
Proof.
  intros Hfind. pose proof (find_order_id _ _ _ Hfind) as Hid.
  eexists. split.
  { unfold OrderService_delete, bind, OrderRepository_get_by_id. rewrite Hfind.
    unfold OrderRepository_delete, bind, OrderRepository_get_by_id.
    rewrite Hfind, Hid. reflexivity. }
  split.
  { unfold OrderService_get_by_id, bind, OrderRepository_get_by_id.
    cbn [orders]. rewrite find_order_filter_same. reflexivity. }
  split; [|split; reflexivity].
  intros oid' Hne. cbn [orders]. apply find_order_filter_other. exact Hne.
Qed.

(** ** The footprint of [OrderService.update] *)

Lemma replace_order_ids o' (os : list Order) :
  map o_id (replace_order o' os) = map o_id os.
Proof.
  unfold replace_order. induction os as [|x os IH]; simpl; [reflexivity|].
  rewrite IH. destruct (o_id x =? o_id o') eqn:Hx; [|reflexivity].
  apply Z.eqb_eq in Hx. congruence.
Qed.

Lemma find_order_replace_other oid' o' (os : list Order) :
  oid' <> o_id o' ->
  find_order oid' (replace_order o' os) = find_order oid' os.
Proof.
  intros Hne. unfold find_order, replace_order.
  induction os as [|x os IH]; simpl; [reflexivity|].
  destruct (o_id x =? o_id o') eqn:Hx.
  - apply Z.eqb_eq in Hx.
    destruct (o_id o' =? oid') eqn:H1; [apply Z.eqb_eq in H1; congruence|].
    destruct (o_id x =? oid') eqn:H2; [apply Z.eqb_eq in H2; congruence|].
    exact IH.
  - destruct (o_id x =? oid'); [reflexivity|exact IH].
Qed.

Lemma elem_of_replace_order o' (os : list Order) x :
  x ∈ replace_order o' os -> x = o' \/ x ∈ os.
Proof.
  unfold replace_order. intros H. apply list_elem_of_fmap in H as (y & -> & Hy).
  destruct (o_id y =? o_id o'); [left; reflexivity|right; exact Hy].
Qed.

(** The [status] branch leaves a product table with the same products at
    the same prices, and hands on a status only if it is one of the
    five. *)
Lemma update_status_field_shape (order : Order) (st : option string) db :
  exists ps,
    snd (update_status_field order st db) = set_products ps db /\
    (forall pid, price <$> ps !! pid = price <$> products db !! pid) /\
    (forall pid, ps !! pid = None <-> products db !! pid = None) /\
    forall sf, fst (update_status_field order st db) = Ok sf ->
      sf = st /\ forall s, st = Some s -> s ∈ valid_statuses.
Proof.
  assert (Hsame : exists ps,
            db = set_products ps db /\
            (forall pid, price <$> ps !! pid = price <$> products db !! pid) /\
            (forall pid, ps !! pid = None <-> products db !! pid = None)).
  { exists (products db). rewrite set_products_same. repeat split; auto. }
  unfold update_status_field. destruct st as [s|].
  2:{ destruct Hsame as (ps & Hdb & Hpr & Hn). exists ps.
      split; [exact Hdb|]. split; [exact Hpr|]. split; [exact Hn|].
      intros sf [= <-]. split; [reflexivity|]. discriminate. }
  destruct (bool_decide (s ∈ valid_statuses)) eqn:Hv; cbn [negb]; cbv beta iota.
  2:{ destruct Hsame as (ps & Hdb & Hpr & Hn). exists ps.
      split; [exact Hdb|]. split; [exact Hpr|]. split; [exact Hn|].
      discriminate. }
  apply bool_decide_eq_true_1 in Hv.
  destruct (String.eqb s "cancelled" && negb (String.eqb (status order) "cancelled"));
    cbv beta iota.
  - destruct (for_each_restore_stock (items order) db) as (ps & Hrun & Hps).
    exists ps. unfold bind. rewrite Hrun. simpl. split; [reflexivity|].
    split; [|split].
    + intros pid. rewrite Hps. destruct (products db !! pid); reflexivity.
    + intros pid. rewrite Hps. destruct (products db !! pid); simpl; split;
        intros; congruence.
    + intros sf [= <-]. split; [reflexivity|]. intros s' [= <-]. exact Hv.
  - destruct Hsame as (ps & Hdb & Hpr & Hn). exists ps.
    unfold bind, ret. simpl. split; [exact Hdb|]. split; [exact Hpr|].
    split; [exact Hn|].
    intros sf [= <-]. split; [reflexivity|]. intros s' [= <-]. exact Hv.
Qed.

(** What an update of an order that exists leaves behind: the products at
    their prices, and either the orders as they were or one order put in
    place of the old one, with the same key and user and a valid or
    unchanged status. *)
Lemma OrderService_update_found oid (patch : Patch) db order :
  find_order oid (orders db) = Some order ->
  OrderService_update oid patch db =
  match update_status_field order (p_status patch) db with
  | (Ok sf, dbm) =>
      match sf, p_items patch with
      | None, None => (Ok (Some order), dbm)
      | _, _ => OrderRepository_update oid (mkPatch sf (p_items patch)) dbm
      end
  | (Raise e, dbm) => (Raise e, dbm)
  end.
Proof.
  intros Hfind.
  unfold OrderService_update, bind at 1, OrderRepository_get_by_id.
  rewrite Hfind. unfold bind at 1.
  destruct (update_status_field order (p_status patch) db) as [[sf|e] dbm];
    [|reflexivity].
  destruct (p_items patch) as [l|]; simpl; [rewrite copy_items|];
    destruct sf; reflexivity.
Qed.

Lemma OrderService_update_shape oid (patch : Patch) db order :
  find_order oid (orders db) = Some order ->
  exists ps,
    (forall pid, price <$> ps !! pid = price <$> products db !! pid) /\
    (snd (OrderService_update oid patch db) = set_products ps db \/
     exists o' n,
       o_id o' = oid /\ user_id o' = user_id order /\
       (status o' = status order \/ status o' ∈ valid_statuses) /\
       fst (OrderService_update oid patch db) = Ok (Some o') /\
       snd (OrderService_update oid patch db) =
       mkDB (users db) ps (replace_order o' (orders db)) (next_order_id db) n).
Proof.
  intros Hfind.
  destruct (update_status_field_shape order (p_status patch) db)
    as (ps & Hdb & Hpr & _ & Hsf).
  exists ps. split; [exact Hpr|].
  rewrite (OrderService_update_found oid patch db order Hfind).
  destruct (update_status_field order (p_status patch) db) as [[sf|e] dbm];
    simpl in Hdb; subst dbm; [|left; reflexivity].
  destruct (Hsf sf eq_refl) as [-> Hvalid].
  assert (Hfind' : find_order oid (orders (set_products ps db)) = Some order)
    by exact Hfind.
  assert (Hrepo :
    snd (OrderRepository_update oid (mkPatch (p_status patch) (p_items patch))
           (set_products ps db)) = set_products ps db \/
    exists o' n,
      o_id o' = oid /\ user_id o' = user_id order /\
      (status o' = status order \/ status o' ∈ valid_statuses) /\
      fst (OrderRepository_update oid (mkPatch (p_status patch) (p_items patch))
             (set_products ps db)) = Ok (Some o') /\
      snd (OrderRepository_update oid (mkPatch (p_status patch) (p_items patch))
             (set_products ps db)) =
      mkDB (users db) ps (replace_order o' (orders db)) (next_order_id db) n).
  { destruct (OrderRepository_update_cases oid
                (mkPatch (p_status patch) (p_items patch)) _ order Hfind')
      as [[e ->]|(o' & n & -> & Hid & Hu & Hs & _)]; [left; reflexivity|].
    right. exists o', n. split; [exact Hid|]. split; [exact Hu|].
    split; [|split; reflexivity].
    rewrite Hs. cbn [p_status].
    destruct (p_status patch) as [s|]; simpl; [right|left; reflexivity].
    apply Hvalid. reflexivity. }
  destruct (p_status patch) as [s|]; [exact Hrepo|].
  destruct (p_items patch) as [l|]; [exact Hrepo|].
  left. reflexivity.
Qed.

(** X10.  Whatever the patch and whatever the outcome, an update of order
    [oid] adds no order and removes none: the stored orders have the keys
    they had.  It leaves the users, the counter of the order keys, every
    other order, and the set of products with their prices as they were. *)
Theorem update_touches_one_order (db : DB) (oid : Z) (patch : Patch) :
  let db' := snd (OrderService_update oid patch db) in
  users db' = users db /\
  next_order_id db' = next_order_id db /\
  map o_id (orders db') ≡ₚ map o_id (orders db) /\
  (forall oid', oid' <> oid ->
     find_order oid' (orders db') = find_order oid' (orders db)) /\
  (forall pid, price <$> products db' !! pid = price <$> products db !! pid).
Proof.
  intros db'. subst db'.
  destruct (find_order oid (orders db)) as [order|] eqn:Hfind.
  - destruct (OrderService_update_shape oid patch db order Hfind)
      as (ps & Hpr & [->|(o' & n & Hid & _ & _ & _ & ->)]); simpl.
    + repeat split; auto.
    + split; [reflexivity|]. split; [reflexivity|].
      split; [rewrite replace_order_ids; reflexivity|]. split; [|exact Hpr].
      intros oid' Hne. apply find_order_replace_other. congruence.
  - unfold OrderService_update, bind, OrderRepository_get_by_id.
    rewrite Hfind. simpl. repeat split; auto.
Qed.

Lemma OrderRepository_update_status_only oid s db order :
  find_order oid (orders db) = Some order ->
  OrderRepository_update oid (mkPatch (Some s) None) db =
  (Ok (Some (set_status s order)),
   mkDB (users db) (products db) (replace_order (set_status s order) (orders db))
        (next_order_id db) (next_item_id db + 0)).
Proof.
  intros Hfind.
  unfold OrderRepository_update, bind, OrderRepository_get_by_id.
  rewrite Hfind. reflexivity.
Qed.

(** X11.  An update that carries only a status, one of the five, gives
    back the stored order with that status and nothing else changed: the
    same rows, total and user; and this is the order found afterwards. *)
Theorem status_update_changes_status_only (db : DB) (oid : Z) (order : Order)
    (s : string) :
  find_order oid (orders db) = Some order ->
  s ∈ valid_statuses ->
  exists db',
    OrderService_update oid (mkPatch (Some s) None) db
      = (Ok (Some (set_status s order)), db') /\
    find_order oid (orders db') = Some (set_status s order) /\
    items (set_status s order) = items order /\
    total_amount (set_status s order) = total_amount order.
Proof.
  intros Hfind Hs. pose proof (find_order_id _ _ _ Hfind) as Hid.
  assert (Hrun : exists ps,
             OrderService_update oid (mkPatch (Some s) None) db =
             OrderRepository_update oid (mkPatch (Some s) None)
               (set_products ps db)).
  { unfold OrderService_update, bind at 1, OrderRepository_get_by_id.
    rewrite Hfind. unfold update_status_field. cbn [p_status p_items].
    rewrite (bool_decide_eq_true_2 _ Hs). cbn [negb]. cbv beta iota.
    destruct (String.eqb s "cancelled" && negb (String.eqb (status order) "cancelled"));
      cbv beta iota.
    - destruct (for_each_restore_stock (items order) db) as (ps & Hr & _).
      exists ps. unfold bind. rewrite Hr. reflexivity.
    - exists (products db). rewrite set_products_same. reflexivity. }
  destruct Hrun as (ps & ->).
  rewrite (OrderRepository_update_status_only oid s (set_products ps db) order Hfind).
  eexists. split; [reflexivity|]. split; [|split; reflexivity].
  cbn [orders]. eapply find_order_replace; [exact Hfind|exact Hid].
Qed.

(** ** Item updates of orders with distinct products *)

(** X12.  Replace-by-key.  For an order whose rows name distinct products
    and a patch whose items all name existing products, the update leaves
    the order with these rows, in whatever order they are handed out:
    under their primary keys, the rows whose product the patch names,
    each with the quantity of the last item naming it and the current
    price, and one new row per item whose product the order did not hold;
    the other rows are deleted.  The stored total is accumulated over the
    items of the patch, in the order of the patch: quantity times current
    price. *)
Theorem update_replaces_rows_by_product (db : DB) (oid : Z) (order : Order)
    (its : list ItemIn) :
  find_order oid (orders db) = Some order ->
  NoDup (map oi_product_id (items order)) ->
  (forall ni, ni ∈ its -> is_Some (products db !! product_id ni)) ->
  exists o' db',
    OrderService_update oid (mkPatch None (Some its)) db = (Ok (Some o'), db') /\
    find_order oid (orders db') = Some o' /\
    status o' = status order /\
    total_amount o' = accumulate (request_terms db its) /\
    items o' ≡ₚ
      filter (fun r => oi_product_id r ∈ map product_id its)
             (map (reconciled_row db its) (items order))
      ++ inserted_rows oid db (map oi_product_id (items order)) 0 its.
Proof.
  intros Hfind Hnd Hex.
  destruct (update_items_distinct_rows db oid order its Hfind Hnd Hex)
    as (o' & db' & Hrun & Hfind' & _ & Hst & Htot & Hitems).
  exists o', db'. split; [exact Hrun|]. split; [exact Hfind'|].
  split; [exact Hst|].
  split; [rewrite Htot; symmetry; apply accumulate_request_terms|].
  rewrite Hitems. reflexivity.
Qed.

(** X13.  When, moreover, the items of the patch name distinct products,
    the order is left with exactly the items of the patch (as a set of
    product and quantity), each row at the current price of its product.
    The stored total is accumulated in the order of the patch, and the
    terms that are added are the amounts of exactly these rows. *)
Theorem update_distinct_items_total (db : DB) (oid : Z) (order : Order)
    (its : list ItemIn) :
  find_order oid (orders db) = Some order ->
  NoDup (map oi_product_id (items order)) ->
  NoDup (map product_id its) ->
  (forall ni, ni ∈ its -> is_Some (products db !! product_id ni)) ->
  exists o' db',
    OrderService_update oid (mkPatch None (Some its)) db = (Ok (Some o'), db') /\
    map item_of_row (items o') ≡ₚ its /\
    NoDup (map oi_product_id (items o')) /\
    (forall r, r ∈ items o' ->
       price <$> products db !! oi_product_id r = Some (oi_unit_price r)) /\
    total_amount o' = accumulate (request_terms db its) /\
    request_terms db its ≡ₚ row_terms (items o').
Proof.
  intros Hfind Hk Hj Hex.
  destruct (update_items_distinct db oid order its Hfind Hk Hj Hex)
    as (o' & db' & Hrun & _ & Hperm & Hprice & Htot).
  exists o', db'. split; [exact Hrun|]. split; [exact Hperm|].
  split.
  { assert (Hp : map oi_product_id (items o') ≡ₚ map product_id its).
    { rewrite <- Hperm, <- list_fmap_compose. reflexivity. }
    rewrite Hp. exact Hj. }
  split; [exact Hprice|].
  split.
  - rewrite Htot, accumulate_request_terms.
    rewrite <- (request_total_of_rows db (items o') Hprice).
    apply request_total_perm. exact Hperm.
  - rewrite <- (request_terms_of_rows db (items o') Hprice).
    unfold request_terms. apply fmap_Permutation. symmetry. exact Hperm.
Qed.

(** X14.  An empty list of items is accepted by [update], unlike by
    [create_order]: for an order whose rows name distinct products it
    deletes every row and stores the total 0. *)
Theorem update_with_no_items_empties_order (db : DB) (oid : Z) (order : Order) :
  find_order oid (orders db) = Some order ->
  NoDup (map oi_product_id (items order)) ->
  exists o' db',
    OrderService_update oid (mkPatch None (Some [])) db = (Ok (Some o'), db') /\
    find_order oid (orders db') = Some o' /\
    items o' = [] /\ total_amount o' = 0 /\ status o' = status order.
Proof.
  intros Hfind Hnd.
  destruct (update_items_distinct_rows db oid order [] Hfind Hnd)
    as (o' & db' & Hrun & Hfind' & _ & Hst & Htot & Hitems).
  { intros ni Hni. apply elem_of_nil in Hni. contradiction. }
  exists o', db'. split; [exact Hrun|]. split; [exact Hfind'|].
  split; [|split; [exact Htot|exact Hst]].
  rewrite Hitems. simpl. rewrite app_nil_r. clear.
  induction (items order) as [|r rows IH]; [reflexivity|].
  simpl. rewrite filter_cons, decide_False; [|apply not_elem_of_nil].
  apply IH.
Qed.

(** ** An item update that names a missing product *)

Lemma diff_item_missing oid ebp d (ni : ItemIn) db :
  products db !! product_id ni = None ->
  diff_item oid ebp d ni db = (Raise (ProductNotFound (product_id ni)), db).
Proof.
  intros Hp. unfold diff_item, bind, ProductRepository_get_by_id.
  cbv zeta. rewrite Hp. reflexivity.
Qed.

Lemma diff_item_found oid ebp d (ni : ItemIn) db :
  is_Some (products db !! product_id ni) ->
  exists d', diff_item oid ebp d ni db = (Ok d', db).
Proof.
  intros [p Hp]. unfold diff_item, bind, ProductRepository_get_by_id.
  cbv zeta. rewrite Hp. destruct (ebp !! product_id ni); eauto.
Qed.

Lemma diff_loop_first_missing oid ebp db (pre post : list ItemIn) (it : ItemIn) :
  (forall x, x ∈ pre -> is_Some (products db !! product_id x)) ->
  products db !! product_id it = None ->
  forall d,
    fold_loop (diff_item oid ebp) d (pre ++ it :: post) db
    = (Raise (ProductNotFound (product_id it)), db).
Proof.
  intros Hpre Hp. induction pre as [|x pre IH]; intros d; simpl app.
  - rewrite fold_loop_cons, diff_item_missing by exact Hp. reflexivity.
  - rewrite fold_loop_cons.
    destruct (diff_item_found oid ebp d x db) as [d' ->]; [apply Hpre; left|].
    apply IH. intros y Hy. apply Hpre. right. exact Hy.
Qed.

Lemma OrderRepository_update_missing_product oid st db order
    (pre post : list ItemIn) (it : ItemIn) :
  find_order oid (orders db) = Some order ->
  (forall x, x ∈ pre -> is_Some (products db !! product_id x)) ->
  products db !! product_id it = None ->
  OrderRepository_update oid (mkPatch st (Some (pre ++ it :: post))) db
  = (Raise (ProductNotFound (product_id it)), db).
Proof.
  intros Hfind Hpre Hp.
  unfold OrderRepository_update, bind at 1, OrderRepository_get_by_id.
  rewrite Hfind. cbn [p_status p_items]. cbv beta iota zeta.
  unfold bind. rewrite (diff_loop_first_missing _ _ db pre post it Hpre Hp).
  reflexivity.
Qed.

(** X15.  When the items of a patch name a product that does not exist,
    the update raises "Product N not found" for the first such item and
    stores nothing of the patch: the orders, with their statuses and
    rows, are as before.  If the patch also asked to cancel an order that
    was not cancelled, the stock of its items has been given back all the
    same, although the order stays as it was. *)
Theorem update_with_missing_product (db : DB) (oid : Z) (order : Order)
    (st : option string) (pre post : list ItemIn) (it : ItemIn) :
  find_order oid (orders db) = Some order ->
  (forall s, st = Some s -> s ∈ valid_statuses) ->
  (forall x, x ∈ pre -> is_Some (products db !! product_id x)) ->
  products db !! product_id it = None ->
  let patch := mkPatch st (Some (pre ++ it :: post)) in
  let run := OrderService_update oid patch db in
  fst run = Raise (ProductNotFound (product_id it)) /\
  orders (snd run) = orders db /\
  (~ cancels db oid patch -> snd run = db) /\
  (cancels db oid patch ->
   forall pid,
     products (snd run) !! pid =
     add_stock (held_quantity pid (items order)) <$> products db !! pid).
Proof.
  intros Hfind Hvalid Hpre Hp patch run.
  assert (Hshape : exists ps,
    run = (Raise (ProductNotFound (product_id it)), set_products ps db) /\
    forall pid,
      ps !! pid =
      (if String.eqb (default "" st) "cancelled"
          && negb (String.eqb (status order) "cancelled")
       then add_stock (held_quantity pid (items order)) <$> products db !! pid
       else products db !! pid)).
  { subst run. rewrite (OrderService_update_found oid patch db order Hfind).
    unfold update_status_field. cbn [p_status p_items patch].
    destruct st as [s|].
    - rewrite (bool_decide_eq_true_2 _ (Hvalid s eq_refl)).
      cbn [negb]. cbv beta iota. change (default ""%string (Some s)) with s.
      destruct (String.eqb s "cancelled"
                && negb (String.eqb (status order) "cancelled")); cbv beta iota.
      + destruct (for_each_restore_stock (items order) db) as (ps & Hrun & Hps).
        exists ps. unfold bind. rewrite Hrun. unfold ret. split; [|exact Hps].
        apply (OrderRepository_update_missing_product oid _ _ order).
        * exact Hfind.
        * intros x Hx. simpl. rewrite Hps.
          destruct (Hpre x Hx) as [p ->]. simpl. eauto.
        * simpl. rewrite Hps, Hp. reflexivity.
      + exists (products db). unfold bind, ret. rewrite set_products_same.
        split; [|reflexivity].
        apply (OrderRepository_update_missing_product oid _ _ order); assumption.
    - exists (products db). unfold ret. rewrite set_products_same.
      split; [|reflexivity].
      apply (OrderRepository_update_missing_product oid _ _ order); assumption. }
  destruct Hshape as (ps & Hrun & Hps). rewrite Hrun. simpl.
  split; [reflexivity|]. split; [reflexivity|]. split.
  - intros Hnc. rewrite <- (set_products_same db) at 2. f_equal.
    apply map_eq. intros pid. rewrite Hps.
    destruct (String.eqb (default "" st) "cancelled"
              && negb (String.eqb (status order) "cancelled")) eqn:Hc;
      [|reflexivity].
    exfalso. apply Hnc. apply andb_true_iff in Hc as [H1 H2].
    apply String.eqb_eq in H1. apply negb_true_iff, String.eqb_neq in H2.
    split.
    + cbn [p_status patch]. destruct st as [s|]; simpl in H1; [subst; reflexivity|].
      discriminate.
    + exists order. split; assumption.
  - intros [Hst (order' & Hfind' & Hnc)] pid.
    rewrite Hfind in Hfind'. injection Hfind' as <-.
    cbn [p_status patch] in Hst. subst st. rewrite Hps. cbn [default].
    replace (String.eqb "cancelled" "cancelled") with true by reflexivity.
    rewrite (proj2 (String.eqb_neq _ _) Hnc). reflexivity.
Qed.

(** ** Creating an order and cancelling it *)

Lemma held_quantity_of_items pid (rows : list OrderItem) :
  held_quantity pid rows = requested_quantity pid (map item_of_row rows).
Proof.
  induction rows as [|r rows IH]; simpl; [reflexivity|].
  rewrite IH. reflexivity.
Qed.

(** X16.  Cancelling an order right after it was created gives every
    product the stock it had before the creation, also when the request
    named a product several times. *)
Theorem create_then_cancel_restores_stock (db : DB) (order_data : OrderCreate) :
  valid_request db order_data ->
  (forall o', o' ∈ orders db -> o_id o' <> next_order_id db) ->
  exists o db1 o2 db2,
    create_order order_data db = (Ok o, db1) /\
    OrderService_update (o_id o) (mkPatch (Some "cancelled"%string) None) db1
      = (Ok (Some o2), db2) /\
    status o2 = "cancelled"%string /\
    items o2 = items o /\
    products db2 = products db.
Proof.
  intros Hv Hfresh.
  destruct (create_order_full db order_data Hv)
    as (o & ps & Hrun & Hps & Hid & _ & Hst & _ & Hmap & _).
  set (db1 := mkDB (users db) ps (orders db ++ [o]) (next_order_id db + 1)
                (next_item_id db + Z.of_nat (length (oc_items order_data)))) in *.
  assert (Hfind : find_order (o_id o) (orders db1) = Some o).
  { cbn [orders db1]. rewrite (find_order_app (o_id o) (orders db) o).
    rewrite Z.eqb_refl, Hid, find_order_None by exact Hfresh. reflexivity. }
  destruct (OrderService_update_cancel (o_id o)
              (mkPatch (Some "cancelled"%string) None) db1 o Hfind eq_refl)
    as (ps2 & Hrun2 & Hps2).
  rewrite Hst in Hps2. replace (String.eqb "pending" "cancelled") with false in Hps2
    by reflexivity.
  exists o, db1, (set_status "cancelled" o).
  eexists. split; [exact Hrun|]. split.
  { rewrite Hrun2.
    apply (OrderRepository_update_status_only (o_id o) "cancelled"
             (set_products ps2 db1) o Hfind). }
  split; [reflexivity|]. split; [reflexivity|].
  cbn [products]. apply map_eq. intros pid.
  rewrite Hps2. cbn [products db1]. rewrite Hps.
  rewrite held_quantity_of_items, Hmap.
  destruct (products db !! pid) as [[pr stock]|]; [|reflexivity].
  simpl. unfold add_stock. simpl. do 2 f_equal. lia.
Qed.

(** ** An invariant of the stored orders *)

Lemma orders_ok_create db (order_data : OrderCreate) :
  orders_ok db -> orders_ok (snd (create_order order_data db)).
Proof.
  intros [Hnd Hall].
  pose proof (create_order_outcome order_data db) as Hout.
  destruct (create_order order_data db) as [[o|e] db'] eqn:Hrun;
    [|simpl; subst db'; split; assumption].
  assert (Hv : valid_request db order_data)
    by (apply create_order_ok_valid; rewrite Hrun; exact I).
  destruct (create_order_full db order_data Hv)
    as (o1 & ps & Hrun1 & _ & Hid & _ & Hst & _).
  rewrite Hrun in Hrun1. injection Hrun1 as <- ->. split; cbn [snd orders next_order_id].
  - rewrite map_app. apply NoDup_app. split; [exact Hnd|]. split.
    + intros x Hx Hx'. simpl in Hx'. apply list_elem_of_singleton in Hx'.
      apply list_elem_of_fmap in Hx as (y & -> & Hy).
      destruct (Hall y Hy) as [Hlt _]. lia.
    + simpl. apply NoDup_singleton.
  - intros x Hx. apply elem_of_app in Hx as [Hx|Hx].
    + destruct (Hall x Hx) as [Hlt Hs]. split; [lia|exact Hs].
    + apply list_elem_of_singleton in Hx. subst x. split; [lia|].
      rewrite Hst. left.
Qed.

Lemma orders_ok_update db oid (patch : Patch) :
  orders_ok db -> orders_ok (snd (OrderService_update oid patch db)).
Proof.
  intros [Hnd Hall].
  destruct (find_order oid (orders db)) as [order|] eqn:Hfind.
  - assert (Hin : order ∈ orders db).
    { unfold find_order in Hfind. apply find_some in Hfind as [Hin _].
      apply list_elem_of_In. exact Hin. }
    destruct (OrderService_update_shape oid patch db order Hfind)
      as (ps & _ & [->|(o' & n & Hid & _ & Hs & _ & ->)]).
    + split; assumption.
    + split; simpl.
      * rewrite replace_order_ids. exact Hnd.
      * intros x Hx. apply elem_of_replace_order in Hx as [->|Hx]; [|auto].
        split.
        -- rewrite Hid, <- (find_order_id _ _ _ Hfind). apply Hall. exact Hin.
        -- destruct Hs as [->|Hs]; [apply Hall; exact Hin|exact Hs].
  - unfold OrderService_update, bind, OrderRepository_get_by_id.
    rewrite Hfind. split; assumption.
Qed.

Lemma NoDup_ids_filter (f : Order -> bool) (os : list Order) :
  NoDup (map o_id os) -> NoDup (map o_id (List.filter f os)).
Proof.
  induction os as [|x os IH]; simpl; intros Hnd; [exact Hnd|].
  apply NoDup_cons in Hnd as [Hout Hnd].
  destruct (f x); simpl; [|auto].
  apply NoDup_cons. split; [|auto].
  intros Hin. apply Hout. apply list_elem_of_fmap in Hin as (y & -> & Hy).
  apply (list_elem_of_fmap_2 o_id).
  apply list_elem_of_In, filter_In in Hy as [Hy _]. apply list_elem_of_In. exact Hy.
Qed.

Lemma orders_ok_delete db oid :
  orders_ok db -> orders_ok (snd (OrderService_delete oid db)).
Proof.
  intros [Hnd Hall].
  unfold OrderService_delete, bind, OrderRepository_get_by_id.
  destruct (find_order oid (orders db)) as [order|] eqn:Hfind;
    [|split; assumption].
  unfold OrderRepository_delete, bind, OrderRepository_get_by_id.
  rewrite Hfind. split; simpl.
  - apply NoDup_ids_filter. exact Hnd.
  - intros x Hx. apply list_elem_of_In, filter_In in Hx as [Hx _].
    apply Hall. apply list_elem_of_In. exact Hx.
Qed.

(** X17.  The operations of the order service keep the stored orders well
    formed: the primary keys stay distinct and below the counter, and
    every status stays one of the five. *)
Theorem order_service_keeps_orders_ok (db : DB) :
  orders_ok db ->
  (forall order_data, orders_ok (snd (create_order order_data db))) /\
  (forall oid patch, orders_ok (snd (OrderService_update oid patch db))) /\
  (forall oid, orders_ok (snd (OrderService_delete oid db))) /\
  (forall oid, orders_ok (snd (OrderService_get_by_id oid db))) /\
  (forall f count page uid st,
     orders_ok (snd (get_by_filter f count page uid st db))).
Proof.
  intros Hok. split; [intros; apply orders_ok_create; exact Hok|].
  split; [intros; apply orders_ok_update; exact Hok|].
  split; [intros; apply orders_ok_delete; exact Hok|].
  split.
  - intros oid. unfold OrderService_get_by_id, bind, OrderRepository_get_by_id.
    destruct (find_order oid (orders db)); exact Hok.
  - intros f count page uid st. rewrite read_only_get_by_filter. exact Hok.
Qed.

(** ** Listings *)

Lemma where_filters (uid : option Z) (st : option string) (os : list Order) :
  where_status st (where_user uid os) = List.filter (matches uid st) os.
Proof.
  unfold where_status, where_user, matches.
  destruct uid as [u|], st as [s|]; simpl.
  - induction os as [|x os IH]; simpl; [reflexivity|].
    destruct (user_id x =? u); simpl; [|exact IH].
    destruct (String.eqb (status x) s); [f_equal|]; exact IH.
  - apply filter_ext. intros x. rewrite andb_true_r. reflexivity.
  - reflexivity.
  - induction os as [|x os IH]; simpl; [reflexivity|]. f_equal. exact IH.
Qed.

Lemma OrderRepository_list_spec (limit offset : Z) uid st db :
  0 <= limit -> 0 <= offset ->
  OrderRepository_list limit offset uid st db =
  (Ok (Z.of_nat (length (List.filter (matches uid st) (orders db))),
       take (Z.to_nat limit)
            (drop (Z.to_nat offset) (List.filter (matches uid st) (orders db)))),
   db).
Proof.
  intros Hl Ho. unfold OrderRepository_list. rewrite where_filters.
  destruct (limit <? 0) eqn:El; [apply Z.ltb_lt in El; lia|].
  destruct (offset <? 0) eqn:Eo; [apply Z.ltb_lt in Eo; lia|].
  reflexivity.
Qed.

Lemma sublist_List_filter {A} (f : A -> bool) (l : list A) :
  List.filter f l `sublist_of` l.
Proof.
  induction l as [|x l IH]; simpl; [constructor|].
  destruct (f x); [apply sublist_skip|apply sublist_cons]; exact IH.
Qed.

(** X18.  For a limit and an offset that are not negative, [list] returns
    the number of all orders that match the filters, whatever the limit
    and the offset, and a page of [min(limit, total - offset)] orders (none
    when the offset is past the end); the orders of the page are stored
    orders that match the filters, in the order in which they are
    stored. *)
Theorem list_total_and_page (db : DB) (limit offset : Z)
    (uid : option Z) (st : option string) :
  0 <= limit -> 0 <= offset ->
  exists page,
    OrderRepository_list limit offset uid st db
    = (Ok (Z.of_nat (length (List.filter (matches uid st) (orders db))), page),
       db) /\
    Z.of_nat (length page) =
      Z.max 0 (Z.min limit
                 (Z.of_nat (length (List.filter (matches uid st) (orders db)))
                  - offset)) /\
    page `sublist_of` orders db /\
    forall o, o ∈ page -> matches uid st o = true.
Proof.
  intros Hl Ho. eexists. split; [apply OrderRepository_list_spec; assumption|].
  set (F := List.filter (matches uid st) (orders db)).
  split; [|split].
  - rewrite length_take, length_drop. lia.
  - transitivity F; [|apply sublist_List_filter].
    transitivity (drop (Z.to_nat offset) F);
      [apply sublist_take|apply sublist_drop].
  - intros o Hin.
    assert (Hf : o ∈ F).
    { eapply elem_of_sublist; [exact Hin|].
      transitivity (drop (Z.to_nat offset) F);
        [apply sublist_take|apply sublist_drop]. }
    apply list_elem_of_In, filter_In in Hf as [_ Hm]. exact Hm.
Qed.

Lemma page_of_native (count p : Z) uid st db :
  0 <= count -> 1 <= p ->
  page_of true count uid st db p =
  take (Z.to_nat count)
       (drop (Z.to_nat ((p - 1) * count))
             (List.filter (matches uid st) (orders db))).
Proof.
  intros Hc Hp. unfold page_of, get_by_filter.
  rewrite OrderRepository_list_spec by nia. reflexivity.
Qed.

Lemma take_then_next {A} (l : list A) (n m : nat) :
  take n l ++ take m (drop n l) = take (n + m) l.
Proof.
  revert l. induction n as [|n IH]; intros l; simpl.
  - rewrite drop_0. reflexivity.
  - destruct l as [|x l]; simpl; [rewrite take_nil; reflexivity|].
    f_equal. apply IH.
Qed.

(** X19.  The pages of the filtered listing tile the matching orders: for
    a page size that is not negative, the pages 1 to [k], one after the
    other, are the first [k * count] matching orders, each once and in
    the stored order. *)
Theorem pages_tile_the_listing (db : DB) (count : Z) (uid : option Z)
    (st : option string) (k : nat) :
  0 <= count ->
  concat (map (fun i : nat => page_of true count uid st db (Z.of_nat i))
              (seq 1 k))
  = take (k * Z.to_nat count) (List.filter (matches uid st) (orders db)).
Proof.
  intros Hc. induction k as [|k IH].
  - reflexivity.
  - rewrite seq_S, map_app, concat_app, IH. simpl map. simpl concat.
    rewrite app_nil_r, page_of_native by lia.
    replace (Z.to_nat ((Z.of_nat (S k) - 1) * count))
      with (k * Z.to_nat count)%nat by nia.
    rewrite take_then_next. f_equal. lia.
Qed.

Lemma elem_of_take_drop {A} (l : list A) (n a : nat) x :
  x ∈ take n (drop a l) ->
  exists i, l !! i = Some x /\ (a <= i < a + n)%nat.
Proof.
  intros H. apply list_elem_of_lookup in H as [j Hj].
  assert (Hlt : (j < n)%nat).
  { destruct (decide (j < n)%nat) as [|Hge]; [assumption|].
    rewrite lookup_take_ge in Hj by lia. discriminate. }
  rewrite lookup_take_lt, lookup_drop in Hj by exact Hlt.
  exists (a + j)%nat. split; [exact Hj|lia].
Qed.

(** X20.  When the stored orders have distinct primary keys, two
    different pages of the same listing have no order in common. *)
Theorem pages_are_disjoint (db : DB) (count p q : Z) (uid : option Z)
    (st : option string) (o1 o2 : Order) :
  NoDup (map o_id (orders db)) ->
  0 <= count -> 1 <= p -> p < q ->
  o1 ∈ page_of true count uid st db p ->
  o2 ∈ page_of true count uid st db q ->
  o_id o1 <> o_id o2.
Proof.
  intros Hnd Hc Hp Hpq H1 H2 Heq.
  rewrite page_of_native in H1, H2 by lia.
  set (F := List.filter (matches uid st) (orders db)) in *.
  assert (HndF : NoDup (map o_id F)) by (apply NoDup_ids_filter; exact Hnd).
  apply elem_of_take_drop in H1 as (i & Hi & Hir).
  apply elem_of_take_drop in H2 as (j & Hj & Hjr).
  assert (Hij : i = j).
  { apply (NoDup_lookup (map o_id F) i j (o_id o1)); auto.
    - rewrite list_lookup_fmap, Hi. reflexivity.
    - rewrite list_lookup_fmap, Hj. simpl. congruence. }
  assert (Z.of_nat i < Z.of_nat j); [|lia].
  assert (Hi' : Z.of_nat i < (p - 1) * count + count) by nia.
  assert (Hj' : (q - 1) * count <= Z.of_nat j) by nia.
  nia.
Qed.

(** X21.  For every store, the fallback path answers as the filtered query
    would on the first 1000 stored orders, and changes nothing. *)
Theorem fallback_sees_first_1000_orders (db : DB) (count page : Z)
    (uid : option Z) (st : option string) :
  0 <= count -> 1 <= page ->
  get_by_filter false count page uid st db
  = (fst (get_by_filter true count page uid st
            (set_orders (take 1000 (orders db)) db)), db).
Proof.
  intros Hcount Hpage.
  assert (Hoff : 0 <= (page - 1) * count) by nia.
  unfold get_by_filter at 2. rewrite OrderRepository_list_spec by assumption.
  cbn [fst orders set_orders].
  unfold get_by_filter, bind. rewrite OrderRepository_list_spec by lia.
  unfold ret.
  replace (List.filter (matches None None) (orders db)) with (orders db).
  2:{ clear. induction (orders db) as [|x os IH]; simpl; [reflexivity|].
      f_equal. exact IH. }
  replace (Z.to_nat 0) with 0%nat by reflexivity. rewrite drop_0.
  replace (Z.to_nat 1000) with 1000%nat by reflexivity.
  change (match uid with
          | Some u => List.filter (fun o => user_id o =? u) (take 1000 (orders db))
          | None => take 1000 (orders db)
          end) with (where_user uid (take 1000 (orders db))).
  change (match st with
          | Some s => List.filter (fun o => String.eqb (status o) s)
                        (where_user uid (take 1000 (orders db)))
          | None => where_user uid (take 1000 (orders db))
          end) with (where_status st (where_user uid (take 1000 (orders db)))).
  rewrite where_filters, py_slice_window by assumption. reflexivity.
Qed.

(** ** The subscriber of the order queue *)

(** X22.  A message whose action is none of "create", "update_status" and
    "update" (or has no action) is dropped: the subscriber returns
    normally, calls no service and changes nothing. *)
Theorem subscribe_order_ignores_unknown_action {A B : Type}
    (service_create_order : gmap string JValue -> M A)
    (service_update : JValue -> gmap string JValue -> M B)
    (OrderCreate_dump OrderUpdate_dump :
       gmap string JValue -> result (gmap string JValue))
    (message : Envelope) (db : DB) :
  (forall s, action message = JStr s ->
     s <> "create"%string /\ s <> "update_status"%string /\ s <> "update"%string) ->
  subscribe_order service_create_order service_update
    OrderCreate_dump OrderUpdate_dump message db = (Ok tt, db).
Proof.
  intros Hunknown. unfold subscribe_order, is_str.
  destruct (action message) as [| | |s| |]; try reflexivity.
  destruct (Hunknown s eq_refl) as (H1 & H2 & H3).
  rewrite (proj2 (String.eqb_neq _ _) H1), (proj2 (String.eqb_neq _ _) H2),
    (proj2 (String.eqb_neq _ _) H3).
  reflexivity.
Qed.

(** X23.  An "update_status" message is checked for its order id first and
    for its status second: with an order id but no status (or an empty
    one) the subscriber raises "status is required", and with neither it
    raises "order_id is required"; in both cases the service is not
    called and nothing is changed. *)
Theorem subscribe_order_requires_status {A B : Type}
    (service_create_order : gmap string JValue -> M A)
    (service_update : JValue -> gmap string JValue -> M B)
    (OrderCreate_dump OrderUpdate_dump :
       gmap string JValue -> result (gmap string JValue))
    (message : Envelope) (db : DB) :
  action message = JStr "update_status" ->
  truthy (dict_get "status" (data message)) = false ->
  subscribe_order service_create_order service_update
    OrderCreate_dump OrderUpdate_dump message db
  = (Raise (if truthy (dict_get "order_id" (data message))
            then StatusRequired else OrderIdRequired), db).
Proof.
  intros Ha Hs. unfold subscribe_order. rewrite Ha. cbn [is_str].
  replace (String.eqb "update_status" "create") with false by reflexivity.
  replace (String.eqb "update_status" "update_status") with true by reflexivity.
  cbv iota. unfold handle_order_update_status. cbv zeta. rewrite Hs.
  destruct (truthy (dict_get "order_id" (data message))); reflexivity.
Qed.

(** X24.  A well-formed "update_status" message reaches the service as an
    update of the given order with a patch that holds the status and
    nothing else: whatever other keys the message carries, such as items,
    are not passed on.  The outcome and the database are those of the
    service. *)
Theorem subscribe_order_passes_status_only {A B : Type}
    (service_create_order : gmap string JValue -> M A)
    (service_update : JValue -> gmap string JValue -> M B)
    (OrderCreate_dump OrderUpdate_dump :
       gmap string JValue -> result (gmap string JValue))
    (message : Envelope) (db : DB) (order_id new_status : JValue) :
  action message = JStr "update_status" ->
  data message !! "order_id"%string = Some order_id ->
  data message !! "status"%string = Some new_status ->
  truthy order_id = true -> truthy new_status = true ->
  subscribe_order service_create_order service_update
    OrderCreate_dump OrderUpdate_dump message db
  = match service_update order_id {[ "status"%string := new_status ]} db with
    | (Ok _, db') => (Ok tt, db')
    | (Raise e, db') => (Raise e, db')
    end.
Proof.
  intros Ha Hid Hst Htid Htst. unfold subscribe_order. rewrite Ha. cbn [is_str].
  replace (String.eqb "update_status" "create") with false by reflexivity.
  replace (String.eqb "update_status" "update_status") with true by reflexivity.
  cbv iota. unfold handle_order_update_status, dict_get. cbv zeta.
  rewrite Hid, Hst. cbn [default from_option id]. rewrite Htid, Htst.
  cbn [negb]. cbv iota. unfold bind, ret.
  destruct (service_update order_id {[ "status"%string := new_status ]} db)
    as [[b|e] db']; reflexivity.
Qed.

(** ** ProductRepository *)

Lemma rows_of_product_spec (pid : Z) (db : DB) (r : OrderItem) :
  r ∈ rows_of_product pid db <->
  oi_product_id r = pid /\ exists o, o ∈ orders db /\ r ∈ items o.
Proof.
  unfold rows_of_product.
  rewrite list_elem_of_In, filter_In, in_concat, Z.eqb_eq. split.
  - intros [(l & Hl & Hr) Hp]. split; [exact Hp|].
    apply in_map_iff in Hl as (o & <- & Ho).
    exists o. split; apply list_elem_of_In; assumption.
  - intros [Hp (o & Ho & Hr)]. split; [|exact Hp].
    exists (items o). split.
    + apply in_map, list_elem_of_In. exact Ho.
    + apply list_elem_of_In. exact Hr.
Qed.

(** X25.  Updating a product that exists sets the attributes given and
    keeps the others; [get_by_id] then returns the updated product; no
    other product and no stored order is changed, so the unit prices and
    totals of the orders stay what they were when the price of a product
    changes.  Deleting a product that no item row of any order names
    makes [get_by_id] answer [None] and leaves the other products and the
    orders as they are; deleting one that some item row names raises and
    deletes nothing. *)
Theorem product_update_delete_round_trip (db : DB) (pid : Z) (p : Product)
    (patch : ProductPatch) :
  products db !! pid = Some p ->
  (exists p' db',
     ProductRepository_update pid patch db = (Ok (Some p'), db') /\
     price p' = default (price p) (pp_price patch) /\
     stock_quantity p' = default (stock_quantity p) (pp_stock_quantity patch) /\
     ProductRepository_get_by_id pid db' = (Ok (Some p'), db') /\
     (forall pid', pid' <> pid -> products db' !! pid' = products db !! pid') /\
     orders db' = orders db) /\
  ((forall o r, o ∈ orders db -> r ∈ items o -> oi_product_id r <> pid) ->
   exists db'',
     ProductRepository_delete pid db = (Ok tt, db'') /\
     ProductRepository_get_by_id pid db'' = (Ok None, db'') /\
     (forall pid', pid' <> pid -> products db'' !! pid' = products db !! pid') /\
     orders db'' = orders db) /\
  (forall o r, o ∈ orders db -> r ∈ items o -> oi_product_id r = pid ->
   ProductRepository_delete pid db = (Raise IntegrityViolation, db)).
Proof.
  intros Hp. split; [|split].
  - eexists _, _.
    split. { unfold ProductRepository_update. rewrite Hp. reflexivity. }
    split; [reflexivity|]. split; [reflexivity|].
    split. { unfold ProductRepository_get_by_id. simpl.
             rewrite lookup_insert_eq. reflexivity. }
    split; [|reflexivity].
    intros pid' Hne. simpl. apply lookup_insert_ne. congruence.
  - intros Hfree.
    assert (Hnone : rows_of_product pid db = []).
    { destruct (rows_of_product pid db) as [|r l] eqn:Hrows; [reflexivity|].
      assert (Hr : r ∈ rows_of_product pid db) by (rewrite Hrows; left).
      apply rows_of_product_spec in Hr as (Hpid & o & Ho & Hr).
      destruct (Hfree o r Ho Hr Hpid). }
    eexists.
    split. { unfold ProductRepository_delete, bind, ProductRepository_get_by_id.
             rewrite Hp, Hnone. reflexivity. }
    split. { unfold ProductRepository_get_by_id. simpl.
             rewrite lookup_delete_eq. reflexivity. }
    split; [|reflexivity].
    intros pid' Hne. simpl. apply lookup_delete_ne. congruence.
  - intros o r Ho Hr Hpid.
    assert (Hin : r ∈ rows_of_product pid db)
      by (apply rows_of_product_spec; eauto).
    unfold ProductRepository_delete, bind, ProductRepository_get_by_id.
    rewrite Hp. destruct (rows_of_product pid db) as [|r' l]; [|reflexivity].
    apply elem_of_nil in Hin. contradiction.
Qed.

(** X26.  [ProductRepository.get_by_filter] never fails: a page below 1 is
    read as page 1 and a count below 1 as 10, so the offset and the limit
    are never negative.  It returns the number of all products and a page
    of [min(count, total - offset)] of them (none past the end). *)
Theorem product_get_by_filter_clamps (db : DB) (count page : Z) :
  let count' := if count <? 1 then 10 else count in
  let page' := if page <? 1 then 1 else page in
  exists items,
    ProductRepository_get_by_filter count page db
    = (Ok (Z.of_nat (size (products db)), items), db) /\
    ProductRepository_get_by_filter count' page' db
    = (Ok (Z.of_nat (size (products db)), items), db) /\
    Z.of_nat (length items) =
      Z.max 0 (Z.min count' (Z.of_nat (size (products db)) - (page' - 1) * count')) /\
    forall pid p, (pid, p) ∈ items -> products db !! pid = Some p.
Proof.
  intros count' page'.
  assert (Hc : 1 <= count') by (subst count'; destruct (count <? 1) eqn:E;
    [lia|apply Z.ltb_ge in E; lia]).
  assert (Hp : 1 <= page') by (subst page'; destruct (page <? 1) eqn:E;
    [lia|apply Z.ltb_ge in E; lia]).
  assert (Hoff : 0 <= (page' - 1) * count') by nia.
  assert (Hrun : ProductRepository_get_by_filter count page db =
    (Ok (Z.of_nat (size (products db)),
         take (Z.to_nat count')
           (drop (Z.to_nat ((page' - 1) * count')) (map_to_list (products db)))),
     db)).
  { unfold ProductRepository_get_by_filter. fold page' count'.
    destruct (count' <? 0) eqn:E1; [apply Z.ltb_lt in E1; lia|].
    destruct ((page' - 1) * count' <? 0) eqn:E2; [apply Z.ltb_lt in E2; lia|].
    reflexivity. }
  eexists. split; [exact Hrun|]. split; [|split].
  - rewrite <- Hrun. unfold ProductRepository_get_by_filter. fold page' count'.
    replace (if count' <? 1 then 10 else count') with count'
      by (destruct (count' <? 1) eqn:E; [apply Z.ltb_lt in E; lia|reflexivity]).
    replace (if page' <? 1 then 1 else page') with page'
      by (destruct (page' <? 1) eqn:E; [apply Z.ltb_lt in E; lia|reflexivity]).
    reflexivity.
  - rewrite length_take, length_drop, length_map_to_list. lia.
  - intros pid p Hin. apply elem_of_map_to_list.
    eapply elem_of_sublist; [exact Hin|].
    transitivity (drop (Z.to_nat ((page' - 1) * count')) (map_to_list (products db)));
      [apply sublist_take|apply sublist_drop].
Qed.

(** ** The error decorator *)

Lemma lower_app (a b : string) : lower (a +:+ b) = lower a +:+ lower b.
Proof. induction a as [|c a IH]; simpl; [reflexivity|]. rewrite IH. reflexivity. Qed.

Lemma contains_here (n s : string) : String.prefix n s = true -> contains n s = true.
Proof. intros H. destruct s; simpl in *; rewrite H; reflexivity. Qed.

Lemma contains_skip (n a b : string) :
  contains n b = true -> contains n (a +:+ b) = true.
Proof.
  intros H. induction a as [|c a IH]; simpl; [exact H|].
  rewrite IH. apply orb_true_r.
Qed.

Lemma prefix_app (n b : string) : String.prefix n (n +:+ b) = true.
Proof.
  induction n as [|c n IH]; simpl; [destruct b; reflexivity|].
  destruct (ascii_dec c c); [exact IH|contradiction].
Qed.

Lemma contains_infix (n a b : string) : contains n (a +:+ n +:+ b) = true.
Proof. apply contains_skip, contains_here, prefix_app. Qed.

Lemma nonempty_app (c : ascii) (a b : string) :
  String.eqb (String c a +:+ b) "" = false.
Proof. reflexivity. Qed.

(** X27.  The decorator tells "not found" from the other domain errors by
    the text of the message, and for every message that the order
    service, the order repository and the handlers raise this agrees
    with the kind of the error: a missing user, product or order is
    answered with 404, every other one with 400, and the detail is the
    message itself. *)
Theorem handle_db_errors_classifies_messages {A : Type} (e : error) (msg : string) :
  msg ∈ error_messages e ->
  @handle_db_errors A (inr (ValueError msg))
  = HTTPException (if not_found_kind e then 404 else 400) msg.
Proof.
  intros Hin.
  assert (Hnf : forall m,
            String.eqb m "" = false ->
            contains "not found" (lower m) = true ->
            @handle_db_errors A (inr (ValueError m)) = HTTPException 404 m).
  { intros m H1 H2. unfold handle_db_errors. rewrite H1, H2. reflexivity. }
  destruct e; simpl in Hin;
    repeat (apply elem_of_cons in Hin as [->|Hin]);
    try (apply elem_of_nil in Hin; contradiction);
    try reflexivity; cbn [not_found_kind]; apply Hnf; try reflexivity.
  all: rewrite !lower_app; do 2 apply contains_skip; reflexivity.
Qed.

(** * The further properties at the sample databases *)

(** Membership in a list that is written out. *)
Ltac each_member H :=
  repeat (apply elem_of_cons in H as [->|H]);
  [..|apply elem_of_nil in H; contradiction].

Ltac shop_request_is_valid :=
  split; [vm_compute; reflexivity|];
  split; [discriminate|];
  let it := fresh "it" in let Hin := fresh "Hin" in
  intros it Hin; each_member Hin;
  (split; [reflexivity|eexists; split; [vm_compute; reflexivity|simpl; lia]]).

Lemma create_order_succeeds_iff_witness :
  valid_request shop (mkOrderCreate 1 [mkItemIn 1 5; mkItemIn 2 3]) /\
  is_ok (fst (create_order (mkOrderCreate 1 [mkItemIn 1 5; mkItemIn 2 3]) shop)).
Proof.
  assert (H1 : valid_request shop (mkOrderCreate 1 [mkItemIn 1 5; mkItemIn 2 3]))
    by shop_request_is_valid.
  split; [exact H1|].
  exact (proj2 (create_order_succeeds_iff shop _) H1).
Defined.

Lemma create_order_checks_quantities_first_witness :
  let order_data := mkOrderCreate 1 [mkItemIn 9 5; mkItemIn 1 0] in
  oc_user_id order_data ∈ users shop /\
  mkItemIn 1 0 ∈ oc_items order_data /\
  quantity (mkItemIn 1 0) <= 0 /\
  create_order order_data shop = (Raise BadQuantity, shop).
Proof.
  intros order_data.
  assert (H1 : oc_user_id order_data ∈ users shop)
    by (vm_compute; reflexivity).
  assert (H2 : mkItemIn 1 0 ∈ oc_items order_data) by (right; left).
  assert (H3 : quantity (mkItemIn 1 0) <= 0) by (simpl; lia).
  split; [exact H1|]. split; [exact H2|]. split; [exact H3|].
  exact (create_order_checks_quantities_first shop order_data _ H1 H2 H3).
Defined.

Lemma create_order_reports_first_failure_witness :
  let order_data := mkOrderCreate 1 [mkItemIn 1 5; mkItemIn 2 10; mkItemIn 9 1] in
  oc_user_id order_data ∈ users shop /\
  (forall x, x ∈ oc_items order_data -> 0 < quantity x) /\
  (forall x, x ∈ [mkItemIn 1 5] -> passes_validation shop x) /\
  fails_validation shop (mkItemIn 2 10) /\
  create_order order_data shop = (Raise InsufficientStock, shop).
Proof.
  intros order_data.
  assert (H1 : oc_user_id order_data ∈ users shop)
    by (vm_compute; reflexivity).
  assert (H2 : forall x, x ∈ oc_items order_data -> 0 < quantity x)
    by (intros x Hx; each_member Hx; reflexivity).
  assert (H3 : oc_items order_data
               = [mkItemIn 1 5] ++ mkItemIn 2 10 :: [mkItemIn 9 1]) by reflexivity.
  assert (H4 : forall x, x ∈ [mkItemIn 1 5] -> passes_validation shop x)
    by (intros x Hx; each_member Hx;
        eexists; split; [vm_compute; reflexivity|simpl; lia]).
  assert (H5 : fails_validation shop (mkItemIn 2 10)) by (vm_compute; reflexivity).
  split; [exact H1|]. split; [exact H2|]. split; [exact H4|]. split; [exact H5|].
  exact (create_order_reports_first_failure shop order_data _ _ _ H1 H2 H3 H4 H5).
Defined.

Lemma orders_of_shop_with_order :
  orders shop_with_order = [mkOrder 1 1 100 "pending" [mkOrderItem 1 1 1 2 50]].
Proof. vm_compute. reflexivity. Defined.

Lemma shop_with_order_next_key_is_free :
  forall o', o' ∈ orders shop_with_order -> o_id o' <> next_order_id shop_with_order.
Proof.
  intros o' Hin. rewrite orders_of_shop_with_order in Hin.
  each_member Hin. discriminate.
Defined.


Lemma create_order_distinct_products_stock_witness :
  let order_data := mkOrderCreate 1 [mkItemIn 1 2; mkItemIn 2 3] in
  valid_request shop order_data /\
  NoDup (map product_id (oc_items order_data)) /\
  exists o db',
    create_order order_data shop = (Ok o, db') /\
    (forall it, it ∈ oc_items order_data ->
       products db' !! product_id it =
       add_stock (- quantity it) <$> products shop !! product_id it) /\
    (forall pid, pid ∉ map product_id (oc_items order_data) ->
       products db' !! pid = products shop !! pid) /\
    ((forall pid p, products shop !! pid = Some p -> 0 <= stock_quantity p) ->
     forall pid p', products db' !! pid = Some p' -> 0 <= stock_quantity p').
Proof.
  intros order_data.
  assert (H1 : valid_request shop order_data) by shop_request_is_valid.
  assert (H2 : NoDup (map product_id (oc_items order_data)))
    by (apply (bool_decide_unpack _); vm_compute; exact I).
  split; [exact H1|]. split; [exact H2|].
  exact (create_order_distinct_products_stock shop order_data H1 H2).
Defined.

Lemma create_order_oversells_repeated_product_witness :
  let order_data := mkOrderCreate 1 [mkItemIn 2 2; mkItemIn 2 2] in
  valid_request shop order_data /\
  products shop !! 2 = Some (mkProduct 20 3) /\
  3 < requested_quantity 2 (oc_items order_data) /\
  exists o db' p',
    create_order order_data shop = (Ok o, db') /\
    products db' !! 2 = Some p' /\
    stock_quantity p' = 3 - requested_quantity 2 (oc_items order_data) /\
    stock_quantity p' < 0.
Proof.
  intros order_data.
  assert (H1 : valid_request shop order_data) by shop_request_is_valid.
  assert (H2 : products shop !! 2 = Some (mkProduct 20 3))
    by (vm_compute; reflexivity).
  assert (H3 : stock_quantity (mkProduct 20 3)
               < requested_quantity 2 (oc_items order_data))
    by (vm_compute; reflexivity).
  split; [exact H1|]. split; [exact H2|]. split; [exact H3|].
  exact (create_order_oversells_repeated_product shop order_data 2 _ H1 H2 H3).
Defined.

Lemma OrderRepository_create_outcome_witness :
  let its := [mkItemIn 1 (-5); mkItemIn 9 1] in
  fits_columns 1 its /\
  (is_ok (fst (OrderRepository_create 1 its shop)) <->
   1 ∈ users shop /\
   forall it, it ∈ its -> is_Some (products shop !! product_id it)) /\
  OrderRepository_create 1 its shop
  = (Raise (ProductNotFound 9),
     mkDB (users shop) (products shop) (orders shop) (next_order_id shop + 1)
          (next_item_id shop)).
Proof.
  intros its.
  assert (H0 : fits_columns 1 its).
  { split; [unfold int32; lia|]. intros it Hit. each_member Hit;
      unfold int32; simpl; lia. }
  assert (H1 : 1 ∈ users shop) by (vm_compute; reflexivity).
  assert (H2 : forall x, x ∈ [mkItemIn 1 (-5)] ->
                 is_Some (products shop !! product_id x))
    by (intros x Hx; each_member Hx; eexists; vm_compute; reflexivity).
  assert (H3 : products shop !! product_id (mkItemIn 9 1) = None)
    by (vm_compute; reflexivity).
  split; [exact H0|]. split.
  - exact (proj1 (OrderRepository_create_outcome 1 its shop H0)).
  - exact (proj2 (proj2 (OrderRepository_create_outcome 1 its shop H0))
             [mkItemIn 1 (-5)] (mkItemIn 9 1) [] H1 eq_refl H2 H3).
Defined.

Lemma absent_order_operations_witness :
  let patch := mkPatch (Some "returned"%string) (Some []) in
  find_order 7 (orders shop_with_order) = None /\
  OrderRepository_get_by_id 7 shop_with_order = (Ok None, shop_with_order) /\
  OrderRepository_update 7 patch shop_with_order = (Ok None, shop_with_order) /\
  OrderRepository_delete 7 shop_with_order = (Ok tt, shop_with_order) /\
  OrderService_get_by_id 7 shop_with_order
    = (Raise (OrderNotFound 7), shop_with_order) /\
  OrderService_delete 7 shop_with_order
    = (Raise (OrderNotFound 7), shop_with_order) /\
  OrderService_update 7 patch shop_with_order
    = (Raise (OrderNotFound 7), shop_with_order).
Proof.
  intros patch.
  assert (H1 : find_order 7 (orders shop_with_order) = None)
    by (vm_compute; reflexivity).
  split; [exact H1|].
  exact (absent_order_operations shop_with_order 7 patch H1).
Defined.

Lemma delete_removes_order_keeps_stock_witness :
  let order := mkOrder 1 1 100 "pending" [mkOrderItem 1 1 1 2 50] in
  find_order 1 (orders shop_with_order) = Some order /\
  exists db',
    OrderService_delete 1 shop_with_order = (Ok tt, db') /\
    OrderService_get_by_id 1 db' = (Raise (OrderNotFound 1), db') /\
    (forall oid', oid' <> 1 ->
       find_order oid' (orders db') = find_order oid' (orders shop_with_order)) /\
    products db' = products shop_with_order /\
    users db' = users shop_with_order.
Proof.
  intros order.
  assert (H1 : find_order 1 (orders shop_with_order) = Some order)
    by (vm_compute; reflexivity).
  split; [exact H1|].
  exact (delete_removes_order_keeps_stock shop_with_order 1 order H1).
Defined.

Lemma status_update_changes_status_only_witness :
  let order := mkOrder 1 1 100 "pending" [mkOrderItem 1 1 1 2 50] in
  find_order 1 (orders shop_with_order) = Some order /\
  "shipped"%string ∈ valid_statuses /\
  exists db',
    OrderService_update 1 (mkPatch (Some "shipped"%string) None) shop_with_order
      = (Ok (Some (set_status "shipped" order)), db') /\
    find_order 1 (orders db') = Some (set_status "shipped" order) /\
    items (set_status "shipped" order) = items order /\
    total_amount (set_status "shipped" order) = total_amount order.
Proof.
  intros order.
  assert (H1 : find_order 1 (orders shop_with_order) = Some order)
    by (vm_compute; reflexivity).
  assert (H2 : "shipped"%string ∈ valid_statuses) by (right; right; left).
  split; [exact H1|]. split; [exact H2|].
  exact (status_update_changes_status_only shop_with_order 1 order _ H1 H2).
Defined.

Lemma update_replaces_rows_by_product_witness :
  let order := mkOrder 1 1 100 "pending" [mkOrderItem 1 1 1 2 50] in
  let its := [mkItemIn 2 1; mkItemIn 1 3; mkItemIn 1 4] in
  find_order 1 (orders shop_with_order) = Some order /\
  NoDup (map oi_product_id (items order)) /\
  (forall ni, ni ∈ its -> is_Some (products shop_with_order !! product_id ni)) /\
  exists o' db',
    OrderService_update 1 (mkPatch None (Some its)) shop_with_order
      = (Ok (Some o'), db') /\
    find_order 1 (orders db') = Some o' /\
    status o' = status order /\
    total_amount o' = accumulate (request_terms shop_with_order its) /\
    items o' ≡ₚ
      filter (fun r => oi_product_id r ∈ map product_id its)
             (map (reconciled_row shop_with_order its) (items order))
      ++ inserted_rows 1 shop_with_order (map oi_product_id (items order)) 0 its.
Proof.
  intros order its.
  assert (H1 : find_order 1 (orders shop_with_order) = Some order)
    by (vm_compute; reflexivity).
  assert (H2 : NoDup (map oi_product_id (items order)))
    by (apply (bool_decide_unpack _); vm_compute; exact I).
  assert (H3 : forall ni, ni ∈ its ->
                 is_Some (products shop_with_order !! product_id ni))
    by (intros ni Hni; each_member Hni; eexists; vm_compute; reflexivity).
  split; [exact H1|]. split; [exact H2|]. split; [exact H3|].
  exact (update_replaces_rows_by_product shop_with_order 1 order its H1 H2 H3).
Defined.

Lemma update_distinct_items_total_witness :
  let order := mkOrder 1 1 100 "pending" [mkOrderItem 1 1 1 2 50] in
  let its := [mkItemIn 2 1; mkItemIn 1 3] in
  find_order 1 (orders shop_with_order) = Some order /\
  NoDup (map oi_product_id (items order)) /\
  NoDup (map product_id its) /\
  (forall ni, ni ∈ its -> is_Some (products shop_with_order !! product_id ni)) /\
  exists o' db',
    OrderService_update 1 (mkPatch None (Some its)) shop_with_order
      = (Ok (Some o'), db') /\
    map item_of_row (items o') ≡ₚ its /\
    NoDup (map oi_product_id (items o')) /\
    (forall r, r ∈ items o' ->
       price <$> products shop_with_order !! oi_product_id r
         = Some (oi_unit_price r)) /\
    total_amount o' = accumulate (request_terms shop_with_order its) /\
    request_terms shop_with_order its ≡ₚ row_terms (items o').
Proof.
  intros order its.
  assert (H1 : find_order 1 (orders shop_with_order) = Some order)
    by (vm_compute; reflexivity).
  assert (H2 : NoDup (map oi_product_id (items order)))
    by (apply (bool_decide_unpack _); vm_compute; exact I).
  assert (H3 : NoDup (map product_id its))
    by (apply (bool_decide_unpack _); vm_compute; exact I).
  assert (H4 : forall ni, ni ∈ its ->
                 is_Some (products shop_with_order !! product_id ni))
    by (intros ni Hni; each_member Hni; eexists; vm_compute; reflexivity).
  split; [exact H1|]. split; [exact H2|]. split; [exact H3|]. split; [exact H4|].
  exact (update_distinct_items_total shop_with_order 1 order its H1 H2 H3 H4).
Defined.

Lemma update_with_no_items_empties_order_witness :
  let order := mkOrder 1 1 100 "pending" [mkOrderItem 1 1 1 2 50] in
  find_order 1 (orders shop_with_order) = Some order /\
  NoDup (map oi_product_id (items order)) /\
  exists o' db',
    OrderService_update 1 (mkPatch None (Some [])) shop_with_order
      = (Ok (Some o'), db') /\
    find_order 1 (orders db') = Some o' /\
    items o' = [] /\ total_amount o' = 0 /\ status o' = status order.
Proof.
  intros order.
  assert (H1 : find_order 1 (orders shop_with_order) = Some order)
    by (vm_compute; reflexivity).
  assert (H2 : NoDup (map oi_product_id (items order)))
    by (apply (bool_decide_unpack _); vm_compute; exact I).
  split; [exact H1|]. split; [exact H2|].
  exact (update_with_no_items_empties_order shop_with_order 1 order H1 H2).
Defined.

Lemma update_with_missing_product_witness :
  let order := mkOrder 1 1 100 "pending" [mkOrderItem 1 1 1 2 50] in
  let patch :=
    mkPatch (Some "cancelled"%string) (Some ([mkItemIn 1 1] ++ mkItemIn 9 1 :: [])) in
  let run := OrderService_update 1 patch shop_with_order in
  find_order 1 (orders shop_with_order) = Some order /\
  products shop_with_order !! product_id (mkItemIn 9 1) = None /\
  cancels shop_with_order 1 patch /\
  fst run = Raise (ProductNotFound 9) /\
  orders (snd run) = orders shop_with_order /\
  stock_quantity <$> products shop_with_order !! 1 = Some 98 /\
  stock_quantity <$> products (snd run) !! 1 = Some 100.
Proof.
  intros order patch run.
  assert (H1 : find_order 1 (orders shop_with_order) = Some order)
    by (vm_compute; reflexivity).
  assert (H2 : forall s, Some "cancelled"%string = Some s -> s ∈ valid_statuses)
    by (intros s [= <-]; do 4 right; left).
  assert (H3 : forall x, x ∈ [mkItemIn 1 1] ->
                 is_Some (products shop_with_order !! product_id x))
    by (intros x Hx; each_member Hx; eexists; vm_compute; reflexivity).
  assert (H4 : products shop_with_order !! product_id (mkItemIn 9 1) = None)
    by (vm_compute; reflexivity).
  assert (H5 : cancels shop_with_order 1 patch)
    by (split; [reflexivity|exists order; split; [exact H1|discriminate]]).
  pose proof (update_with_missing_product shop_with_order 1 order
                (Some "cancelled"%string) [mkItemIn 1 1] [] (mkItemIn 9 1)
                H1 H2 H3 H4) as (R1 & R2 & _ & R4).
  split; [exact H1|]. split; [exact H4|]. split; [exact H5|].
  split; [exact R1|]. split; [exact R2|].
  split; [vm_compute; reflexivity|].
  fold patch run in R4. rewrite (R4 H5 1). vm_compute. reflexivity.
Defined.

Lemma create_then_cancel_restores_stock_witness :
  let order_data := mkOrderCreate 1 [mkItemIn 2 2; mkItemIn 2 1] in
  valid_request shop_with_order order_data /\
  exists o db1 o2 db2,
    create_order order_data shop_with_order = (Ok o, db1) /\
    OrderService_update (o_id o) (mkPatch (Some "cancelled"%string) None) db1
      = (Ok (Some o2), db2) /\
    status o2 = "cancelled"%string /\
    items o2 = items o /\
    products db2 = products shop_with_order.
Proof.
  intros order_data.
  assert (H1 : valid_request shop_with_order order_data) by shop_request_is_valid.
  split; [exact H1|].
  exact (create_then_cancel_restores_stock shop_with_order order_data H1
           shop_with_order_next_key_is_free).
Defined.

Lemma order_service_keeps_orders_ok_witness :
  orders_ok shop_with_order /\
  (forall order_data, orders_ok (snd (create_order order_data shop_with_order))) /\
  (forall oid patch, orders_ok (snd (OrderService_update oid patch shop_with_order))) /\
  (forall oid, orders_ok (snd (OrderService_delete oid shop_with_order))) /\
  (forall oid, orders_ok (snd (OrderService_get_by_id oid shop_with_order))) /\
  (forall f count page uid st,
     orders_ok (snd (get_by_filter f count page uid st shop_with_order))).
Proof.
  assert (H1 : orders_ok shop_with_order).
  { split.
    - apply (bool_decide_unpack _). vm_compute. exact I.
    - intros o Ho. rewrite orders_of_shop_with_order in Ho. each_member Ho.
      split; [reflexivity|left]. }
  split; [exact H1|].
  exact (order_service_keeps_orders_ok shop_with_order H1).
Defined.

Lemma list_total_and_page_witness :
  0 <= 2 /\ 0 <= 1 /\
  exists page,
    OrderRepository_list 2 1 (Some 1) None shop_three_orders
    = (Ok (3, page), shop_three_orders) /\
    Z.of_nat (length page) = 2 /\
    page `sublist_of` orders shop_three_orders /\
    forall o, o ∈ page -> matches (Some 1) None o = true.
Proof.
  assert (H1 : 0 <= 2) by lia.
  assert (H2 : 0 <= 1) by lia.
  split; [exact H1|]. split; [exact H2|].
  exact (list_total_and_page shop_three_orders 2 1 (Some 1) None H1 H2).
Defined.

Lemma pages_tile_the_listing_witness :
  0 <= 2 /\
  concat (map (fun i : nat => page_of true 2 (Some 1) None shop_three_orders (Z.of_nat i))
              (seq 1 2))
  = take (2 * Z.to_nat 2)
      (List.filter (matches (Some 1) None) (orders shop_three_orders)).
Proof.
  assert (H1 : 0 <= 2) by lia.
  split; [exact H1|].
  exact (pages_tile_the_listing shop_three_orders 2 (Some 1) None 2 H1).
Defined.

Lemma pages_are_disjoint_witness :
  let o1 := mkOrder 1 1 100 "pending" [mkOrderItem 1 1 1 2 50] in
  let o2 := mkOrder 3 1 20 "pending" [mkOrderItem 3 3 2 1 20] in
  NoDup (map o_id (orders shop_three_orders)) /\
  o1 ∈ page_of true 1 None None shop_three_orders 1 /\
  o2 ∈ page_of true 1 None None shop_three_orders 3 /\
  o_id o1 <> o_id o2.
Proof.
  intros o1 o2.
  assert (H1 : NoDup (map o_id (orders shop_three_orders)))
    by (apply (bool_decide_unpack _); vm_compute; exact I).
  assert (H2 : 0 <= 1) by lia.
  assert (H3 : 1 <= 1) by lia.
  assert (H4 : 1 < 3) by lia.
  assert (H5 : o1 ∈ page_of true 1 None None shop_three_orders 1)
    by (vm_compute; left).
  assert (H6 : o2 ∈ page_of true 1 None None shop_three_orders 3)
    by (vm_compute; left).
  split; [exact H1|]. split; [exact H5|]. split; [exact H6|].
  exact (pages_are_disjoint shop_three_orders 1 1 3 None None o1 o2
           H1 H2 H3 H4 H5 H6).
Defined.

Lemma fallback_sees_first_1000_orders_witness :
  0 <= 10 /\ 1 <= 101 /\
  get_by_filter false 10 101 (Some 1) None crowded
  = (fst (get_by_filter true 10 101 (Some 1) None
            (set_orders (take 1000 (orders crowded)) crowded)), crowded).
Proof.
  assert (H1 : 0 <= 10) by lia.
  assert (H2 : 1 <= 101) by lia.
  split; [exact H1|]. split; [exact H2|].
  exact (fallback_sees_first_1000_orders crowded 10 101 (Some 1) None H1 H2).
Defined.

Lemma subscribe_order_ignores_unknown_action_witness :
  let message :=
    mkEnvelope (JStr "delete") {[ "order_id"%string := JInt 1 ]} in
  (forall s, action message = JStr s ->
     s <> "create"%string /\ s <> "update_status"%string /\ s <> "update"%string) /\
  subscribe_order creating_service cancelling_service accept_all accept_all
    message shop_with_order = (Ok tt, shop_with_order).
Proof.
  intros message.
  assert (H1 : forall s, action message = JStr s ->
                 s <> "create"%string /\ s <> "update_status"%string /\
                 s <> "update"%string)
    by (intros s [= <-]; repeat split; discriminate).
  split; [exact H1|].
  exact (subscribe_order_ignores_unknown_action creating_service
           cancelling_service accept_all accept_all message shop_with_order H1).
Defined.

Lemma subscribe_order_requires_status_witness :
  let message :=
    mkEnvelope (JStr "update_status")
      (<[ "order_id"%string := JInt 1 ]> {[ "status"%string := JStr "" ]}) in
  action message = JStr "update_status" /\
  truthy (dict_get "status" (data message)) = false /\
  subscribe_order creating_service cancelling_service accept_all accept_all
    message shop_with_order = (Raise StatusRequired, shop_with_order).
Proof.
  intros message.
  assert (H1 : action message = JStr "update_status") by reflexivity.
  assert (H2 : truthy (dict_get "status" (data message)) = false)
    by (vm_compute; reflexivity).
  split; [exact H1|]. split; [exact H2|].
  exact (subscribe_order_requires_status creating_service cancelling_service
           accept_all accept_all message shop_with_order H1 H2).
Defined.

Lemma subscribe_order_passes_status_only_witness :
  let message :=
    mkEnvelope (JStr "update_status")
      (<[ "order_id"%string := JInt 1 ]>
         (<[ "status"%string := JStr "shipped" ]>
            {[ "items"%string := JList [] ]})) in
  action message = JStr "update_status" /\
  data message !! "order_id"%string = Some (JInt 1) /\
  data message !! "status"%string = Some (JStr "shipped") /\
  subscribe_order creating_service cancelling_service accept_all accept_all
    message shop_with_order
  = match cancelling_service (JInt 1) {[ "status"%string := JStr "shipped" ]}
            shop_with_order with
    | (Ok _, db') => (Ok tt, db')
    | (Raise e, db') => (Raise e, db')
    end.
Proof.
  intros message.
  assert (H1 : action message = JStr "update_status") by reflexivity.
  assert (H2 : data message !! "order_id"%string = Some (JInt 1))
    by (vm_compute; reflexivity).
  assert (H3 : data message !! "status"%string = Some (JStr "shipped"))
    by (vm_compute; reflexivity).
  split; [exact H1|]. split; [exact H2|]. split; [exact H3|].
  exact (subscribe_order_passes_status_only creating_service cancelling_service
           accept_all accept_all message shop_with_order _ _ H1 H2 H3
           eq_refl eq_refl).
Defined.

Lemma product_update_delete_round_trip_witness :
  let order := mkOrder 1 1 100 "pending" [mkOrderItem 1 1 1 2 50] in
  let row := mkOrderItem 1 1 1 2 50 in
  products shop_with_order !! 1 = Some (mkProduct 50 98) /\
  products shop_with_order !! 2 = Some (mkProduct 20 3) /\
  (exists p' db',
     ProductRepository_update 1 (mkProductPatch (Some 60) None) shop_with_order
       = (Ok (Some p'), db') /\
     price p' = 60 /\
     stock_quantity p' = 98 /\
     ProductRepository_get_by_id 1 db' = (Ok (Some p'), db') /\
     (forall pid', pid' <> 1 ->
        products db' !! pid' = products shop_with_order !! pid') /\
     orders db' = orders shop_with_order) /\
  (forall o r, o ∈ orders shop_with_order -> r ∈ items o -> oi_product_id r <> 2) /\
  (exists db'',
     ProductRepository_delete 2 shop_with_order = (Ok tt, db'') /\
     ProductRepository_get_by_id 2 db'' = (Ok None, db'') /\
     (forall pid', pid' <> 2 ->
        products db'' !! pid' = products shop_with_order !! pid') /\
     orders db'' = orders shop_with_order) /\
  order ∈ orders shop_with_order /\ row ∈ items order /\
  ProductRepository_delete 1 shop_with_order
    = (Raise IntegrityViolation, shop_with_order).
Proof.
  intros order row.
  assert (H1 : products shop_with_order !! 1 = Some (mkProduct 50 98))
    by (vm_compute; reflexivity).
  assert (H2 : products shop_with_order !! 2 = Some (mkProduct 20 3))
    by (vm_compute; reflexivity).
  assert (H3 : forall o r, o ∈ orders shop_with_order -> r ∈ items o ->
                 oi_product_id r <> 2).
  { intros o r Ho Hr. rewrite orders_of_shop_with_order in Ho.
    each_member Ho. each_member Hr. discriminate. }
  assert (H4 : order ∈ orders shop_with_order)
    by (rewrite orders_of_shop_with_order; left).
  assert (H5 : row ∈ items order) by left.
  split; [exact H1|]. split; [exact H2|].
  split.
  { exact (proj1 (product_update_delete_round_trip shop_with_order 1 _
                    (mkProductPatch (Some 60) None) H1)). }
  split; [exact H3|].
  split.
  { exact (proj1 (proj2 (product_update_delete_round_trip shop_with_order 2 _
                           (mkProductPatch None None) H2)) H3). }
  split; [exact H4|]. split; [exact H5|].
  exact (proj2 (proj2 (product_update_delete_round_trip shop_with_order 1 _
                         (mkProductPatch None None) H1)) order row H4 H5 eq_refl).
Defined.

Lemma handle_db_errors_classifies_messages_witness :
  "Order 7 not found"%string ∈ error_messages (OrderNotFound 7) /\
  "Insufficient stock"%string ∈ error_messages InsufficientStock /\
  @handle_db_errors Order (inr (ValueError "Order 7 not found"))
    = HTTPException 404 "Order 7 not found" /\
  @handle_db_errors Order (inr (ValueError "Insufficient stock"))
    = HTTPException 400 "Insufficient stock".
Proof.
  assert (H1 : "Order 7 not found"%string ∈ error_messages (OrderNotFound 7))
    by (vm_compute; left).
  assert (H2 : "Insufficient stock"%string ∈ error_messages InsufficientStock)
    by left.
  split; [exact H1|]. split; [exact H2|]. split.
  - exact (handle_db_errors_classifies_messages (OrderNotFound 7) _ H1).
  - exact (handle_db_errors_classifies_messages InsufficientStock _ H2).
Defined.
